(* ===== verification/_CoqProject ===== *)
-Q . S2P
Prelude.v
Calendar.v
Strptime.v
Float64.v
Optimizer.v
Forecast.v
ForecastSteps.v
Dataset.v
Csv.v
Charts.v
Base64.v
Figures.v
Excel.v
App.v
Sunucu.v
Orman.v
