(* ===== verification/Prelude.v ===== *)
(** * Pace: a verification development of the exam-session forecaster

    The repository is one Flask application, [src/app.py]. It forecasts,
    for every business day of a requested date range, how many candidates
    to invite to an exam session of capacity 45. It then predicts how many
    will confirm, decline and attend. The development models the program
    as pure Rocq functions, one file per component, in the order in which
    the code composes them:

    - [Prelude] (this file): Python's exceptions as an error type
      [exn], a result type [result] with its own monad notation (scope
      [pace_scope]), Python's [range] ([py_range]) and [round]
      ([py_round], round half to even on exact rationals), generic list
      and option lemmas, transition sequences ([star], [irred],
      [eventually], after Leroy's [Sequences]) and the hint database
      [pace].
    - [Calendar]: the proleptic Gregorian calendar of CPython's
      [datetime]: [toordinal], [weekday], [isocalendar().week], the
      [+ timedelta(days=1)] step with its [OverflowError], the
      lexicographic comparison of dates, and [resmi_tatil_mi]
      (weekend or holiday, app.py lines 43-45) against a holiday
      provider given as a type-class instance.
    - [Float64]: Python's float arithmetic, IEEE 754 binary64 with
      round to nearest, ties to even: [b64] rounds an exact rational to
      the 53-bit significand at the exponent [ulp_exp] (subnormals down
      to [2^-1074]). Its lemmas: rounding is monotone, odd and
      compatible with [==], its error is half a unit in the last place
      (relative [2^-53] for normal numbers), and the floats just above
      45 are [2^-47] apart.
    - [Strptime]: [datetime.strptime] / [pandas.to_datetime] for the
      formats ["%Y-%m-%d"] and ["%d%m%Y"]: the directive regexes of
      CPython's [_strptime.TimeRE], matched with the backtracking order of
      [re], the "unconverted data remains" check and the calendar
      validation; and [strftime("%Y-%m-%d")] (glibc's unpadded [%Y])
      and [strftime("%A")].
    - [Optimizer]: the capacity-constrained search of [tahmin_et]
      (lines 52-85): the candidate scan over [range(20, 150)] with the
      strict [<] tie-break, the ceiling check, the fallback to 20 and
      the rescaled, rounded funnel counts. The four random-forest
      models are an interface, the record [FunnelModels]: a trained
      model is a pure function from the feature row to a number.
    - [Forecast]: [tahmin_et] itself (lines 47-98): parsing the two
      date strings, the [while] loop over the days with fuel, skipping
      holidays and building the daily records.
    - [ForecastSteps]: the same loop as a step relation [adim] on the
      states [Dongu] (running), [Bitti] (done) and [Hata] (overflow),
      with its executable step [adim_fn].
    - [Dataset]: [load_and_prepare_data] (lines 14-25) after the CSV
      read: the column type pandas infers for [Tarih], [astype(str)],
      the coercing date parse, [dropna] and the four feature columns.
      It also holds [egit_modeller] (lines 27-41) over an abstract
      fitting function.
    - [Csv]: [pd.read_csv(..., sep=';')] of line 15 as pandas' C
      tokenizer runs it: the parser record [parser_t], one handler per
      tokenizer state (start of record or field, in a field, in a
      quoted field, a quote inside quotes, a blank line with its
      backtrack, the CR LF pair), the field-count check of [end_line]
      with its padding and its ParserError, the end of file; then the
      header, the implicit index, the NA strings, the column lookups
      ([df['...']], KeyError) and the checks [fit] makes on its
      targets. [egitim_verisi] gives the rows [Dataset] starts from. A
      control automaton [gecis] with a potential shows the tokenizer
      loop ends; a writer of the history file is the specification of
      what the file holds.
    - [Charts]: the data of [grafik_uret] (lines 102-111 and 133):
      the rows re-parsed by [pd.to_datetime] within the [Timestamp]
      range, sorted by date, the cumulative attendance, the room use
      (a binary64 quotient) and the ["%d-%m"] bar labels.
    - [Base64]: [base64.b64encode] (line 117) as CPython's
      [binascii.b2a_base64] computes it: a loop over the bytes with a
      bit buffer [leftchar], an [unsigned int] whose shift wraps at 32
      bits, the table lookup of every 6-bit group and the ['=']
      padding; next to it the RFC 4648 encoding [b64_ref] and its
      decoder [a2b] as the specification.
    - [Figures]: the three matplotlib figures of [grafik_uret] (lines
      113-140) as axes states ([Eksen]) built by [plot], [bar],
      [axhline], [set_title], [set_ylim] and [legend] in the order of
      the code; the category axis of the bar chart ([bar_konumlari]);
      and [grafik_base64], the Base64 text of the bytes of a
      PNG renderer given as the class [PngYazici].
    - [Excel]: the sheet of [indir] (lines 164-174): its name, the
      header from the record keys and one row of cells per record.
    - [App]: the web layer (lines 142-174). [handle] maps a state
      (the global [son_tahminler]) and a request ([PostIndex],
      [GetIndex], [GetIndir]) to a response and the next state. A failed
      POST becomes a 500 and keeps the state. [reachable] is the
      inductive set of states reachable by any sequence of requests.
    - [Sunucu]: [app.run] is Werkzeug's threaded server. Requests run
      as threads ([Is]) whose steps are the accesses to the global: a
      POST computes and then writes once, [indir] tests and then reads
      again. [adim] is the step relation that interleaves them.
    - [Orman]: the random forests. A fitted tree ([Agac]) sends a
      sample left when its feature is at most the threshold. A forest
      predicts as [ForestRegressor.predict] does: the trees' values are
      added in a float accumulator and divided by the number of trees,
      each operation rounded by [b64]. Training is the class
      [OrmanEgitimi]: 100 trees, each leaf the rounded mean of some
      training targets. [orman_fit] is the fitting function the other
      files take as a variable.

    Components interact through interfaces. The holiday table is the
    class [HolidayProvider], which [resmi_tatil_mi], the dataset
    features, the loop and the handlers take as an instance. The
    trained models are the record [FunnelModels]. The fitting function
    and the CSV rows are section variables of [Dataset] and [App]. The
    rows are what [Csv.egitim_verisi] reads from the file. The fitting
    function is [Orman.orman_fit] for any instance of the training
    class [OrmanEgitimi]. The PNG renderer is the class [PngYazici].
    [App] composes [Dataset], [Forecast], [Charts], [Figures] and
    [Excel] as [index] and [indir] do. [Sunucu] runs [App]'s handlers
    as interleaved threads.

    Numbers. A Python float is a rational [Q] that is a binary64 value,
    and every float operation of the optimizer ([/] and [*] of lines
    71-72 and 82-85, [45 * 0.9] of line 52, the [-] of line 75) is the
    exact operation followed by [Float64.b64]. The model outputs are
    arbitrary rationals (a trained forest returns floats). The exponent
    is unbounded: overflow to [inf] (a baseline below about
    [2^-1016] or a product beyond [2^1024]) is not modelled, and the
    ceiling theorem assumes a finite baseline. [abs] and the comparisons
    are exact. [int(round(x))] is [py_round]: Python 3 rounds halves to
    even.
    Dates are [Z] triples checked against CPython's bounds: years
    1..9999, ordinals up to 3652059. The dates [pandas.to_datetime] parses
    are also checked against the [pandas.Timestamp] range 1677-09-22..2262-04-11.

    Fuel. The [while] loop of [tahmin_et] runs on a [nat] fuel. The
    fuel is the number of days from the start to the end date, plus one
    for the final test of the loop condition.
    [Forecast.tahmin_et_terminates] shows that it never runs out, and
    [ForecastSteps.tahmin_et_adimlar] that the fuelled loop returns
    exactly the final state of the step relation. The
    candidate scan and the parser recurse on lists and need no fuel.
    [decimal_digits] gets 20 steps, enough for every [int64] and every
    year. The inner [while (leftbits >= 6)] of [Base64.altili_cikar]
    runs on [leftbits] as fuel; every turn takes 6 bits, so it never
    runs out, and [Base64.b2a_base64_ref] shows the output is the full
    encoding. The CSV tokenizer runs on fuel [3 * n + 2] for a file of
    [n] bytes. Every byte is read at most three times (once, re-read
    after a state change, re-read after the blank-line backtrack), and
    two more turns handle the end of file. [Csv.Facts.tokenize_sonlanir]
    shows this fuel is enough, using the potential [potansiyel] that
    decreases at every step.
    The forest bounds assume the counts are at most [2^46] in absolute
    value. Then a hundred of them sum to less than [2^53], so every
    partial sum of [predict] is an exact float.

    Not modelled:
    - how the forests are grown: the bootstrap drawn from
      [random_state=42] (NumPy's Mersenne Twister) and the search for
      the best split. The class [OrmanEgitimi] states what training
      guarantees (100 trees, leaves that are means of targets). The
      prediction of the fitted forests is modelled;
    - the holiday table of the [holidays] package (an instance of
      [Calendar.HolidayProvider]);
    - in [pd.read_csv], the UTF-8 decoding (the file is one chunk of
      bytes), count columns that pandas types as float or text (read
      as [None], outside the model), and a lone carriage return followed
      by a line that starts with a blank. The tokenizer theorems assume
      that carriage returns end lines;
    - the OS scheduler: [Sunucu] takes every interleaving, so its
      theorems hold for any schedule;
    - inside matplotlib, [tight_layout] and the rasterization of a
      figure to PNG bytes (the interface [PngYazici]); HTML rendering
      of the page; the bytes of the xlsx file (xlsxwriter). The page
      carries the forecast and the three image texts, the download the
      sheet's cells.

    Theorem groups:
    - [Calendar]: the ISO week is in 1..53; date order agrees with
      ordinals; the successor day and its overflow at 9999-12-31.
    - [Strptime]: [strptime] of [strftime] gives the date back.
    - [Optimizer]:
      - the scan refines the declarative specification [is_best] (the
        first admissible minimiser of the distance to 40.5);
      - the ceiling never changes the choice
        ([scan_ceiling_never_binds]), proved through the rounding
        error of [b64]: the attendance is monotone in the candidate, the
        last admissible one scales to at least 36, and every rejected
        one is a float above 45;
      - capacity, the fallback to 20, the zero baseline, non-negative
        counts, and the specification's 100/90/10/85 scenario.
    - [Forecast]:
      - termination;
      - exactly the business days, in increasing order;
      - refinement against a reference list of days;
      - every record within capacity or the fallback;
      - weekend-only ranges give an empty result;
      - the reversed-range and 9999-12-31 error paths;
      - well-formed records (the date text parses back, the day name
        matches).
    - [ForecastSteps]: every run of the loop reaches a final state
      (liveness); [tahmin_et] equals the final state of the run.
    - [Dataset]: the feature invariant of the prepared rows;
      zero-padded dates are kept; a day with a leading zero is misread;
      one missing date cell drops every row.
    - [App]:
      - the invariant of [son_tahminler] over all reachable states;
      - the download serves the last shown forecast;
      - a reversed range erases it;
      - empty data gives a 500;
      - a day after 2262-04-11 in the range gives a 500.
    - [Charts]: the chart series of a forecast; the bar labels are
      distinct for ranges under a year.
    - [Base64]: the bit-buffer loop equals the RFC 4648 encoding (the
      32-bit wrap of [leftchar] never reaches an emitted bit); decoding
      gives the bytes back; the output has [4 * ceil(n / 3)]
      characters.
    - [Figures]: on matplotlib's category axis the bars of a range
      under a year take one slot each, while over a longer range two
      days share a label and a slot; bars pass the capacity line only
      on fallback days, and such a day can rise past the y-limit 1.5
      and be cut off; the cumulative line never decreases; each image
      text decodes to the PNG bytes of its figure.
    - [Excel]: reading the sheet back gives the forecast unchanged.
    - [Csv]:
      - reading the history file written from some rows gives these
        rows back, or fit's ValueError when no date is valid;
      - the tokenizer always ends within its fuel;
      - every row of the frame has one cell per column;
      - a line with too many fields is a ParserError.
    - [Sunucu]:
      - the invariant of [son_tahminler] holds under every
        interleaving;
      - a request run alone behaves as the sequential handler;
      - a download racing with a POST can send an empty sheet.
    - [Orman]:
      - a forest trained on targets in [[lo, hi]] predicts in
        [[lo, hi]];
      - end to end, every forecast page shows 20..149 invitations and
        counts that are not negative when the CSV's counts are not. *)

From Stdlib Require Import ZArith QArith Qround Qabs Lqa Lia List String Ascii Bool Sorted.
Import ListNotations.

Declare Scope pace_scope.
Delimit Scope pace_scope with pace.

(** ** Python exceptions and results *)

(** The exceptions the modelled code can raise. [FuelExhausted] is not a
    Python exception: it marks a loop model that ran out of fuel, and the
    termination theorems show it never occurs. *)
Inductive exn :=
| ValueError (msg : string)
| OverflowError (msg : string)
| KeyError (key : string)
| FuelExhausted.

Inductive result (A : Type) : Type :=
| Ok (a : A)
| Err (e : exn).
Arguments Ok {A} a.
Arguments Err {A} e.

Definition bind {A B} (r : result A) (k : A -> result B) : result B :=
  match r with
  | Ok a => k a
  | Err e => Err e
  end.

Notation "x <- c ;; k" := (bind c (fun x => k))
  (at level 61, c at next level, right associativity) : pace_scope.

Open Scope pace_scope.

Lemma bind_Ok {A B} (r : result A) (k : A -> result B) (b : B) :
  bind r k = Ok b -> exists a, r = Ok a /\ k a = Ok b.
Proof. destruct r; simpl; [eauto | discriminate]. Qed.

Lemma bind_Err {A B} (r : result A) (k : A -> result B) e :
  bind r k = Err e -> r = Err e \/ exists a, r = Ok a /\ k a = Err e.
Proof. destruct r; simpl; intros H; [right; eauto | left; congruence]. Qed.

(** ** Python's [range(lo, hi)] on integers *)

Definition py_range (lo hi : Z) : list Z :=
  map (fun i => lo + Z.of_nat i)%Z (seq 0 (Z.to_nat (hi - lo))).

Lemma in_py_range lo hi k : In k (py_range lo hi) <-> (lo <= k < hi)%Z.
Proof.
  unfold py_range. rewrite in_map_iff. split.
  - intros [i [<- Hi]]. apply in_seq in Hi. lia.
  - intros H. exists (Z.to_nat (k - lo)). split; [lia|]. apply in_seq. lia.
Qed.

Lemma py_range_snoc lo n :
  py_range lo (lo + Z.of_nat (S n)) = py_range lo (lo + Z.of_nat n) ++ [(lo + Z.of_nat n)%Z].
Proof.
  unfold py_range. replace (Z.to_nat (lo + Z.of_nat (S n) - lo)) with (S n) by lia.
  replace (Z.to_nat (lo + Z.of_nat n - lo)) with n by lia.
  rewrite seq_S, map_app. reflexivity.
Qed.

(** ** First success in a list of alternatives (regex alternation) *)

Fixpoint first_some {A B} (f : A -> option B) (l : list A) : option B :=
  match l with
  | [] => None
  | x :: xs => match f x with Some b => Some b | None => first_some f xs end
  end.

Lemma first_some_Some {A B} (f : A -> option B) l b :
  first_some f l = Some b -> exists x, In x l /\ f x = Some b.
Proof.
  induction l as [|x l IH]; simpl; [discriminate|].
  destruct (f x) eqn:E; [intros [= <-]; eauto|].
  intros H. destruct (IH H) as (y & Hy & Hf). eauto.
Qed.

Lemma Forall2_in_l {A B} (P : A -> B -> Prop) l1 l2 x :
  Forall2 P l1 l2 -> In x l1 -> exists y, In y l2 /\ P x y.
Proof.
  induction 1 as [|a b l1 l2 Hab _ IH]; [intros []|].
  intros [<- | Hx]; [exists b; split; [left|]; auto|].
  destruct (IH Hx) as (y & Hy & Hp). exists y. split; [right|]; auto.
Qed.

(** ** Sorted lists *)

Lemma StronglySorted_filter {A} (R : A -> A -> Prop) (f : A -> bool) l :
  StronglySorted R l -> StronglySorted R (filter f l).
Proof.
  induction 1 as [|x l Hs IH Hall]; simpl; [constructor|].
  destruct (f x); [|exact IH]. constructor; [exact IH|].
  apply Forall_forall. intros y Hy. apply filter_In in Hy.
  exact (proj1 (Forall_forall _ _) Hall y (proj1 Hy)).
Qed.

Lemma StronglySorted_map {A B} (R : A -> A -> Prop) (R' : B -> B -> Prop) (f : A -> B) l :
  (forall x y, R x y -> R' (f x) (f y)) -> StronglySorted R l -> StronglySorted R' (map f l).
Proof.
  intros HR. induction 1 as [|x l Hs IH Hall]; simpl; constructor; [exact IH|].
  apply Forall_forall. intros y Hy. apply in_map_iff in Hy as (z & <- & Hz).
  apply HR. exact (proj1 (Forall_forall _ _) Hall z Hz).
Qed.

(** A decidable predicate that holds at [i] and fails at [j > i]
    changes from true to false between two consecutive integers. *)
Lemma discrete_ivt (p : Z -> Prop) (pdec : forall z, {p z} + {~ p z}) i j :
  (i < j)%Z -> p i -> ~ p j -> exists a, (i <= a < j)%Z /\ p a /\ ~ p (a + 1)%Z.
Proof.
  intros Hlt Hi Hj. remember (Z.to_nat (j - i)) as n eqn:En.
  revert i Hlt Hi En. induction n as [|n IH]; intros i Hlt Hi En; [lia|].
  destruct (Z.eq_dec (i + 1) j) as [<-|NE]; [exists i; repeat split; auto; lia|].
  destruct (pdec (i + 1)%Z) as [P1|N1]; [|exists i; repeat split; auto; lia].
  destruct (IH (i + 1)%Z ltac:(lia) P1 ltac:(lia)) as (a & Ha & Pa & Na).
  exists a. repeat split; auto; lia.
Qed.

Lemma filter_all_false {A} (f : A -> bool) l :
  (forall x, In x l -> f x = false) -> filter f l = [].
Proof.
  induction l as [|x l IH]; intros H; [reflexivity|]. simpl.
  rewrite (H x (or_introl eq_refl)). apply IH. intros y Hy. apply H. right. exact Hy.
Qed.

Lemma app_eq_length {A} (l1 l2 r1 r2 : list A) :
  List.length l1 = List.length l2 -> l1 ++ r1 = l2 ++ r2 -> l1 = l2 /\ r1 = r2.
Proof.
  revert l2. induction l1 as [|x l1 IH]; intros [|y l2] Hl E; try discriminate; [auto|].
  injection E as -> E. injection Hl as Hl. destruct (IH l2 Hl E) as [-> ->]. auto.
Qed.

(** A list whose first and last elements coincide, with at least two
    elements, has a duplicate. *)
Lemma not_NoDup_head_last {A} (x : A) l d :
  l <> [] -> last l d = x -> ~ NoDup (x :: l).
Proof.
  intros Hne Hl Hnd. apply NoDup_cons_iff in Hnd as [Hx _]. apply Hx. rewrite <- Hl.
  clear Hl Hx. induction l as [|y l IH]; [congruence|].
  destruct l as [|z l]; [left; reflexivity|]. right. apply IH. discriminate.
Qed.

(** Induction three elements at a time, the recursion of encoders that
    consume a list in groups of three. *)
Lemma list_ind3 {A} (P : list A -> Prop) :
  P [] -> (forall a, P [a]) -> (forall a b, P [a; b]) ->
  (forall a b c l, P l -> P (a :: b :: c :: l)) -> forall l, P l.
Proof.
  intros H0 H1 H2 H3. fix IH 1. intros [|a [|b [|c l]]]; [exact H0 | apply H1 | apply H2 | apply H3, IH].
Qed.

Lemma last_default {A} (l : list A) d d' : l <> [] -> last l d = last l d'.
Proof.
  induction l as [|x l IH]; [congruence|]. intros _.
  destruct l as [|y l]; [reflexivity|]. apply IH. discriminate.
Qed.

(** ** Comparisons on rationals as the code's boolean tests *)

Definition Qltb (x y : Q) : bool := negb (Qle_bool y x).

Lemma Qltb_iff x y : Qltb x y = true <-> x < y.
Proof.
  unfold Qltb. rewrite negb_true_iff. split.
  - intros H. apply Qnot_le_lt. intros Hle. apply Qle_bool_iff in Hle. congruence.
  - intros H. destruct (Qle_bool y x) eqn:E; [|reflexivity].
    apply Qle_bool_iff in E. exfalso. apply (Qlt_not_le _ _ H E).
Qed.

Lemma Qltb_false x y : Qltb x y = false <-> y <= x.
Proof.
  unfold Qltb. rewrite negb_false_iff. apply Qle_bool_iff.
Qed.

Lemma Qle_bool_false x y : Qle_bool x y = false <-> y < x.
Proof.
  split.
  - intros H. apply Qnot_le_lt. intros Hle. apply Qle_bool_iff in Hle. congruence.
  - intros H. destruct (Qle_bool x y) eqn:E; [|reflexivity].
    apply Qle_bool_iff in E. exfalso. apply (Qlt_not_le _ _ H E).
Qed.

(** ** Python's [round] on a number: round half to even *)

Definition py_round (x : Q) : Z :=
  let f := Qfloor x in
  let r := (x - inject_Z f)%Q in
  match Qcompare r (1 # 2) with
  | Lt => f
  | Gt => (f + 1)%Z
  | Eq => if Z.even f then f else (f + 1)%Z
  end.

Lemma py_round_cases x :
  (py_round x = Qfloor x \/ py_round x = (Qfloor x + 1)%Z) /\
  (py_round x = Qfloor x -> x - inject_Z (Qfloor x) <= 1 # 2) /\
  (py_round x = (Qfloor x + 1)%Z -> 1 # 2 <= x - inject_Z (Qfloor x)).
Proof.
  unfold py_round.
  destruct (Qcompare (x - inject_Z (Qfloor x)) (1 # 2)) eqn:C.
  - apply Qeq_alt in C. destruct (Z.even (Qfloor x)); repeat split; intros; lia || (rewrite C; apply Qle_refl).
  - apply Qlt_alt in C. repeat split; intros; try lia. apply Qlt_le_weak, C.
  - apply Qgt_alt in C. repeat split; intros; try lia. apply Qlt_le_weak, C.
Qed.

Lemma Qfloor_bounds x : inject_Z (Qfloor x) <= x /\ x < inject_Z (Qfloor x) + 1.
Proof.
  split; [apply Qfloor_le|]. pose proof (Qlt_floor x) as H.
  rewrite inject_Z_plus in H. exact H.
Qed.

(** [round] is monotone: this is what carries the capacity bound from the
    scaled attendance to the rounded count. *)
Lemma py_round_mono x y : x <= y -> (py_round x <= py_round y)%Z.
Proof.
  intros Hxy.
  pose proof (Qfloor_resp_le _ _ Hxy) as Hf.
  destruct (Z.eq_dec (Qfloor x) (Qfloor y)) as [E|NE].
  - unfold py_round. rewrite E.
    set (f := Qfloor y) in *.
    assert (Hr : x - inject_Z f <= y - inject_Z f) by lra.
    destruct (Qcompare (x - inject_Z f) (1 # 2)) eqn:Cx;
    destruct (Qcompare (y - inject_Z f) (1 # 2)) eqn:Cy;
      try (destruct (Z.even f)); try lia;
      repeat match goal with
             | H : (_ ?= _) = Eq |- _ => apply Qeq_alt in H
             | H : (_ ?= _) = Lt |- _ => apply Qlt_alt in H
             | H : (_ ?= _) = Gt |- _ => apply Qgt_alt in H
             end; lra.
  - destruct (py_round_cases x) as [[Hx|Hx] _];
    destruct (py_round_cases y) as [[Hy|Hy] _]; lia.
Qed.

Lemma py_round_inject (n : Z) : py_round (inject_Z n) = n.
Proof.
  unfold py_round. rewrite Qfloor_Z.
  destruct (Qcompare (inject_Z n - inject_Z n) (1 # 2)) eqn:C; [| reflexivity |];
    [apply Qeq_alt in C | apply Qgt_alt in C]; lra.
Qed.

Lemma py_round_le_int x (n : Z) : x <= inject_Z n -> (py_round x <= n)%Z.
Proof. intros H. rewrite <- (py_round_inject n). apply py_round_mono, H. Qed.

Lemma py_round_ge_int x (n : Z) : inject_Z n <= x -> (n <= py_round x)%Z.
Proof. intros H. rewrite <- (py_round_inject n). apply py_round_mono, H. Qed.

(** [round] only depends on the value of the rational, not on its
    representation: rewriting with [==] under [py_round] is allowed. *)
#[export] Instance py_round_Proper : Proper (Qeq ==> eq) py_round.
Proof.
  intros x y E. unfold py_round.
  rewrite (Qfloor_comp x y E).
  assert (Er : x - inject_Z (Qfloor y) == y - inject_Z (Qfloor y)) by (rewrite E; reflexivity).
  rewrite (Qcompare_comp _ _ Er (1 # 2) (1 # 2) (Qeq_refl _)). reflexivity.
Qed.

(** The rounded value is within one half of the number. *)
Lemma py_round_close x : Qabs (inject_Z (py_round x) - x) <= 1 # 2.
Proof.
  destruct (py_round_cases x) as [[H|H] [H1 H2]]; pose proof (Qfloor_bounds x) as [B1 B2].
  - specialize (H1 H). rewrite H. apply Qabs_Qle_condition. lra.
  - specialize (H2 H). rewrite H, inject_Z_plus. apply Qabs_Qle_condition.
    change (inject_Z 1) with 1. lra.
Qed.

Lemma Qfloor_unique x z : inject_Z z <= x -> x < inject_Z z + 1 -> Qfloor x = z.
Proof.
  intros H1 H2. destruct (Qfloor_bounds x) as [F1 F2].
  assert (A : inject_Z (Qfloor x) < inject_Z (z + 1))
    by (rewrite inject_Z_plus; change (inject_Z 1) with 1; lra).
  assert (B : inject_Z z < inject_Z (Qfloor x + 1))
    by (rewrite inject_Z_plus; change (inject_Z 1) with 1; lra).
  rewrite <- Zlt_Qlt in A, B. lia.
Qed.

(** [round] is odd: halves go to the even neighbour on both sides. *)
Lemma py_round_opp x : py_round (- x) = (- py_round x)%Z.
Proof.
  set (f := Qfloor x). destruct (Qfloor_bounds x) as [F1 F2]. fold f in F1, F2.
  destruct (Qeq_dec x (inject_Z f)) as [E|NE].
  { rewrite E, <- inject_Z_opp, !py_round_inject. reflexivity. }
  assert (Hfx : inject_Z f < x) by (apply Qle_lteq in F1 as [L|L]; [exact L | symmetry in L; contradiction]).
  assert (Im : inject_Z (- f - 1) == - inject_Z f - 1)
    by (unfold Z.sub; rewrite inject_Z_plus, inject_Z_opp; reflexivity).
  assert (Ff : Qfloor (- x) = (- f - 1)%Z) by (apply Qfloor_unique; rewrite Im; lra).
  unfold py_round. rewrite Ff. fold f.
  assert (R : - x - inject_Z (- f - 1) == 1 - (x - inject_Z f)) by (rewrite Im; ring).
  rewrite R.
  replace (Z.even (- f - 1)) with (negb (Z.even f))
    by (rewrite Z.even_sub, Z.even_opp; destruct (Z.even f); reflexivity).
  destruct (Qcompare (x - inject_Z f) (1 # 2)) eqn:C;
  destruct (Qcompare (1 - (x - inject_Z f)) (1 # 2)) eqn:C';
    repeat match goal with
           | H : (_ ?= _) = Eq |- _ => apply Qeq_alt in H
           | H : (_ ?= _) = Lt |- _ => apply Qlt_alt in H
           | H : (_ ?= _) = Gt |- _ => apply Qgt_alt in H
           end; try (exfalso; lra); try lia.
  destruct (Z.even f); cbn [negb]; lia.
Qed.

(** ** Transition sequences

    After Leroy's [Sequences]: [star R] is the reflexive-transitive
    closure of a step relation; [irred] a state without a step;
    [eventually R P a] says that every run from [a] reaches a state of
    [P], the liveness of a loop written as a step relation. *)

Section Sequences.
Context {A : Type} (R : A -> A -> Prop).

Inductive star : A -> A -> Prop :=
| star_refl a : star a a
| star_step a b c : R a b -> star b c -> star a c.

Definition irred (a : A) : Prop := forall b, ~ R a b.

Inductive eventually (P : A -> Prop) : A -> Prop :=
| ev_now a : P a -> eventually P a
| ev_later a : (exists b, R a b) -> (forall b, R a b -> eventually P b) -> eventually P a.

Lemma star_one a b : R a b -> star a b.
Proof. intros H. eapply star_step; [exact H | apply star_refl]. Qed.

Lemma star_trans a b c : star a b -> star b c -> star a c.
Proof. induction 1; intros; [assumption | eapply star_step; eauto]. Qed.

Hypothesis R_functional : forall a b c, R a b -> R a c -> b = c.

Lemma star_star_inv a b : star a b -> forall c, star a c -> star b c \/ star c b.
Proof.
  induction 1 as [a|a b c Hab Hbc IH]; intros d Had; [left; exact Had|].
  inversion Had as [|? b' ? Hab' Hb'd]; subst; [right; eapply star_step; eauto|].
  rewrite (R_functional _ _ _ Hab Hab') in IH. apply IH. exact Hb'd.
Qed.

(** A deterministic relation has at most one final state from [a]. *)
Lemma finseq_unique a b b' : star a b -> irred b -> star a b' -> irred b' -> b = b'.
Proof.
  intros S1 I1 S2 I2. destruct (star_star_inv a b S1 b' S2) as [H|H];
    inversion H as [|? c ? Hc]; subst; auto; [destruct (I1 _ Hc) | destruct (I2 _ Hc)].
Qed.
End Sequences.

(** ** Automation shared by the components *)

Create HintDb pace.
#[export] Hint Resolve py_round_le_int py_round_ge_int py_round_mono : pace.
#[export] Hint Constructors star eventually : pace.
#[export] Hint Resolve star_one star_trans : pace.

(** [enum_Z x lo hi] splits a goal on an integer variable [x] known to lie
    in [lo, hi] into one goal per value, with [x] substituted. It is used
    for the month and day tables of the calendar. *)
Ltac enum_Z x lo hi :=
  lazymatch eval vm_compute in (Z.ltb lo hi) with
  | true =>
      let H := fresh "Henum" in
      assert (H : (x = lo \/ lo + 1 <= x <= hi)%Z) by lia;
      destruct H as [H | H];
      [subst x | let lo' := eval vm_compute in (lo + 1)%Z in enum_Z x lo' hi]
  | false => assert (x = lo) by lia; subst x
  end.

(** [lia] after turning every [/] and [mod] into its Euclidean equations:
    the calendar's weekday and week arithmetic needs it. *)
Ltac zlia := Z.to_euclidean_division_equations; lia.

(** [split_andb] breaks the boolean and propositional conjunctions of
    the hypotheses into their parts: the invariants of the tokenizer are
    conjunctions of executable tests. *)
Ltac split_andb :=
  repeat match goal with
  | H : (_ && _)%bool = true |- _ => apply andb_true_iff in H as [? ?]
  | H : _ /\ _ |- _ => destruct H
  end.
