(* ===== verification/Calendar.v ===== *)
(** * Calendar: the date arithmetic the program takes from CPython

    [src/app.py] uses [datetime] for the calendar features of a day
    ([weekday()], [month], [isocalendar().week], lines 19-21 and 58-60),
    for the day loop ([+= timedelta(days=1)], line 96, and [<=], line 56)
    and for the weekend test of [resmi_tatil_mi] (lines 43-45). This file
    translates the algorithms of CPython's [Lib/datetime.py]
    ([_is_leap], [_days_before_year], [_days_in_month],
    [_days_before_month], [_ymd2ord], [_isoweek1monday], [isocalendar],
    the date comparison and the overflow check of [__add__]) over [Z].
    The holiday table of the [holidays] package is the type class
    [HolidayProvider]. *)

From Stdlib Require Import ZArith List Lia Bool String.
From S2P Require Import Prelude.
Import ListNotations.
Open Scope Z_scope.

Module PyDate.

(** ** Data: a date as CPython stores it *)

Record date := mkdate { year : Z; month : Z; day : Z }.

Definition MINYEAR : Z := 1.
Definition MAXYEAR : Z := 9999.
(** [_MAXORDINAL = 3652059], the ordinal of 9999-12-31. *)
Definition MAXORDINAL : Z := 3652059.

Definition DAYS_IN_MONTH : list Z :=
  [-1; 31; 28; 31; 30; 31; 30; 31; 31; 30; 31; 30; 31].

(** [_DAYS_BEFORE_MONTH] is built by a running sum over
    [_DAYS_IN_MONTH[1:]], after the placeholder [-1]. *)
Fixpoint running_sums (dbm : Z) (dims : list Z) : list Z :=
  match dims with
  | [] => []
  | dim :: rest => dbm :: running_sums (dbm + dim) rest
  end.

Definition DAYS_BEFORE_MONTH : list Z := -1 :: running_sums 0 (tl DAYS_IN_MONTH).

Definition is_leap (year : Z) : bool :=
  (year mod 4 =? 0) && (negb (year mod 100 =? 0) || (year mod 400 =? 0)).

Definition days_before_year (year : Z) : Z :=
  let y := year - 1 in y * 365 + y / 4 - y / 100 + y / 400.

Definition days_in_month (year month : Z) : Z :=
  if (month =? 2) && is_leap year then 29
  else nth (Z.to_nat month) DAYS_IN_MONTH 0.

Definition days_before_month (year month : Z) : Z :=
  nth (Z.to_nat month) DAYS_BEFORE_MONTH 0
  + (if (month >? 2) && is_leap year then 1 else 0).

Definition ymd2ord (year month day : Z) : Z :=
  days_before_year year + days_before_month year month + day.

Definition toordinal (d : date) : Z := ymd2ord (year d) (month d) (day d).

(** [date.weekday()]: Monday is 0, Sunday is 6. *)
Definition weekday (d : date) : Z := (toordinal d + 6) mod 7.

(** [_check_date_fields]: the constructor rejects anything else with a
    [ValueError]. *)
Definition check_date_fields (y m d : Z) : bool :=
  (MINYEAR <=? y) && (y <=? MAXYEAR) && (1 <=? m) && (m <=? 12)
  && (1 <=? d) && (d <=? days_in_month y m).

Definition valid (d : date) : bool := check_date_fields (year d) (month d) (day d).

Definition isoweek1monday (year : Z) : Z :=
  let THURSDAY := 3 in
  let firstday := ymd2ord year 1 1 in
  let firstweekday := (firstday + 6) mod 7 in
  let week1monday := firstday - firstweekday in
  if firstweekday >? THURSDAY then week1monday + 7 else week1monday.

(** [date.isocalendar()] as [(year, week, weekday)]. *)
Definition isocalendar (d : date) : Z * Z * Z :=
  let y := year d in
  let week1monday := isoweek1monday y in
  let today := ymd2ord y (month d) (day d) in
  let week := (today - week1monday) / 7 in
  let dy := (today - week1monday) mod 7 in
  if week <? 0 then
    let week1monday' := isoweek1monday (y - 1) in
    (y - 1, (today - week1monday') / 7 + 1, (today - week1monday') mod 7 + 1)
  else if (week >=? 52) && (today >=? isoweek1monday (y + 1)) then
    (y + 1, 1, dy + 1)
  else (y, week + 1, dy + 1).

Definition iso_week (d : date) : Z := snd (fst (isocalendar d)).

(** ** The day step [d + timedelta(days=1)] *)

(** The calendar successor of a day. *)
Definition succ_ymd (d : date) : date :=
  if day d <? days_in_month (year d) (month d) then mkdate (year d) (month d) (day d + 1)
  else if month d <? 12 then mkdate (year d) (month d + 1) 1
  else mkdate (year d + 1) 1 1.

(** [datetime.__add__] computes the ordinal of the result and raises
    [OverflowError] unless [0 < ordinal <= _MAXORDINAL]; the result is
    then [date.fromordinal] of it, which [succ_ymd] is (theorem
    [toordinal_succ_ymd] and injectivity of [toordinal]). *)
Definition next_day (d : date) : result date :=
  let n := toordinal d + 1 in
  if (0 <? n) && (n <=? MAXORDINAL) then Ok (succ_ymd d)
  else Err (OverflowError "date value out of range").

(** ** Comparison: [datetime] compares [(year, month, day, ...)] tuples *)

Definition date_compare (a b : date) : comparison :=
  match Z.compare (year a) (year b) with
  | Eq => match Z.compare (month a) (month b) with
          | Eq => Z.compare (day a) (day b)
          | c => c
          end
  | c => c
  end.

Definition date_leb (a b : date) : bool :=
  match date_compare a b with Gt => false | _ => true end.

(** ** Holidays: the [holidays.Turkey] table is an external provider *)

(** [holidays.Turkey(years=...)] is created with [expand=True], so a
    membership test [x in tr_holidays] loads the year of [x] on demand:
    the answer depends on the date alone. *)
Class HolidayProvider := { tr_holidays : date -> bool }.

(** [resmi_tatil_mi] (lines 43-45). *)
Definition resmi_tatil_mi `{HolidayProvider} (tarih : date) : bool :=
  (weekday tarih >=? 5) || tr_holidays tarih.

(** ** Calendar lemmas *)

Definition days_in_year (y : Z) : Z := if is_leap y then 366 else 365.

Lemma div_pred k y : 0 < k -> (y - 1) / k = if y mod k =? 0 then y / k - 1 else y / k.
Proof.
  intros Hk. pose proof (Z.div_mod y k ltac:(lia)). pose proof (Z.mod_pos_bound y k Hk).
  destruct (Z.eqb_spec (y mod k) 0).
  - symmetry. apply Z.div_unique with (r := k - 1); lia.
  - symmetry. apply Z.div_unique with (r := y mod k - 1); lia.
Qed.

Lemma mod_mul_zero a b y : 0 < a -> 0 < b -> y mod (a * b) = 0 -> y mod a = 0.
Proof.
  intros Ha Hb H. apply Z.mod_divide; [lia|].
  apply Z.mod_divide in H; [|lia]. destruct H as [q Hq]. exists (q * b). lia.
Qed.

Lemma days_before_year_succ y :
  days_before_year (y + 1) = days_before_year y + days_in_year y.
Proof.
  unfold days_before_year, days_in_year, is_leap. replace (y + 1 - 1) with y by lia.
  rewrite (div_pred 4), (div_pred 100), (div_pred 400) by lia.
  pose proof (mod_mul_zero 4 25 y ltac:(lia) ltac:(lia)) as M1.
  pose proof (mod_mul_zero 100 4 y ltac:(lia) ltac:(lia)) as M2. simpl in M1, M2.
  destruct (Z.eqb_spec (y mod 4) 0), (Z.eqb_spec (y mod 100) 0),
    (Z.eqb_spec (y mod 400) 0); simpl; lia.
Qed.

Lemma days_before_year_mono x y : x <= y -> days_before_year x <= days_before_year y.
Proof.
  unfold days_before_year. intros.
  pose proof (Z.div_le_mono (x - 1) (y - 1) 4). pose proof (Z.div_le_mono (x - 1) (y - 1) 400).
  pose proof (Z.div_mod (x - 1) 100 ltac:(lia)). pose proof (Z.div_mod (y - 1) 100 ltac:(lia)).
  pose proof (Z.mod_pos_bound (x - 1) 100 ltac:(lia)).
  pose proof (Z.mod_pos_bound (y - 1) 100 ltac:(lia)). nia.
Qed.

Lemma days_in_year_range y : 365 <= days_in_year y <= 366.
Proof. unfold days_in_year. destruct (is_leap y); lia. Qed.

(** The month tables, checked month by month. *)
Lemma month_table y m :
  1 <= m <= 12 ->
  28 <= days_in_month y m <= 31 /\ 0 <= days_before_month y m /\ days_before_month y m + days_in_month y m <= days_in_year y /\ (m = 1 -> days_before_month y m = 0) /\ (m = 12 -> days_before_month y m + days_in_month y m = days_in_year y) /\ (m <= 11 -> days_before_month y (m + 1) = days_before_month y m + days_in_month y m).
Proof.
  intros Hm. unfold days_in_year.
  enum_Z m 1 12; unfold days_in_month, days_before_month; simpl;
    destruct (is_leap y); simpl; lia.
Qed.

Lemma days_before_month_mono y m m' :
  1 <= m < m' -> m' <= 12 -> days_before_month y m + days_in_month y m <= days_before_month y m'.
Proof.
  intros H1 H2.
  assert (Hgen : forall k : nat, m + Z.of_nat k + 1 <= 12 ->
    days_before_month y m + days_in_month y m <= days_before_month y (m + Z.of_nat k + 1)).
  { induction k as [|k IH]; intros Hk.
    - destruct (month_table y m ltac:(lia)) as (_ & _ & _ & _ & _ & E).
      replace (m + Z.of_nat 0 + 1) with (m + 1) by lia. rewrite E by lia. lia.
    - destruct (month_table y (m + Z.of_nat k + 1) ltac:(lia)) as ((? & ?) & _ & _ & _ & _ & E).
      replace (m + Z.of_nat (S k) + 1) with (m + Z.of_nat k + 1 + 1) by lia.
      rewrite E by lia. specialize (IH ltac:(lia)). lia. }
  specialize (Hgen (Z.to_nat (m' - m - 1)) ltac:(lia)).
  replace (m + Z.of_nat (Z.to_nat (m' - m - 1)) + 1) with m' in Hgen by lia. exact Hgen.
Qed.

Lemma valid_fields d :
  valid d = true ->
  MINYEAR <= year d <= MAXYEAR /\ 1 <= month d <= 12 /\ 1 <= day d <= days_in_month (year d) (month d).
Proof.
  unfold valid, check_date_fields. intros H.
  repeat rewrite andb_true_iff in H. rewrite !Z.leb_le in H. lia.
Qed.

Lemma valid_intro d :
  MINYEAR <= year d <= MAXYEAR -> 1 <= month d <= 12 ->
  1 <= day d <= days_in_month (year d) (month d) -> valid d = true.
Proof.
  intros. unfold valid, check_date_fields.
  repeat rewrite andb_true_iff. rewrite !Z.leb_le. lia.
Qed.

Lemma toordinal_bounds d :
  valid d = true ->
  days_before_year (year d) + 1 <= toordinal d <= days_before_year (year d) + days_in_year (year d).
Proof.
  intros V. destruct (valid_fields d V) as (_ & Hm & Hd).
  destruct (month_table (year d) (month d) Hm) as (_ & ? & ? & _).
  unfold toordinal, ymd2ord. lia.
Qed.

Lemma toordinal_year_lt a b :
  valid a = true -> valid b = true -> year a < year b -> toordinal a < toordinal b.
Proof.
  intros Va Vb Hy.
  pose proof (toordinal_bounds a Va). pose proof (toordinal_bounds b Vb).
  pose proof (days_before_year_succ (year a)).
  pose proof (days_before_year_mono (year a + 1) (year b) ltac:(lia)). lia.
Qed.

Lemma toordinal_month_lt a b :
  valid a = true -> valid b = true -> year a = year b -> month a < month b ->
  toordinal a < toordinal b.
Proof.
  intros Va Vb Hy Hm.
  destruct (valid_fields a Va) as (_ & ? & ?). destruct (valid_fields b Vb) as (_ & ? & ?).
  pose proof (days_before_month_mono (year a) (month a) (month b) ltac:(lia) ltac:(lia)).
  unfold toordinal, ymd2ord. rewrite <- Hy. lia.
Qed.

(** Python's lexicographic comparison of dates agrees with the order of
    their ordinals. *)
Lemma date_compare_toordinal a b :
  valid a = true -> valid b = true ->
  date_compare a b = Z.compare (toordinal a) (toordinal b).
Proof.
  intros Va Vb. unfold date_compare.
  destruct (Z.compare_spec (year a) (year b)) as [Ey|Ly|Gy].
  - destruct (Z.compare_spec (month a) (month b)) as [Em|Lm|Gm].
    + unfold toordinal, ymd2ord. rewrite Ey, Em, Z.add_compare_mono_l. reflexivity.
    + symmetry. apply Z.compare_lt_iff. apply toordinal_month_lt; auto.
    + symmetry. apply Z.compare_gt_iff. apply toordinal_month_lt; auto.
  - symmetry. apply Z.compare_lt_iff. apply toordinal_year_lt; auto.
  - symmetry. apply Z.compare_gt_iff. apply toordinal_year_lt; auto.
Qed.

Lemma date_leb_toordinal a b :
  valid a = true -> valid b = true -> date_leb a b = (toordinal a <=? toordinal b).
Proof.
  intros Va Vb. unfold date_leb. rewrite date_compare_toordinal by auto.
  destruct (Z.compare_spec (toordinal a) (toordinal b)); symmetry; apply Z.leb_le || apply Z.leb_gt; lia.
Qed.

Lemma toordinal_inj a b :
  valid a = true -> valid b = true -> toordinal a = toordinal b -> a = b.
Proof.
  intros Va Vb E. pose proof (date_compare_toordinal a b Va Vb) as C.
  rewrite E, Z.compare_refl in C. unfold date_compare in C.
  destruct a as [ya ma da], b as [yb mb db]; simpl in C.
  destruct (Z.compare_spec ya yb); try discriminate.
  destruct (Z.compare_spec ma mb); try discriminate.
  apply Z.compare_eq in C. subst. reflexivity.
Qed.

Lemma toordinal_le_max d : valid d = true -> toordinal d <= MAXORDINAL.
Proof.
  intros V. pose proof (toordinal_bounds d V). destruct (valid_fields d V) as [Hy _].
  pose proof (days_before_year_succ (year d)).
  pose proof (days_before_year_mono (year d + 1) 10000 ltac:(unfold MAXYEAR in Hy; lia)).
  change (days_before_year 10000) with MAXORDINAL in *. lia.
Qed.

(** The successor day is a valid date one ordinal further, as long as the
    date is not 9999-12-31. *)
Lemma succ_ymd_spec d :
  valid d = true -> toordinal d < MAXORDINAL ->
  valid (succ_ymd d) = true /\ toordinal (succ_ymd d) = toordinal d + 1.
Proof.
  intros V Hmax. destruct (valid_fields d V) as (Hy & Hm & Hd).
  destruct (month_table (year d) (month d) Hm) as (Hdim & _ & _ & _ & Hlast & Hsucc).
  destruct d as [y m dd]; simpl in *. unfold succ_ymd; simpl.
  destruct (Z.ltb_spec dd (days_in_month y m)).
  - split; [apply valid_intro; simpl; lia|]. unfold toordinal, ymd2ord; simpl. lia.
  - destruct (Z.ltb_spec m 12).
    + destruct (month_table y (m + 1) ltac:(lia)) as ((? & ?) & _).
      split; [apply valid_intro; simpl; lia|].
      unfold toordinal, ymd2ord; simpl. rewrite Hsucc by lia. lia.
    + assert (m = 12) by lia. subst m.
      assert (y <> 9999).
      { intros ->. assert (dd = days_in_month 9999 12) as -> by lia.
        vm_compute in Hmax. discriminate. }
      destruct (month_table (y + 1) 1 ltac:(lia)) as ((? & ?) & _ & _ & Hjan & _).
      split; [apply valid_intro; simpl; unfold MINYEAR, MAXYEAR in *; lia|].
      unfold toordinal, ymd2ord; simpl. rewrite Hjan by lia.
      rewrite days_before_year_succ. specialize (Hlast eq_refl). lia.
Qed.

Lemma next_day_Ok d :
  valid d = true -> toordinal d < MAXORDINAL -> next_day d = Ok (succ_ymd d).
Proof.
  intros V H. pose proof (toordinal_bounds d V). pose proof (days_before_year_mono 1 (year d)).
  destruct (valid_fields d V) as [Hy _].
  unfold next_day. replace ((0 <? toordinal d + 1) && (toordinal d + 1 <=? MAXORDINAL)) with true.
  - reflexivity.
  - symmetry. apply andb_true_iff. rewrite Z.ltb_lt, Z.leb_le.
    unfold MINYEAR in Hy. change (days_before_year 1) with 0 in *. lia.
Qed.

Lemma next_day_Err d e :
  valid d = true -> next_day d = Err e -> toordinal d = MAXORDINAL.
Proof.
  intros V H. pose proof (toordinal_le_max d V).
  destruct (Z.ltb_spec (toordinal d) MAXORDINAL) as [L|L]; [|lia].
  rewrite next_day_Ok in H by auto. discriminate.
Qed.

Lemma next_day_max d :
  toordinal d = MAXORDINAL -> next_day d = Err (OverflowError "date value out of range").
Proof. intros H. unfold next_day. rewrite H. reflexivity. Qed.

(** The comparison of dates is lexicographic on (year, month, day). *)
Lemma date_leb_lex a b :
  date_leb a b = true <->
  (year a < year b \/ year a = year b /\ (month a < month b \/ month a = month b /\ day a <= day b)).
Proof.
  unfold date_leb, date_compare.
  destruct (Z.compare_spec (year a) (year b)); [|split; [lia | reflexivity]|split; [discriminate | lia]].
  destruct (Z.compare_spec (month a) (month b)); [|split; [lia | reflexivity]|split; [discriminate | lia]].
  destruct (Z.compare_spec (day a) (day b)); split; (lia || reflexivity || discriminate).
Qed.

Lemma date_leb_trans a b c : date_leb a b = true -> date_leb b c = true -> date_leb a c = true.
Proof. rewrite !date_leb_lex. lia. Qed.

(** Two dates with the same month and day in different years are at
    least 365 days apart. *)
Lemma same_day_month_gap d d' :
  month d = month d' -> day d = day d' -> year d < year d' -> toordinal d + 365 <= toordinal d'.
Proof.
  intros Hm Hd Hy. unfold toordinal, ymd2ord, days_before_month. rewrite <- Hm, <- Hd.
  pose proof (days_before_year_succ (year d)). pose proof (days_in_year_range (year d)).
  destruct (Z.eq_dec (year d') (year d + 1)) as [E|NE].
  - rewrite E. unfold days_in_year in *.
    destruct (month d >? 2), (is_leap (year d)), (is_leap (year d + 1)); cbn [andb] in *; lia.
  - pose proof (days_before_year_succ (year d + 1)). pose proof (days_in_year_range (year d + 1)).
    pose proof (days_before_year_mono (year d + 1 + 1) (year d') ltac:(lia)).
    destruct (_ && _), (_ && _); lia.
Qed.

Lemma date_leb_year a b : date_leb a b = true -> year a <= year b.
Proof.
  unfold date_leb, date_compare. destruct (Z.compare_spec (year a) (year b)); lia || discriminate.
Qed.

(** ** The ISO week *)

Lemma isoweek1monday_facts y :
  days_before_year y + 1 - 3 <= isoweek1monday y <= days_before_year y + 1 + 3 /\ (isoweek1monday y + 6) mod 7 = 0.
Proof.
  unfold isoweek1monday, ymd2ord; cbv zeta.
  change (days_before_month y 1) with 0.
  match goal with |- context [if ?c then _ else _] => destruct c eqn:E end;
    [apply Z.gtb_lt in E | rewrite Z.gtb_ltb, Z.ltb_ge in E]; zlia.
Qed.

Lemma isoweek1monday_gap y :
  isoweek1monday (y + 1) - isoweek1monday y = 364 \/
  isoweek1monday (y + 1) - isoweek1monday y = 371.
Proof.
  pose proof (isoweek1monday_facts y). pose proof (isoweek1monday_facts (y + 1)).
  pose proof (days_before_year_succ y). pose proof (days_in_year_range y). zlia.
Qed.

Lemma iso_week_bounds d : valid d = true -> 1 <= iso_week d <= 53.
Proof.
  intros V. pose proof (toordinal_bounds d V) as Hb.
  pose proof (isoweek1monday_facts (year d)) as F0.
  pose proof (isoweek1monday_gap (year d)) as G0.
  pose proof (isoweek1monday_gap (year d - 1)) as G1.
  replace (year d - 1 + 1) with (year d) in G1 by lia.
  unfold iso_week, isocalendar; cbv zeta.
  change (ymd2ord (year d) (month d) (day d)) with (toordinal d).
  destruct (Z.ltb_spec ((toordinal d - isoweek1monday (year d)) / 7) 0); simpl; [zlia|].
  destruct (_ && _) eqn:E; simpl; [lia|].
  rewrite andb_false_iff, Z.geb_leb, Z.geb_leb, !Z.leb_gt in E. zlia.
Qed.

(** The ISO week number computed by [isocalendar] (the [Hafta]
    feature, app.py lines 21 and 60) lies in 1..53 for every valid date. *)
Theorem iso_week_range d : valid d = true -> 1 <= iso_week d <= 53.
Proof. apply iso_week_bounds. Qed.

Lemma weekday_bounds d : 0 <= weekday d <= 6.
Proof. unfold weekday. pose proof (Z.mod_pos_bound (toordinal d + 6) 7). lia. Qed.

(** The comparison [mevcut_tarih <= bitis] of the day loop
    (line 56), lexicographic on [(year, month, day)], is the order of
    the ordinals of valid dates. *)
Theorem date_leb_order a b :
  valid a = true -> valid b = true -> (date_leb a b = true <-> toordinal a <= toordinal b).
Proof. intros Va Vb. rewrite date_leb_toordinal by auto. apply Z.leb_le. Qed.

(** The step [+ timedelta(days=1)] (line 96) on a valid date
    either gives the valid date whose ordinal is one more, or, on
    9999-12-31 only, raises [OverflowError]. *)
Theorem next_day_successor d :
  valid d = true ->
  (exists d', next_day d = Ok d' /\ valid d' = true /\ toordinal d' = toordinal d + 1) \/
  (toordinal d = MAXORDINAL /\ next_day d = Err (OverflowError "date value out of range")).
Proof.
  intros V. pose proof (toordinal_le_max d V).
  destruct (Z.eq_dec (toordinal d) MAXORDINAL) as [E|NE].
  - right. split; [exact E | apply next_day_max, E].
  - left. exists (succ_ymd d). rewrite next_day_Ok by (auto; lia).
    destruct (succ_ymd_spec d V ltac:(lia)). auto.
Qed.

(** ** Witnesses *)

Lemma iso_week_range_witness :
  valid (mkdate 2020 12 31) = true /\ 1 <= iso_week (mkdate 2020 12 31) <= 53.
Proof. split; [reflexivity | apply iso_week_range; reflexivity]. Defined.

Lemma date_leb_order_witness :
  valid (mkdate 2023 12 31) = true /\ valid (mkdate 2024 1 1) = true /\
  (date_leb (mkdate 2023 12 31) (mkdate 2024 1 1) = true <->
   toordinal (mkdate 2023 12 31) <= toordinal (mkdate 2024 1 1)).
Proof. split; [reflexivity | split; [reflexivity | apply date_leb_order; reflexivity]]. Defined.

Lemma next_day_successor_witness :
  valid (mkdate 2024 2 28) = true /\
  ((exists d', next_day (mkdate 2024 2 28) = Ok d' /\ valid d' = true /\
               toordinal d' = toordinal (mkdate 2024 2 28) + 1) \/
   (toordinal (mkdate 2024 2 28) = MAXORDINAL /\
    next_day (mkdate 2024 2 28) = Err (OverflowError "date value out of range"))).
Proof. split; [reflexivity | apply next_day_successor; reflexivity]. Defined.

End PyDate.
