(* ===== verification/Strptime.v ===== *)
(** * Strptime: parsing and printing dates with a format

    The program parses dates in three places: the form fields with
    [datetime.strptime(s, "%Y-%m-%d")] (lines 48-49), the CSV column
    with [pd.to_datetime(..., format="%d%m%Y", errors='coerce')]
    (line 16), and prints them with [strftime("%Y-%m-%d")] and
    [strftime("%A")] (lines 88-89). Both parsers compile the format into
    one regular expression. Each directive is replaced by the group of
    CPython's [_strptime.TimeRE]: [%d] is [3[01]|[12]\d|0[1-9]|[1-9]| [1-9]],
    [%m] is [1[0-2]|0[1-9]|[1-9]] and [%Y] is [\d\d\d\d]. The regex is
    run with [re.match], which tries the alternatives of each group in
    order and backtracks into later ones when the rest fails. A match
    that does not reach the end is an "unconverted data remains" error.
    The fields then go through [int] and the [datetime] constructor's
    validity check. pandas adds the [Timestamp] range check, and with
    [errors='coerce'] every failure becomes [NaT], which is [None] here.

    The matcher [match_groups] is that backtracking search over groups
    of fixed-width alternatives; it is executable, so the parses of
    concrete strings are computed by [vm_compute]. *)

From Stdlib Require Import ZArith List Lia Bool String Ascii.
From S2P Require Import Prelude Calendar.
Import ListNotations.
Import PyDate.
Open Scope Z_scope.

Module Strptime.

(** ** Regular expressions of the directives *)

Inductive cclass :=
| CChar (c : ascii)
| CRange (lo hi : ascii)
| CDigit.

Definition is_digit (c : ascii) : bool :=
  ((48 <=? nat_of_ascii c) && (nat_of_ascii c <=? 57))%nat.

Definition in_class (k : cclass) (c : ascii) : bool :=
  match k with
  | CChar c' => Ascii.eqb c c'
  | CRange lo hi => ((nat_of_ascii lo <=? nat_of_ascii c) && (nat_of_ascii c <=? nat_of_ascii hi))%nat
  | CDigit => is_digit c
  end.

(** An alternative is a fixed sequence of classes; a group lists its
    alternatives in the order the regex writes them. *)
Definition alternative := list cclass.
Definition group := list alternative.

Fixpoint match_alt (a : alternative) (s : list ascii) : option (list ascii * list ascii) :=
  match a, s with
  | [], _ => Some ([], s)
  | k :: a', c :: s' =>
      if in_class k c then
        match match_alt a' s' with
        | Some (tok, rest) => Some (c :: tok, rest)
        | None => None
        end
      else None
  | _ :: _, [] => None
  end.

(** [re.match] of a concatenation of groups: the first alternative of
    the first group whose continuation succeeds, and so on. *)
Fixpoint match_groups (gs : list group) (s : list ascii)
    : option (list (list ascii) * list ascii) :=
  match gs with
  | [] => Some ([], s)
  | g :: gs' =>
      first_some (fun a =>
        match match_alt a s with
        | Some (tok, rest) =>
            match match_groups gs' rest with
            | Some (toks, r) => Some (tok :: toks, r)
            | None => None
            end
        | None => None
        end) g
  end.

(** [TimeRE['d']], [TimeRE['m']], [TimeRE['Y']]. *)
Definition re_d : group :=
  [[CChar "3"; CRange "0" "1"]; [CRange "1" "2"; CDigit]; [CChar "0"; CRange "1" "9"];
   [CRange "1" "9"]; [CChar " "; CRange "1" "9"]].
Definition re_m : group :=
  [[CChar "1"; CRange "0" "2"]; [CChar "0"; CRange "1" "9"]; [CRange "1" "9"]].
Definition re_Y : group := [[CDigit; CDigit; CDigit; CDigit]].

(** ** Formats *)

Inductive directive := DirD | DirM | DirY | DirLit (c : ascii).

Definition directive_re (d : directive) : group :=
  match d with
  | DirD => re_d
  | DirM => re_m
  | DirY => re_Y
  | DirLit c => [[CChar c]]
  end.

Definition fmt_ymd : list directive := [DirY; DirLit "-"; DirM; DirLit "-"; DirD].
Definition fmt_dmy : list directive := [DirD; DirM; DirY].

(** [int(tok)]: whitespace is stripped, then decimal digits. *)
Definition digit_value (c : ascii) : Z := Z.of_nat (nat_of_ascii c) - 48.

Definition int_step (acc : Z) (c : ascii) : Z :=
  if Ascii.eqb c " " then acc else acc * 10 + digit_value c.

Definition int_of_token (tok : list ascii) : Z := fold_left int_step tok 0.

(** The captured value of a directive, if the format has it. *)
Fixpoint field (sel : directive -> bool) (fmt : list directive) (toks : list (list ascii))
    : option Z :=
  match fmt, toks with
  | d :: fmt', t :: toks' => if sel d then Some (int_of_token t) else field sel fmt' toks'
  | _, _ => None
  end.

Definition is_D d := match d with DirD => true | _ => false end.
Definition is_M d := match d with DirM => true | _ => false end.
Definition is_Y d := match d with DirY => true | _ => false end.

Definition default (z : Z) (o : option Z) : Z := match o with Some v => v | None => z end.

(** [datetime.strptime(s, fmt)]: match, check the end, default the
    missing fields to 1900-01-01, and validate the date. *)
Definition strptime (fmt : list directive) (s : string) : result date :=
  match match_groups (map directive_re fmt) (list_ascii_of_string s) with
  | None => Err (ValueError "time data does not match format")
  | Some (toks, rest) =>
      match rest with
      | _ :: _ => Err (ValueError "unconverted data remains")
      | [] =>
          let y := default 1900 (field is_Y fmt toks) in
          let m := default 1 (field is_M fmt toks) in
          let d := default 1 (field is_D fmt toks) in
          if check_date_fields y m d then Ok (mkdate y m d)
          else Err (ValueError "day is out of range for month")
      end
  end.

(** pandas [Timestamp] bounds at day resolution: 1677-09-22 to
    2262-04-11 (the extremes are 1677-09-21 00:12:43 and
    2262-04-11 23:47:16). *)
Definition TS_MIN : date := mkdate 1677 9 22.
Definition TS_MAX : date := mkdate 2262 4 11.

Definition in_ts_bounds (d : date) : bool := date_leb TS_MIN d && date_leb d TS_MAX.

(** One element of [pd.to_datetime(col, format=fmt, errors='coerce')]:
    [None] is [NaT]. *)
Definition to_datetime_coerce (fmt : list directive) (s : string) : option date :=
  match strptime fmt s with
  | Ok d => if in_ts_bounds d then Some d else None
  | Err _ => None
  end.

(** ** Printing *)

Definition digit_char (n : Z) : ascii := ascii_of_nat (48 + Z.to_nat n).

(** The last [w] decimal digits of [n], zero padded. *)
Fixpoint pad_digits (w : nat) (n : Z) : list ascii :=
  match w with
  | O => []
  | S w' => pad_digits w' (n / 10) ++ [digit_char (n mod 10)]
  end.

(** [str(n)] of an integer: its decimal digits, most significant first
    (20 steps cover every [int64]). *)
Fixpoint decimal_digits (fuel : nat) (n : Z) (acc : list ascii) : list ascii :=
  match fuel with
  | O => acc
  | S f =>
      let acc' := digit_char (n mod 10) :: acc in
      if n <? 10 then acc' else decimal_digits f (n / 10) acc'
  end.

(** [strftime("%Y-%m-%d")]. glibc prints [%Y] as the year's decimal
    digits without padding (["999"] for the year 999) and [%m], [%d] on
    two digits. *)
Definition strftime_ymd (d : date) : string :=
  string_of_list_ascii
    (decimal_digits 20 (year d) [] ++ ["-"%char] ++ pad_digits 2 (month d) ++ ["-"%char]
     ++ pad_digits 2 (day d)).

(** [strftime("%A")] in the C locale. *)
Definition day_names : list string :=
  ["Monday"; "Tuesday"; "Wednesday"; "Thursday"; "Friday"; "Saturday"; "Sunday"]%string.

Definition strftime_A (d : date) : string := nth (Z.to_nat (weekday d)) day_names ""%string.

(** ** Lemmas: what a successful parse returns *)

Lemma strptime_valid fmt s d : strptime fmt s = Ok d -> valid d = true.
Proof.
  unfold strptime. destruct (match_groups _ _) as [[toks [|c r]]|]; try discriminate.
  destruct (check_date_fields _ _ _) eqn:C; [|discriminate].
  intros H. injection H as <-. exact C.
Qed.

Lemma strptime_Err fmt s ex : strptime fmt s = Err ex -> exists msg, ex = ValueError msg.
Proof.
  unfold strptime. destruct (match_groups _ _) as [[toks [|c r]]|];
    [destruct (check_date_fields _ _ _) | |]; intros H; (discriminate || (injection H as <-; eauto)).
Qed.

Lemma to_datetime_coerce_Some fmt s d :
  to_datetime_coerce fmt s = Some d -> valid d = true /\ in_ts_bounds d = true.
Proof.
  unfold to_datetime_coerce. destruct (strptime fmt s) as [d'|] eqn:E; [|discriminate].
  destruct (in_ts_bounds d') eqn:B; [|discriminate]. intros [= <-].
  split; [eapply strptime_valid; eauto | exact B].
Qed.

(** A match consumes a prefix of the input made of characters that some
    class of the pattern accepts. *)
Lemma in_ts_bounds_between b e d :
  in_ts_bounds b = true -> in_ts_bounds e = true -> date_leb b d = true -> date_leb d e = true ->
  in_ts_bounds d = true.
Proof.
  unfold in_ts_bounds. rewrite !andb_true_iff. intros [B1 _] [_ E2] Hb He.
  split; eapply date_leb_trans; eauto.
Qed.

Lemma in_ts_bounds_year d :
  valid d = true -> in_ts_bounds d = true -> (1000 <= year d)%Z.
Proof.
  intros V B. unfold in_ts_bounds in B. apply andb_true_iff in B as [B _].
  destruct (Z_lt_le_dec (year d) 1677) as [L|L]; [|lia].
  rewrite date_leb_toordinal, Z.leb_le in B by (auto; reflexivity).
  pose proof (toordinal_year_lt d TS_MIN V eq_refl L). lia.
Qed.


Lemma in_ts_bounds_max d : valid d = true -> in_ts_bounds d = true -> toordinal d < MAXORDINAL.
Proof.
  intros V B. unfold in_ts_bounds in B. apply andb_true_iff in B as [_ B].
  rewrite date_leb_toordinal, Z.leb_le in B by (auto; reflexivity).
  assert (toordinal TS_MAX < MAXORDINAL) by (vm_compute; reflexivity). lia.
Qed.

Lemma match_alt_consumed a s tok rest :
  match_alt a s = Some (tok, rest) ->
  s = tok ++ rest /\ forall c, In c tok -> exists k, In k a /\ in_class k c = true.
Proof.
  revert s tok. induction a as [|k a IH]; intros s tok H.
  - injection H as <- <-. split; [reflexivity | intros c []].
  - destruct s as [|c s]; [discriminate|]. simpl in H.
    destruct (in_class k c) eqn:K; [|discriminate].
    destruct (match_alt a s) as [[tok' rest']|] eqn:E; [|discriminate].
    injection H as <- <-. destruct (IH _ _ E) as [-> Hc]. split; [reflexivity|].
    intros c' [<- | Hin]; [exists k; split; [left|]; auto|].
    destruct (Hc c' Hin) as (k' & ? & ?). exists k'. split; [right|]; auto.
Qed.

Definition accepted_by (gs : list group) (c : ascii) : Prop :=
  exists g a k, In g gs /\ In a g /\ In k a /\ in_class k c = true.

Lemma match_groups_consumed gs s toks rest :
  match_groups gs s = Some (toks, rest) ->
  s = List.concat toks ++ rest /\ forall c, In c (List.concat toks) -> accepted_by gs c.
Proof.
  revert s toks. induction gs as [|g gs IH]; intros s toks H.
  - injection H as <- <-. split; [reflexivity | intros c []].
  - simpl in H. apply first_some_Some in H. destruct H as (a & Ha & H).
    destruct (match_alt a s) as [[tok r]|] eqn:E1; [|discriminate].
    destruct (match_groups gs r) as [[toks' r']|] eqn:E2; [|discriminate].
    injection H as <- <-. destruct (match_alt_consumed _ _ _ _ E1) as [-> Hc1].
    destruct (IH _ _ E2) as [-> Hc2]. simpl. rewrite app_assoc. split; [reflexivity|].
    intros c Hin. apply in_app_or in Hin as [Hin | Hin].
    + destruct (Hc1 c Hin) as (k & Hk & Hkc). exists g, a, k. repeat split; auto. left. reflexivity.
    + destruct (Hc2 c Hin) as (g' & a' & k' & ? & ? & ? & ?). exists g', a', k'.
      repeat split; auto. right. assumption.
Qed.

(** A character that no class of the format accepts can never be
    consumed: any string containing it fails to parse. *)
Lemma strptime_rejects fmt s c :
  ~ accepted_by (map directive_re fmt) c -> In c (list_ascii_of_string s) ->
  exists msg, strptime fmt s = Err (ValueError msg).
Proof.
  intros Hc Hin. unfold strptime.
  destruct (match_groups _ _) as [[toks rest]|] eqn:E; [|eauto].
  destruct (match_groups_consumed _ _ _ _ E) as [Hs Hacc]. rewrite Hs in Hin.
  apply in_app_or in Hin as [Hin | Hin]; [destruct (Hc (Hacc c Hin))|].
  destruct rest as [|c' r]; [destruct Hin | eauto].
Qed.

(** ** Lemmas: the printed digits and how the groups match them *)

Lemma digit_char_facts n :
  0 <= n <= 9 ->
  is_digit (digit_char n) = true /\ digit_value (digit_char n) = n /\
  Ascii.eqb (digit_char n) " " = false.
Proof. intros H. enum_Z n 0 9; vm_compute; auto. Qed.

Lemma digit_char_mod n :
  is_digit (digit_char (n mod 10)) = true /\ digit_value (digit_char (n mod 10)) = n mod 10 /\
  Ascii.eqb (digit_char (n mod 10)) " " = false.
Proof. apply digit_char_facts. pose proof (Z.mod_pos_bound n 10). lia. Qed.


(** Reading printed digits after a prefix valued [acc]. *)
Lemma int_step_pad w n acc :
  0 <= n -> fold_left int_step (pad_digits w n) acc = acc * 10 ^ Z.of_nat w + n mod 10 ^ Z.of_nat w.
Proof.
  revert n acc. induction w as [|w IH]; intros n acc Hn.
  - simpl. rewrite Z.mod_1_r. lia.
  - simpl pad_digits. rewrite fold_left_app, IH by (apply Z.div_pos; lia).
    cbn [fold_left]. unfold int_step at 1. destruct (digit_char_mod n) as (_ & -> & ->).
    rewrite Nat2Z.inj_succ, Z.pow_succ_r by lia.
    rewrite Z.rem_mul_r by (try apply Z.pow_pos_nonneg; lia). lia.
Qed.

(** The printed digits read back as the number modulo [10^w]. *)
Lemma int_of_token_pad w n :
  0 <= n -> int_of_token (pad_digits w n) = n mod 10 ^ Z.of_nat w.
Proof. intros Hn. exact (int_step_pad w n 0 Hn). Qed.

Lemma pad_digits_length w n : List.length (pad_digits w n) = w.
Proof.
  revert n. induction w as [|w IH]; intros n; [reflexivity|].
  cbn [pad_digits]. rewrite length_app, IH. simpl. lia.
Qed.

Lemma pad_digits_inj w a b :
  0 <= a < 10 ^ Z.of_nat w -> 0 <= b < 10 ^ Z.of_nat w -> pad_digits w a = pad_digits w b -> a = b.
Proof.
  intros Ha Hb E. apply (f_equal int_of_token) in E.
  rewrite !int_of_token_pad, !Z.mod_small in E by lia. exact E.
Qed.

Lemma pad_digits_4 y :
  pad_digits 4 y = [digit_char (y / 10 / 10 / 10 mod 10); digit_char (y / 10 / 10 mod 10);
                    digit_char (y / 10 mod 10); digit_char (y mod 10)].
Proof. cbn [pad_digits app]. reflexivity. Qed.

Lemma decimal_digits_pad k fuel n acc :
  (k < fuel)%nat -> 10 ^ Z.of_nat k <= n < 10 ^ Z.of_nat (S k) ->
  decimal_digits fuel n acc = pad_digits (S k) n ++ acc.
Proof.
  revert fuel n acc. induction k as [|k IH]; intros fuel n acc Hf Hn;
    (destruct fuel as [|f]; [lia|]); cbn [decimal_digits].
  - change (10 ^ Z.of_nat 0) with 1 in Hn. change (10 ^ Z.of_nat 1) with 10 in Hn.
    destruct (Z.ltb_spec n 10); [|lia]. reflexivity.
  - assert (P : 0 < 10 ^ Z.of_nat k) by (apply Z.pow_pos_nonneg; lia).
    assert (E1 : 10 ^ Z.of_nat (S k) = 10 * 10 ^ Z.of_nat k)
      by (rewrite Nat2Z.inj_succ, Z.pow_succ_r; lia).
    assert (E2 : 10 ^ Z.of_nat (S (S k)) = 10 * (10 * 10 ^ Z.of_nat k))
      by (rewrite (Nat2Z.inj_succ (S k)), Z.pow_succ_r, E1; lia).
    rewrite E1, E2 in Hn.
    destruct (Z.ltb_spec n 10) as [L|_]; [lia|].
    rewrite IH by (try rewrite E1; zlia).
    change (pad_digits (S (S k)) n) with (pad_digits (S k) (n / 10) ++ [digit_char (n mod 10)]).
    rewrite <- app_assoc. reflexivity.
Qed.


Lemma pad_digits_split a b n :
  pad_digits (a + b) n = pad_digits a (n / 10 ^ Z.of_nat b) ++ pad_digits b n.
Proof.
  revert n. induction b as [|b IH]; intros n.
  - rewrite Nat.add_0_r, app_nil_r. simpl. rewrite Z.div_1_r. reflexivity.
  - rewrite Nat.add_succ_r. cbn [pad_digits]. rewrite IH, app_assoc.
    rewrite Z.div_div by (try apply Z.pow_pos_nonneg; lia).
    rewrite Nat2Z.inj_succ, Z.pow_succ_r, Z.mul_comm by lia. reflexivity.
Qed.

Lemma pad_digits_mod w n : pad_digits w n = pad_digits w (n mod 10 ^ Z.of_nat w).
Proof.
  revert n. induction w as [|w IH]; intros n; [reflexivity|].
  cbn [pad_digits]. rewrite IH, (IH ((n mod 10 ^ Z.of_nat (S w)) / 10)).
  rewrite Nat2Z.inj_succ, Z.pow_succ_r by lia.
  assert (P : 0 < 10 ^ Z.of_nat w) by (apply Z.pow_pos_nonneg; lia).
  rewrite Z.rem_mul_r by lia.
  set (q := (n / 10) mod 10 ^ Z.of_nat w).
  assert (Hq : 0 <= q < 10 ^ Z.of_nat w) by (apply Z.mod_pos_bound; lia).
  pose proof (Z.mod_pos_bound n 10 ltac:(lia)).
  replace ((n mod 10 + 10 * q) / 10) with q by zlia.
  replace ((n mod 10 + 10 * q) mod 10) with (n mod 10) by zlia.
  rewrite (Z.mod_small q) by lia. reflexivity.
Qed.

Lemma match_Y y gs rest :
  match_groups (re_Y :: gs) (pad_digits 4 y ++ rest) =
  match match_groups gs rest with
  | Some (toks, r) => Some (pad_digits 4 y :: toks, r)
  | None => None
  end.
Proof.
  rewrite pad_digits_4. cbn [app match_groups first_some match_alt re_Y in_class].
  rewrite (proj1 (digit_char_mod (y / 10 / 10 / 10))),
    (proj1 (digit_char_mod (y / 10 / 10))), (proj1 (digit_char_mod (y / 10))),
    (proj1 (digit_char_mod y)).
  cbn [match_alt].
  destruct (match_groups gs rest) as [[toks r]|]; reflexivity.
Qed.

Lemma match_lit c gs rest :
  match_groups ([[CChar c]] :: gs) (c :: rest) =
  match match_groups gs rest with
  | Some (toks, r) => Some ([c] :: toks, r)
  | None => None
  end.
Proof.
  simpl. rewrite Ascii.eqb_refl.
  destruct (match_groups gs rest) as [[toks r]|]; reflexivity.
Qed.

Lemma match_m m gs rest toks r :
  1 <= m <= 12 -> match_groups gs rest = Some (toks, r) ->
  match_groups (re_m :: gs) (pad_digits 2 m ++ rest) = Some (pad_digits 2 m :: toks, r).
Proof. intros Hm H. enum_Z m 1 12; simpl; rewrite H; reflexivity. Qed.

Lemma match_d d gs rest toks r :
  1 <= d <= 31 -> match_groups gs rest = Some (toks, r) ->
  match_groups (re_d :: gs) (pad_digits 2 d ++ rest) = Some (pad_digits 2 d :: toks, r).
Proof. intros Hd H. enum_Z d 1 31; simpl; rewrite H; reflexivity. Qed.

(** The day-month-year text of a date, as the dataset's [Tarih] column
    holds it when it is read as text (e.g. ["15032023"]). *)
Definition dmy_text (d : date) : string :=
  string_of_list_ascii (pad_digits 2 (day d) ++ pad_digits 2 (month d) ++ pad_digits 4 (year d)).

Lemma valid_fields_digits d :
  valid d = true -> 1000 <= year d ->
  int_of_token (pad_digits 4 (year d)) = year d /\
  int_of_token (pad_digits 2 (month d)) = month d /\
  int_of_token (pad_digits 2 (day d)) = day d /\ 1 <= day d <= 31 /\ 1 <= month d <= 12.
Proof.
  intros V Hy. destruct (valid_fields d V) as (Hy' & Hm & Hd).
  destruct (month_table (year d) (month d) Hm) as ((_ & ?) & _).
  unfold MAXYEAR in Hy'.
  rewrite !int_of_token_pad by lia. simpl Z.of_nat.
  rewrite !Z.mod_small by (simpl; lia). lia.
Qed.

Lemma strptime_strftime d :
  valid d = true -> 1000 <= year d -> strptime fmt_ymd (strftime_ymd d) = Ok d.
Proof.
  intros V Hy. destruct (valid_fields_digits d V Hy) as (Ey & Em & Ed & Hd & Hm).
  destruct (valid_fields d V) as (Hy' & _). unfold MAXYEAR in Hy'.
  unfold strptime, strftime_ymd. rewrite list_ascii_of_string_of_list_ascii.
  rewrite (decimal_digits_pad 3), app_nil_r by (simpl; lia).
  change (map directive_re fmt_ymd) with [re_Y; [[CChar "-"]]; re_m; [[CChar "-"]]; re_d].
  assert (HD : match_groups [re_d] (pad_digits 2 (day d)) = Some ([pad_digits 2 (day d)], [])).
  { rewrite <- (app_nil_r (pad_digits 2 (day d))) at 1. apply (match_d _ [] [] [] [] Hd eq_refl). }
  assert (HL : match_groups [[[CChar "-"]]; re_d] ("-"%char :: pad_digits 2 (day d)) =
               Some ([["-"%char]; pad_digits 2 (day d)], [])) by (rewrite match_lit, HD; reflexivity).
  rewrite match_Y. cbn [app]. rewrite match_lit, (match_m (month d) _ _ _ _ Hm HL).
  cbn [field fmt_ymd is_Y is_M is_D default]. rewrite Ey, Em, Ed.
  unfold valid in V. rewrite V. destruct d; reflexivity.
Qed.

(** The ["%d%m%Y"] parse of the CSV column reads a zero-padded
    day-month-year text back as its date. *)
Lemma strptime_dmy_text d :
  valid d = true -> 1000 <= year d -> strptime fmt_dmy (dmy_text d) = Ok d.
Proof.
  intros V Hy. destruct (valid_fields_digits d V Hy) as (Ey & Em & Ed & Hd & Hm).
  unfold strptime, dmy_text. rewrite list_ascii_of_string_of_list_ascii.
  change (map directive_re fmt_dmy) with [re_d; re_m; re_Y].
  assert (HY : match_groups [re_Y] (pad_digits 4 (year d)) = Some ([pad_digits 4 (year d)], [])).
  { rewrite <- (app_nil_r (pad_digits 4 (year d))), match_Y. reflexivity. }
  rewrite (match_d _ _ _ _ _ Hd (match_m _ _ _ _ _ Hm HY)).
  cbn [field fmt_dmy is_Y is_M is_D default]. rewrite Ey, Em, Ed.
  unfold valid in V. rewrite V. destruct d; reflexivity.
Qed.

(** [(C8)] Round trip: [strptime(strftime(d, "%Y-%m-%d"), "%Y-%m-%d")]
    gives back every valid date with a four-digit year; this is how the
    [Tarih] field of a forecast (line 88) reads back. *)
Theorem strptime_strftime_ymd d :
  valid d = true -> 1000 <= year d -> strptime fmt_ymd (strftime_ymd d) = Ok d.
Proof. apply strptime_strftime. Qed.

Lemma strptime_strftime_ymd_witness :
  valid (mkdate 2024 3 15) = true /\ 1000 <= year (mkdate 2024 3 15) /\
  strptime fmt_ymd (strftime_ymd (mkdate 2024 3 15)) = Ok (mkdate 2024 3 15).
Proof.
  split; [reflexivity | split; [simpl; lia | apply strptime_strftime_ymd; [reflexivity | simpl; lia]]].
Defined.

End Strptime.
