(* ===== verification/Float64.v ===== *)
(** * Float64: binary64 arithmetic on exact rationals

    Python's [float] is IEEE 754 binary64. The optimizer of
    [src/app.py] (lines 64-85) divides a candidate by the baseline
    prediction, multiplies the result by a prediction and subtracts
    40.5, each time in binary64. This file gives the rounding of an exact
    rational to the nearest binary64 value, ties to even ([b64]): a
    53-bit significand and the least exponent of the subnormals
    ([EMIN]). A float operation is the exact operation followed by
    [b64]. Results of magnitude [2^1024] or more, where binary64
    overflows to [inf], are outside this model.

    The lemmas give what the optimizer's proofs need: [b64] keeps the
    sign, is monotone, odd and compatible with [==]; its error is half a
    unit in the last place, a relative [2^-53] above the subnormal
    range; and the binary64 values just above 45 are [2^-47] apart. *)

From Stdlib Require Import ZArith QArith Qpower Qround Qabs Lqa Lia.
From S2P Require Import Prelude.

Module Float64.

(** ** Rounding *)

(** [floor (log2 x)] for [x > 0]: with [n / d = x], it is
    [log2 n - log2 d] or one less. *)
Definition flog2 (x : Q) : Z :=
  let k := (Z.log2 (Qnum x) - Z.log2 (Zpos (Qden x)))%Z in
  if Qle_bool (2 ^ k) x then k else (k - 1)%Z.

(** The exponent of the last significand bit of subnormals. *)
Definition EMIN : Z := -1074.

(** The exponent of the unit in the last place of [x]. *)
Definition ulp_exp (x : Q) : Z := Z.max EMIN (flog2 (Qabs x) - 52).

(** Rounding to the nearest binary64 value, ties to even. *)
Definition b64 (x : Q) : Q :=
  if Qeq_bool x 0 then 0
  else let e := ulp_exp x in inject_Z (py_round (x * 2 ^ (- e))) * 2 ^ e.

(** ** Powers of two *)

Lemma pow2_pos (k : Z) : 0 < 2 ^ k.
Proof. apply Qpower_0_lt. reflexivity. Qed.

Lemma pow2_add (a b : Z) : 2 ^ (a + b) == 2 ^ a * 2 ^ b.
Proof. apply Qpower_plus. discriminate. Qed.

Lemma pow2_le (a b : Z) : (a <= b)%Z -> 2 ^ a <= 2 ^ b.
Proof. intros H. apply Qpower_le_compat_l; [exact H | discriminate]. Qed.

Lemma pow2_lt (a b : Z) : (a < b)%Z -> 2 ^ a < 2 ^ b.
Proof. intros H. apply Qpower_lt_compat_l; [exact H | reflexivity]. Qed.

Lemma pow2_Z (n : Z) : (0 <= n)%Z -> inject_Z (2 ^ n) == 2 ^ n.
Proof. intros H. apply Zpower_Qpower. exact H. Qed.

Lemma pow2_inv (a : Z) : 2 ^ a * 2 ^ (- a) == 1.
Proof. rewrite <- pow2_add, Z.add_opp_diag_r. reflexivity. Qed.

(** ** The exponent *)

Lemma flog2_spec x : 0 < x -> 2 ^ flog2 x <= x /\ x < 2 ^ (flog2 x + 1).
Proof.
  intros Hx. destruct x as [n d]. unfold Qlt in Hx. cbn in Hx.
  assert (Hn : (0 < n)%Z) by lia.
  destruct (Z.log2_spec n Hn) as [N1 N2]. destruct (Z.log2_spec (Zpos d) eq_refl) as [D1 D2].
  pose proof (Z.log2_nonneg n). pose proof (Z.log2_nonneg (Zpos d)).
  set (ln := Z.log2 n) in *. set (ld := Z.log2 (Zpos d)) in *.
  rewrite <- Z.add_1_r in N2, D2.
  assert (Ex : n # d == inject_Z n * / inject_Z (Zpos d)) by (unfold Qeq; cbn; lia).
  assert (Q1 : 2 ^ ln <= inject_Z n) by (rewrite <- pow2_Z, <- Zle_Qle by lia; exact N1).
  assert (Q2 : inject_Z n < 2 ^ (ln + 1)) by (rewrite <- pow2_Z, <- Zlt_Qlt by lia; exact N2).
  assert (Q3 : 2 ^ ld <= inject_Z (Zpos d)) by (rewrite <- pow2_Z, <- Zle_Qle by lia; exact D1).
  assert (Q4 : inject_Z (Zpos d) < 2 ^ (ld + 1)) by (rewrite <- pow2_Z, <- Zlt_Qlt by lia; exact D2).
  pose proof (pow2_pos ld) as P1. pose proof (pow2_pos (ld + 1)) as P2.
  assert (Hd : 0 < inject_Z (Zpos d)) by (unfold Qlt; cbn; lia).
  (* the bounds [2^(k-1) < x < 2^(k+1)] for [k = ln - ld] *)
  assert (Up : n # d < 2 ^ (ln - ld + 1)).
  { rewrite Ex. apply Qlt_shift_div_r; [exact Hd|].
    replace (ln + 1)%Z with (ln - ld + 1 + ld)%Z in Q2 by lia. rewrite pow2_add in Q2.
    apply Qlt_le_trans with (1 := Q2). apply Qmult_le_l; [apply pow2_pos | exact Q3]. }
  assert (Lo : 2 ^ (ln - ld - 1) < n # d).
  { rewrite Ex. apply Qlt_shift_div_l; [exact Hd|].
    replace ln with (ln - ld - 1 + (ld + 1))%Z in Q1 by lia. rewrite pow2_add in Q1.
    apply Qlt_le_trans with (2 := Q1). apply Qmult_lt_l; [apply pow2_pos | exact Q4]. }
  unfold flog2. cbn [Qnum Qden]. fold ln ld.
  destruct (Qle_bool (2 ^ (ln - ld)) (n # d)) eqn:E.
  - apply Qle_bool_iff in E. split; [exact E | exact Up].
  - apply Qle_bool_false in E. split; [apply Qlt_le_weak, Lo|].
    replace (ln - ld - 1 + 1)%Z with (ln - ld)%Z by lia. exact E.
Qed.

Lemma flog2_unique x k : 2 ^ k <= x -> x < 2 ^ (k + 1) -> flog2 x = k.
Proof.
  intros H1 H2. assert (Hx : 0 < x) by (apply Qlt_le_trans with (2 := H1); apply pow2_pos).
  destruct (flog2_spec x Hx) as [F1 F2].
  destruct (Z.lt_trichotomy (flog2 x) k) as [L|[E|L]]; [exfalso|exact E|exfalso].
  - pose proof (pow2_le (flog2 x + 1) k ltac:(lia)). lra.
  - pose proof (pow2_le (k + 1) (flog2 x) ltac:(lia)). lra.
Qed.

Lemma flog2_mono x y : 0 < x -> x <= y -> (flog2 x <= flog2 y)%Z.
Proof.
  intros Hx Hxy. destruct (flog2_spec x Hx) as [X1 X2].
  destruct (flog2_spec y ltac:(lra)) as [Y1 Y2].
  destruct (Z.le_gt_cases (flog2 x) (flog2 y)) as [L|L]; [exact L|].
  pose proof (pow2_le (flog2 y + 1) (flog2 x) ltac:(lia)). lra.
Qed.

Lemma Qabs_opp_eq x : Qabs (- x) = Qabs x.
Proof. destruct x as [n d]. unfold Qabs, Qopp. cbn. rewrite Z.abs_opp. reflexivity. Qed.

Lemma Qabs_pos_neq x : ~ x == 0 -> 0 < Qabs x.
Proof.
  intros H. apply Qabs_case; intros Hx; apply Qle_lteq in Hx as [L|L];
    [exact L | symmetry in L; contradiction | lra | contradiction].
Qed.

(** The significand of a non-zero [x] stays below [2^53], and above
    [2^52] outside the subnormal range. *)
Lemma ulp_exp_bounds x :
  ~ x == 0 ->
  Qabs x < 2 ^ (ulp_exp x + 53) /\ ((EMIN < ulp_exp x)%Z -> 2 ^ (ulp_exp x + 52) <= Qabs x).
Proof.
  intros H. destruct (flog2_spec (Qabs x) (Qabs_pos_neq x H)) as [F1 F2]. unfold ulp_exp.
  split.
  - apply Qlt_le_trans with (1 := F2). apply pow2_le. lia.
  - intros L. replace (Z.max EMIN (flog2 (Qabs x) - 52) + 52)%Z with (flog2 (Qabs x)) by lia.
    exact F1.
Qed.

Lemma ulp_exp_opp x : ulp_exp (- x) = ulp_exp x.
Proof. unfold ulp_exp. rewrite Qabs_opp_eq. reflexivity. Qed.

Lemma ulp_exp_mono x y : 0 < x -> x <= y -> (ulp_exp x <= ulp_exp y)%Z.
Proof.
  intros Hx Hxy. unfold ulp_exp.
  assert (A : 0 < Qabs x) by (rewrite Qabs_pos; lra).
  assert (B : Qabs x <= Qabs y) by (rewrite !Qabs_pos; lra).
  pose proof (flog2_mono _ _ A B). lia.
Qed.

Lemma b64_eq x : ~ x == 0 -> b64 x = inject_Z (py_round (x * 2 ^ (- ulp_exp x))) * 2 ^ ulp_exp x.
Proof.
  intros H. unfold b64. destruct (Qeq_bool x 0) eqn:E; [apply Qeq_bool_iff in E; contradiction|].
  reflexivity.
Qed.

Lemma b64_zero x : x == 0 -> b64 x = 0.
Proof. intros H. unfold b64. apply Qeq_bool_iff in H. rewrite H. reflexivity. Qed.

Lemma flog2_compat x y : 0 < x -> x == y -> flog2 x = flog2 y.
Proof.
  intros Hx E. destruct (flog2_spec x Hx) as [A B]. symmetry.
  apply flog2_unique; rewrite <- E; assumption.
Qed.

Lemma ulp_exp_compat x y : ~ x == 0 -> x == y -> ulp_exp x = ulp_exp y.
Proof.
  intros NE E. unfold ulp_exp.
  rewrite (flog2_compat (Qabs x) (Qabs y)); [reflexivity | apply Qabs_pos_neq, NE | rewrite E; reflexivity].
Qed.

(** [b64] depends on the value of a rational only. *)
#[export] Instance b64_Proper : Proper (Qeq ==> Qeq) b64.
Proof.
  intros x y E. destruct (Qeq_dec x 0) as [Z0|NZ].
  - rewrite !b64_zero; [reflexivity | rewrite <- E; exact Z0 | exact Z0].
  - assert (NZ' : ~ y == 0) by (intros H; apply NZ; rewrite E; exact H).
    rewrite !b64_eq by assumption. rewrite (ulp_exp_compat x y NZ E), E. reflexivity.
Qed.

(** ** Sign, symmetry and order *)

Lemma b64_nonneg x : 0 <= x -> 0 <= b64 x.
Proof.
  intros Hx. destruct (Qeq_dec x 0) as [E|NE]; [rewrite b64_zero by exact E; apply Qle_refl|].
  rewrite b64_eq by exact NE. apply Qmult_le_0_compat; [|apply Qlt_le_weak, pow2_pos].
  change 0 with (inject_Z 0). rewrite <- Zle_Qle. apply py_round_ge_int.
  apply Qmult_le_0_compat; [exact Hx | apply Qlt_le_weak, pow2_pos].
Qed.

Lemma b64_opp x : b64 (- x) == - b64 x.
Proof.
  destruct (Qeq_dec x 0) as [E|NE].
  { rewrite !b64_zero; [reflexivity | exact E | rewrite E; reflexivity]. }
  assert (NE' : ~ - x == 0) by (intros E; apply NE; lra).
  rewrite !b64_eq by assumption. rewrite ulp_exp_opp.
  assert (Eo : - x * 2 ^ (- ulp_exp x) == - (x * 2 ^ (- ulp_exp x))) by ring.
  rewrite Eo, py_round_opp, inject_Z_opp. ring.
Qed.

Lemma b64_nonpos x : x <= 0 -> b64 x <= 0.
Proof.
  intros Hx. assert (H : b64 (- x) == - b64 x) by apply b64_opp.
  pose proof (b64_nonneg (- x) ltac:(lra)). lra.
Qed.

(** Both roundings by the same exponent keep the order. *)
Lemma round_at_mono x y e :
  x <= y -> inject_Z (py_round (x * 2 ^ (- e))) * 2 ^ e <= inject_Z (py_round (y * 2 ^ (- e))) * 2 ^ e.
Proof.
  intros Hxy. apply Qmult_le_compat_r; [|apply Qlt_le_weak, pow2_pos].
  rewrite <- Zle_Qle. apply py_round_mono. apply Qmult_le_compat_r; [exact Hxy | apply Qlt_le_weak, pow2_pos].
Qed.

Lemma b64_mono_pos x y : 0 < x -> x <= y -> b64 x <= b64 y.
Proof.
  intros Hx Hxy. assert (NEx : ~ x == 0) by (intros E; lra). assert (NEy : ~ y == 0) by (intros E; lra).
  rewrite !b64_eq by assumption.
  pose proof (ulp_exp_mono x y Hx Hxy) as Hle.
  destruct (Z.eq_dec (ulp_exp x) (ulp_exp y)) as [E|NE].
  { rewrite E. apply round_at_mono, Hxy. }
  set (ex := ulp_exp x) in *. set (ey := ulp_exp y) in *.
  destruct (ulp_exp_bounds x NEx) as [Bx _]. destruct (ulp_exp_bounds y NEy) as [_ By].
  assert (Hex : (EMIN <= ex)%Z) by (unfold ex, ulp_exp; lia).
  rewrite Qabs_pos in Bx, By by lra. specialize (By ltac:(lia)).
  apply Qle_trans with (y := 2 ^ (ey + 52)).
  - (* the rounding of [x] is at most [2^(ey + 52)] *)
    assert (Hs : x * 2 ^ (- ex) <= inject_Z (2 ^ (ey + 52 - ex))).
    { rewrite pow2_Z by lia. replace (ey + 52 - ex)%Z with (ey + 52 + - ex)%Z by lia.
      rewrite pow2_add. apply Qmult_le_compat_r; [|apply Qlt_le_weak, pow2_pos].
      apply Qlt_le_weak, Qlt_le_trans with (1 := Bx). apply pow2_le. lia. }
    apply py_round_le_int in Hs. rewrite Zle_Qle in Hs.
    apply Qle_trans with (y := inject_Z (2 ^ (ey + 52 - ex)) * 2 ^ ex).
    + apply Qmult_le_compat_r; [exact Hs | apply Qlt_le_weak, pow2_pos].
    + rewrite pow2_Z, <- pow2_add by lia.
      replace (ey + 52 - ex + ex)%Z with (ey + 52)%Z by lia. apply Qle_refl.
  - (* the rounding of [y] is at least [2^(ey + 52)] *)
    assert (Hs : inject_Z (2 ^ 52) <= y * 2 ^ (- ey)).
    { rewrite pow2_Z by lia. replace 52%Z with (ey + 52 + - ey)%Z at 1 by lia.
      rewrite pow2_add. apply Qmult_le_compat_r; [exact By | apply Qlt_le_weak, pow2_pos]. }
    apply py_round_ge_int in Hs. rewrite Zle_Qle in Hs.
    apply Qle_trans with (y := inject_Z (2 ^ 52) * 2 ^ ey).
    + rewrite pow2_Z, <- pow2_add by lia. rewrite Z.add_comm. apply Qle_refl.
    + apply Qmult_le_compat_r; [exact Hs | apply Qlt_le_weak, pow2_pos].
Qed.

(** Rounding is monotone. *)
Lemma b64_mono x y : x <= y -> b64 x <= b64 y.
Proof.
  intros Hxy. destruct (Qlt_le_dec 0 x) as [Px|Nx]; [apply b64_mono_pos; assumption|].
  destruct (Qlt_le_dec 0 y) as [Py|Ny].
  { pose proof (b64_nonpos x Nx). pose proof (b64_nonneg y (Qlt_le_weak _ _ Py)). lra. }
  destruct (Qeq_dec y 0) as [Ey|NEy]; [rewrite (b64_zero y Ey); apply b64_nonpos, Nx|].
  assert (Hy : y < 0) by (apply Qle_lteq in Ny as [L|L]; [exact L | contradiction]).
  pose proof (b64_mono_pos (- y) (- x) ltac:(lra) ltac:(lra)) as H.
  rewrite !b64_opp in H. lra.
Qed.

(** ** Rounding error *)

Lemma b64_error x : Qabs (b64 x - x) <= 2 ^ ulp_exp x * (1 # 2).
Proof.
  destruct (Qeq_dec x 0) as [E|NE].
  { rewrite (b64_zero x E). assert (Z0 : Qabs (0 - x) == 0) by (rewrite E; reflexivity).
    rewrite Z0. apply Qmult_le_0_compat; [apply Qlt_le_weak, pow2_pos | discriminate]. }
  rewrite b64_eq by exact NE. set (e := ulp_exp x). set (y := x * 2 ^ (- e)).
  assert (Ex : x == y * 2 ^ e).
  { unfold y. rewrite <- Qmult_assoc, (Qmult_comm (2 ^ (- e)) (2 ^ e)), pow2_inv. ring. }
  assert (D : inject_Z (py_round y) * 2 ^ e - x == (inject_Z (py_round y) - y) * 2 ^ e)
    by (rewrite Ex at 1; ring).
  rewrite D, Qabs_Qmult, (Qabs_pos (2 ^ e)) by (apply Qlt_le_weak, pow2_pos).
  rewrite (Qmult_comm (2 ^ e)). apply Qmult_le_compat_r; [apply py_round_close | apply Qlt_le_weak, pow2_pos].
Qed.

(** Relative error [2^-53] in the normal range, absolute error
    [2^-1075] in the subnormal range. *)
Lemma b64_rel_error x : Qabs (b64 x - x) <= Qabs x * (1 # 9007199254740992) + 2 ^ (EMIN - 1).
Proof.
  pose proof (b64_error x) as H. pose proof (pow2_pos (EMIN - 1)) as P. pose proof (Qabs_nonneg x).
  destruct (Qeq_dec x 0) as [E|NE].
  { rewrite (b64_zero x E). assert (Z0 : Qabs (0 - x) == 0) by (rewrite E; reflexivity). lra. }
  assert (Hge : (EMIN <= ulp_exp x)%Z) by (unfold ulp_exp; lia).
  destruct (Z.eq_dec (ulp_exp x) EMIN) as [Em|Ne].
  - assert (P2 : 2 ^ EMIN * (1 # 2) == 2 ^ (EMIN - 1)).
    { replace EMIN with (EMIN - 1 + 1)%Z at 1 by lia. rewrite pow2_add. change (2 ^ 1) with 2. ring. }
    rewrite Em in H. lra.
  - destruct (ulp_exp_bounds x NE) as [_ B]. specialize (B ltac:(lia)).
    rewrite pow2_add in B. assert (E52 : 2 ^ 52 == 4503599627370496) by reflexivity.
    rewrite E52 in B. lra.
Qed.

(** In the normal range the error is relative only. *)
Lemma b64_rel_normal x :
  2 ^ (EMIN + 52) <= Qabs x -> Qabs (b64 x - x) <= Qabs x * (1 # 9007199254740992).
Proof.
  intros Hx. assert (NE : ~ x == 0) by (intros E; rewrite E in Hx; pose proof (pow2_pos (EMIN + 52)); cbn in Hx; lra).
  pose proof (b64_error x) as H.
  destruct (flog2_spec (Qabs x) (Qabs_pos_neq x NE)) as [F1 F2].
  assert (Hf : (EMIN + 52 <= flog2 (Qabs x))%Z).
  { destruct (Z.le_gt_cases (EMIN + 52) (flog2 (Qabs x))) as [L|L]; [exact L|].
    pose proof (pow2_le (flog2 (Qabs x) + 1) (EMIN + 52) ltac:(lia)). lra. }
  assert (Eu : ulp_exp x = (flog2 (Qabs x) - 52)%Z) by (unfold ulp_exp; lia).
  rewrite Eu in H. replace (flog2 (Qabs x)) with (flog2 (Qabs x) - 52 + 52)%Z in F1 by lia.
  rewrite pow2_add in F1. assert (E52 : 2 ^ 52 == 4503599627370496) by reflexivity.
  rewrite E52 in F1. lra.
Qed.

(** The binary64 numbers next to 45 are [45 - 2^-47] and [45 + 2^-47]. *)
Lemma b64_above_45 y : 45 < b64 y -> 45 + (1 # 140737488355328) <= b64 y.
Proof.
  intros H. destruct (Qlt_le_dec y 32) as [L|G].
  { pose proof (b64_mono y 32 (Qlt_le_weak _ _ L)). assert (b64 32 == 32) by (vm_compute; reflexivity). lra. }
  destruct (Qlt_le_dec y 64) as [L'|G'].
  2: { pose proof (b64_mono 64 y G'). assert (b64 64 == 64) by (vm_compute; reflexivity). lra. }
  assert (NE : ~ y == 0) by (intros E; rewrite E in G; lra).
  assert (Eu : ulp_exp y = (-47)%Z).
  { unfold ulp_exp. rewrite (flog2_compat (Qabs y) y) by (rewrite ?Qabs_pos; lra).
    rewrite (flog2_unique y 5); [reflexivity | |]; [change (2 ^ 5) with 32 | change (2 ^ (5 + 1)) with 64]; lra. }
  revert H. rewrite b64_eq, Eu by exact NE. set (r := py_round _).
  assert (Ep : 2 ^ (-47) == 1 # 140737488355328) by reflexivity. rewrite Ep. intros H.
  assert (Hr : inject_Z 6333186975989760 < inject_Z r)
    by (change (inject_Z 6333186975989760) with (6333186975989760 # 1); lra).
  rewrite <- Zlt_Qlt in Hr. assert (Hr' : inject_Z 6333186975989761 <= inject_Z r) by (rewrite <- Zle_Qle; lia).
  change (inject_Z 6333186975989761) with (6333186975989761 # 1) in Hr'. lra.
Qed.

End Float64.
