(* ===== verification/Optimizer.v ===== *)
(** * Optimizer: the capacity-constrained choice of the invitation count

    The body of the [while] loop of [tahmin_et] ([src/app.py] lines
    52-85) builds a one-row feature frame [X], asks the invitation model
    for its baseline [orijinal_davet], and then scans the candidates
    [range(20, 150)]. For each candidate it rescales the attendance
    prediction by [aday_davet / orijinal_davet] (or by 1 when the
    baseline is 0), drops candidates above the ceiling of 45, and keeps
    the first candidate whose distance to the target 40.5 is strictly
    smallest. The final counts are the four predictions rescaled by the
    chosen ratio and rounded with [int(round(.))].

    The trained random forests are the record [FunnelModels]: after
    [fit], [predict] is a deterministic function of the feature row.
    The scan is [scan], a [fold_left] of [scan_step] over the candidates.
    Its specification is [is_best], the first minimiser of the distance
    among the admissible candidates. [scan_refines_spec] proves the
    refinement, [scan_fallback] the fallback to 20, and [gun_sayilari]
    gives the final counts. Every float operation is the exact one
    rounded by [Float64.b64]. Because the rounded attendance is still
    monotone in the candidate, [scan_ceiling_never_binds] shows that the
    ceiling never changes the chosen candidate. *)

From Stdlib Require Import ZArith QArith Qround Qabs Lqa Lia List Bool.
From S2P Require Import Prelude Float64.
Import ListNotations Float64.

Module Optimizer.

(** ** Data *)

(** The feature row [[Gün, Ay, Hafta, Tatil]] of the models (lines 28, 63). *)
Record Features := mkFeatures { gun : Z; ay : Z; hafta : Z; tatil : Z }.

(** The four trained regressors of [egit_modeller] (lines 31-39), each
    seen through [model.predict(X)[0]]. *)
Record FunnelModels := mkModels {
  model_davet : Features -> Q;
  model_teyit : Features -> Q;
  model_teyit_yok : Features -> Q;
  model_katilim : Features -> Q }.

(** [hedef_katilim = 45 * 0.9] (line 52): the literal [0.9] is rounded
    to binary64, and so is the product, which is exactly 40.5
    ([hedef_katilim_eq]). [maksimum_katilim = 45] (line 53). *)
Definition hedef_katilim : Q := b64 (45 * b64 (9 # 10)).
Definition maksimum_katilim : Q := 45.

(** The candidates [range(20, 150)] (line 70). *)
Definition ADAY_MIN : Z := 20.
Definition ADAY_MAX : Z := 150.
Definition adaylar : list Z := py_range ADAY_MIN ADAY_MAX.

(** The loop state: [en_iyi_davet], [en_yakin_katilim] and [en_fark]
    (lines 66-68). [en_fark = None] is [float('inf')]. *)
Record ScanState := mkScan {
  en_iyi_davet : Z;
  en_yakin_katilim : Q;
  en_fark : option Q }.

Definition scan_init : ScanState := mkScan 20 0 None.

(** [fark < en_fark], where every number is below [inf]. *)
Definition fark_less (fark : Q) (en : option Q) : bool :=
  match en with
  | None => true
  | Some e => Qltb fark e
  end.

(** [katsayi = aday_davet / orijinal_davet if orijinal_davet else 1]
    (lines 71 and 82). *)
Definition katsayi (aday_davet : Z) (orijinal_davet : Q) : Q :=
  if Qeq_bool orijinal_davet 0 then 1 else b64 (inject_Z aday_davet / orijinal_davet).

(** One iteration of the candidate loop (lines 71-79); the product and
    the difference are binary64 operations. *)
Definition scan_step (M : FunnelModels) (X : Features) (orijinal_davet : Q)
    (st : ScanState) (aday_davet : Z) : ScanState :=
  let k := katsayi aday_davet orijinal_davet in
  let tahmini_katilim := b64 (model_katilim M X * k) in
  if Qle_bool tahmini_katilim maksimum_katilim then
    let fark := Qabs (b64 (tahmini_katilim - hedef_katilim)) in
    if fark_less fark (en_fark st) then mkScan aday_davet tahmini_katilim (Some fark)
    else st
  else st.

Definition scan_from (M : FunnelModels) (X : Features) (orijinal_davet : Q)
    (cands : list Z) (st : ScanState) : ScanState :=
  fold_left (scan_step M X orijinal_davet) cands st.

(** The whole scan, lines 64-79. *)
Definition scan (M : FunnelModels) (X : Features) : ScanState :=
  scan_from M X (model_davet M X) adaylar scan_init.

(** The counts of one day (lines 82-85 and the [Davet Edilen] field):
    invited, confirmed, declined, attending. *)
Record DayCounts := mkCounts {
  davet_edilen : Z; teyit_veren : Z; teyit_vermeyen : Z; sinava_katilacak : Z }.

Definition gun_sayilari (M : FunnelModels) (X : Features) : DayCounts :=
  let orijinal_davet := model_davet M X in
  let en_iyi := en_iyi_davet (scan M X) in
  let k := katsayi en_iyi orijinal_davet in
  mkCounts en_iyi
    (py_round (b64 (model_teyit M X * k)))
    (py_round (b64 (model_teyit_yok M X * k)))
    (py_round (b64 (model_katilim M X * k))).

(** ** The specification of the scan *)

Section Spec.
Variables (M : FunnelModels) (X : Features).

(** The scaled attendance of a candidate and its distance to the target. *)
Definition tahmini (k : Z) : Q := b64 (model_katilim M X * katsayi k (model_davet M X)).
Definition fark (k : Z) : Q := Qabs (b64 (tahmini k - hedef_katilim)).
Definition admissible (k : Z) : Prop := tahmini k <= maksimum_katilim.

(** The first candidate of minimal distance among the admissible
    candidates of a list [P]. *)
Definition is_best_in (P : list Z) (k : Z) : Prop :=
  In k P /\ admissible k /\
  (forall j, In j P -> admissible j -> fark k <= fark j) /\
  (forall j, In j P -> admissible j -> (j < k)%Z -> fark k < fark j).

Definition is_best (k : Z) : Prop := is_best_in adaylar k.

(** The first candidate of minimal distance among all candidates,
    ignoring the ceiling. *)
Definition is_closest (k : Z) : Prop :=
  In k adaylar /\ (forall j, In j adaylar -> fark k <= fark j) /\
  (forall j, In j adaylar -> (j < k)%Z -> fark k < fark j).

(** What the loop state says after a prefix [P] of the candidates:
    nothing admissible was seen and the state is the initial one, or
    [en_iyi_davet] is the best so far and [en_fark] is its distance. *)
Definition scan_inv (P : list Z) (st : ScanState) : Prop :=
  ((forall j, In j P -> ~ admissible j) /\ st = scan_init) \/
  (en_fark st = Some (fark (en_iyi_davet st)) /\ is_best_in P (en_iyi_davet st)).

Lemma scan_step_cases st x :
  (admissible x /\ fark_less (fark x) (en_fark st) = true /\
     scan_step M X (model_davet M X) st x = mkScan x (tahmini x) (Some (fark x))) \/
  (admissible x /\ fark_less (fark x) (en_fark st) = false /\
     scan_step M X (model_davet M X) st x = st) \/
  (~ admissible x /\ scan_step M X (model_davet M X) st x = st).
Proof.
  unfold scan_step, admissible, fark, tahmini.
  destruct (Qle_bool _ _) eqn:E.
  - apply Qle_bool_iff in E. destruct (fark_less _ _) eqn:F; [left | right; left]; auto.
  - apply Qle_bool_false in E. right; right. split; [|reflexivity].
    intros H. apply (Qlt_not_le _ _ E H).
Qed.

Lemma scan_inv_step P st x :
  (forall i, In i P -> (i < x)%Z) -> scan_inv P st ->
  scan_inv (P ++ [x]) (scan_step M X (model_davet M X) st x).
Proof.
  intros Hlt Hinv.
  destruct (scan_step_cases st x) as [(Ha & Hf & ->) | [(Ha & Hf & ->) | (Ha & ->)]];
    destruct Hinv as [(Hno & ->) | (Hfark & Hin & Hadm & Hle & Hstrict)];
    unfold scan_inv; cbn [en_iyi_davet en_fark en_yakin_katilim scan_init] in *.
  - right. split; [reflexivity|].
    repeat split; [apply in_or_app; right; left; reflexivity | exact Ha | |].
    + intros j Hj Haj. apply in_app_or in Hj as [Hj | [<- | []]];
        [destruct (Hno j Hj Haj) | apply Qle_refl].
    + intros j Hj Haj Hjk. apply in_app_or in Hj as [Hj | [<- | []]];
        [destruct (Hno j Hj Haj) | lia].
  - rewrite Hfark in Hf. apply Qltb_iff in Hf.
    right. split; [reflexivity|].
    repeat split; [apply in_or_app; right; left; reflexivity | exact Ha | |];
      intros j Hj Haj; apply in_app_or in Hj as [Hj | [<- | []]].
    + apply Qlt_le_weak. apply (Qlt_le_trans _ _ _ Hf (Hle j Hj Haj)).
    + apply Qle_refl.
    + intros _. apply (Qlt_le_trans _ _ _ Hf (Hle j Hj Haj)).
    + lia.
  - discriminate.
  - rewrite Hfark in Hf. apply Qltb_false in Hf.
    right. split; [exact Hfark|].
    repeat split; [apply in_or_app; left; exact Hin | exact Hadm | |];
      intros j Hj Haj; apply in_app_or in Hj as [Hj | [<- | []]]; auto.
    intros Hjk. specialize (Hlt _ Hin). lia.
  - left. split; [|reflexivity].
    intros j Hj; apply in_app_or in Hj as [Hj | [<- | []]]; auto.
  - right. split; [exact Hfark|].
    repeat split; [apply in_or_app; left; exact Hin | exact Hadm | |];
      intros j Hj Haj; apply in_app_or in Hj as [Hj | [<- | []]]; auto; contradiction.
Qed.

Lemma scan_inv_prefix n :
  scan_inv (py_range ADAY_MIN (ADAY_MIN + Z.of_nat n))
    (scan_from M X (model_davet M X) (py_range ADAY_MIN (ADAY_MIN + Z.of_nat n)) scan_init).
Proof.
  induction n as [|n IH].
  - left. split; [|reflexivity]. intros j Hj. apply in_py_range in Hj. lia.
  - rewrite py_range_snoc. unfold scan_from in *. rewrite fold_left_app. simpl.
    apply scan_inv_step; [|exact IH].
    intros i Hi. apply in_py_range in Hi. lia.
Qed.

Lemma scan_inv_full : scan_inv adaylar (scan M X).
Proof. exact (scan_inv_prefix 130). Qed.

Lemma admissible_dec k : {admissible k} + {~ admissible k}.
Proof. unfold admissible. destruct (Qlt_le_dec maksimum_katilim (tahmini k)) as [L|L]; [right|left]; auto.
  intros H. apply (Qlt_not_le _ _ L H). Qed.

(** Whether some candidate is admissible is decided by scanning the list. *)
Lemma classic_admissible :
  (exists j, In j adaylar /\ admissible j) \/ (forall j, In j adaylar -> ~ admissible j).
Proof.
  induction adaylar as [|a l IH].
  - right. intros j [].
  - destruct (admissible_dec a) as [Ha|Ha].
    + left. exists a. split; [left|]; auto.
    + destruct IH as [(j & Hj & Haj) | Hno].
      * left. exists j. split; [right|]; auto.
      * right. intros j [<- | Hj]; auto.
Qed.

Lemma is_best_unique k1 k2 : is_best k1 -> is_best k2 -> k1 = k2.
Proof.
  intros (H1 & A1 & L1 & S1) (H2 & A2 & L2 & S2).
  destruct (Z.lt_trichotomy k1 k2) as [Hlt | [Heq | Hgt]]; auto; exfalso.
  - pose proof (S2 k1 H1 A1 Hlt). pose proof (L1 k2 H2 A2).
    apply (Qlt_not_le _ _ H H0).
  - pose proof (S1 k2 H2 A2 Hgt). pose proof (L2 k1 H1 A1).
    apply (Qlt_not_le _ _ H H0).
Qed.
End Spec.

(** ** The behaviour of the scan *)

Lemma scan_some_admissible M X :
  (exists j, In j adaylar /\ admissible M X j) -> is_best M X (en_iyi_davet (scan M X)).
Proof.
  intros [j [Hj Ha]]. destruct (scan_inv_full M X) as [(Hno & _) | (_ & Hbest)]; [|exact Hbest].
  destruct (Hno j Hj Ha).
Qed.

(** [(C1)] Refinement: whenever some candidate respects the ceiling, the
    candidate loop (lines 66-79) returns [k] exactly when [k] is the
    smallest admissible candidate of [range(20, 150)] whose scaled
    attendance is nearest to the target 40.5. *)
Theorem scan_refines_spec M X k :
  (exists j, In j adaylar /\ admissible M X j) ->
  (en_iyi_davet (scan M X) = k <-> is_best M X k).
Proof.
  intros Hex. pose proof (scan_some_admissible M X Hex) as Hb.
  split; [intros <-; exact Hb | intros Hk; apply (is_best_unique M X); auto].
Qed.

Lemma scan_init_iff M X :
  scan M X = scan_init <-> (forall j, In j adaylar -> ~ admissible M X j).
Proof.
  split.
  - intros Hst j Hj Ha. destruct (scan_inv_full M X) as [(Hno & _) | (Hf & _)].
    + exact (Hno j Hj Ha).
    + rewrite Hst in Hf. discriminate.
  - intros Hno. destruct (scan_inv_full M X) as [(_ & Hst) | (_ & (Hin & Ha & _))]; [exact Hst|].
    destruct (Hno _ Hin Ha).
Qed.

Lemma in_adaylar k : In k adaylar <-> (20 <= k < 150)%Z.
Proof. apply in_py_range. Qed.

Lemma gun_sayilari_sinir M X :
  (exists j, In j adaylar /\ admissible M X j) ->
  (sinava_katilacak (gun_sayilari M X) <= 45)%Z /\
  (20 <= davet_edilen (gun_sayilari M X) < 150)%Z.
Proof.
  intros Hex. destruct (scan_some_admissible M X Hex) as (Hin & Ha & _).
  apply in_adaylar in Hin. split; [|exact Hin].
  apply py_round_le_int. exact Ha.
Qed.

Lemma gun_sayilari_yedek M X :
  (forall j, In j adaylar -> ~ admissible M X j) ->
  davet_edilen (gun_sayilari M X) = 20%Z /\ (45 <= sinava_katilacak (gun_sayilari M X))%Z.
Proof.
  intros Hno. unfold gun_sayilari. rewrite (proj2 (scan_init_iff M X) Hno). cbn [en_iyi_davet scan_init].
  split; [reflexivity|]. apply py_round_ge_int.
  assert (H20 : ~ admissible M X 20) by (apply Hno, in_adaylar; lia).
  unfold admissible, tahmini in H20. apply Qnot_le_lt in H20. apply Qlt_le_weak, H20.
Qed.

(** ** The ceiling never changes the choice

    With [B] the baseline and [P] the attendance prediction, the scaled
    attendance of candidate [k] is [P * (k / B)] rounded twice to
    binary64 ([olcekli]), or the constant [P] when [B = 0]. Rounding is
    monotone, so the attendance is monotone in [k] (or never positive),
    the admissible candidates form a prefix of the range, and the last
    admissible one scales to at least 36 (relative error [2^-53]), so
    its distance to 40.5 is at most 4.5. A rejected candidate's
    attendance is a binary64 number above 45, hence at least
    [45 + 2^-47], and its distance exceeds 4.5. *)

Definition olcekli (P B : Q) (k : Z) : Q := b64 (P * b64 (inject_Z k / B)).

Lemma hedef_katilim_eq : hedef_katilim == 81 # 2.
Proof. vm_compute. reflexivity. Qed.

Lemma olcekli_opp P B k : ~ B == 0 -> olcekli (- P) (- B) k == olcekli P B k.
Proof.
  intros NB. unfold olcekli.
  assert (E : inject_Z k / - B == - (inject_Z k / B)) by (field; exact NB).
  rewrite E, b64_opp. setoid_replace (- P * - b64 (inject_Z k / B)) with (P * b64 (inject_Z k / B))
    by ring. reflexivity.
Qed.

Lemma div_nonneg (k : Z) B : 0 < B -> (0 <= k)%Z -> 0 <= inject_Z k / B.
Proof.
  intros HB Hk. apply Qle_shift_div_l; [exact HB|]. rewrite Qmult_0_l.
  change 0 with (inject_Z 0). rewrite <- Zle_Qle. exact Hk.
Qed.

Lemma Qmult_le_l_nonneg z x y : 0 <= z -> x <= y -> z * x <= z * y.
Proof. intros Hz Hxy. rewrite !(Qmult_comm z). apply Qmult_le_compat_r; assumption. Qed.

Lemma olcekli_mono P B j k : 0 < B -> 0 <= P -> (0 <= j <= k)%Z -> olcekli P B j <= olcekli P B k.
Proof.
  intros HB HP Hjk. unfold olcekli. apply b64_mono.
  apply Qmult_le_l_nonneg; [exact HP|]. apply b64_mono.
  apply Qmult_le_compat_r; [rewrite <- Zle_Qle; lia|].
  apply Qlt_le_weak, Qinv_lt_0_compat, HB.
Qed.

Lemma olcekli_nonpos P B k : 0 < B -> P <= 0 -> (0 <= k)%Z -> olcekli P B k <= 0.
Proof.
  intros HB HP Hk. unfold olcekli. apply b64_nonpos.
  pose proof (b64_nonneg _ (div_nonneg k B HB Hk)). nra.
Qed.

(** A rounded quotient [k / B] of a candidate by a finite baseline is
    a normal number, off by a relative [2^-53] at most. *)
Lemma bolum_hata (k : Z) B :
  0 < B -> B < 2 ^ 1024 -> (20 <= k)%Z ->
  inject_Z k / B * (1 - (1 # 9007199254740992)) <= b64 (inject_Z k / B) <=
  inject_Z k / B * (1 + (1 # 9007199254740992)).
Proof.
  intros HB Hmax Hk. pose proof (div_nonneg k B HB ltac:(lia)) as Hy.
  assert (N : 2 ^ (EMIN + 52) <= Qabs (inject_Z k / B)).
  { rewrite Qabs_pos by exact Hy. apply Qle_shift_div_l; [exact HB|].
    apply Qle_trans with (2 ^ (EMIN + 52) * 2 ^ 1024);
      [apply Qmult_le_l; [apply pow2_pos | apply Qlt_le_weak, Hmax]|].
    rewrite <- pow2_add. change (2 ^ (EMIN + 52 + 1024)) with 4.
    assert (inject_Z 20 <= inject_Z k) by (rewrite <- Zle_Qle; exact Hk).
    change (inject_Z 20) with 20 in *. lra. }
  pose proof (b64_rel_normal _ N) as E. rewrite (Qabs_pos (inject_Z k / B)) in E by exact Hy.
  apply Qabs_Qle_condition in E. lra.
Qed.

(** A rounded non-negative product is off by a relative [2^-53] and an
    absolute [10^-6] at most. *)
Lemma carpim_hata x : 0 <= x ->
  x * (1 - (1 # 9007199254740992)) - (1 # 1000000) <= b64 x <=
  x * (1 + (1 # 9007199254740992)) + (1 # 1000000).
Proof.
  intros Hx. pose proof (b64_rel_error x) as E. rewrite (Qabs_pos x) in E by exact Hx.
  assert (Eta : 2 ^ (EMIN - 1) <= 1 # 1000000) by (apply Qle_bool_iff; vm_compute; reflexivity).
  apply Qabs_Qle_condition in E. lra.
Qed.

(** The last admissible candidate scales to at least 36, when 20 is
    admissible and the candidate after it is not. *)
Lemma olcekli_gap P B a :
  0 < B -> 0 <= P -> B < 2 ^ 1024 -> (20 <= a)%Z ->
  olcekli P B 20 <= 45 -> 45 < olcekli P B (a + 1) -> 36 <= olcekli P B a.
Proof.
  intros HB HP Hmax Ha H20 Ha1. unfold olcekli in *.
  pose proof (bolum_hata 20 B HB Hmax ltac:(lia)) as [Q20 _].
  pose proof (bolum_hata a B HB Hmax Ha) as [Qa _].
  pose proof (bolum_hata (a + 1) B HB Hmax ltac:(lia)) as [_ Qa1].
  pose proof (b64_nonneg _ (div_nonneg 20 B HB ltac:(lia))) as N20.
  pose proof (b64_nonneg _ (div_nonneg a B HB ltac:(lia))) as Na.
  pose proof (b64_nonneg _ (div_nonneg (a + 1) B HB ltac:(lia))) as Na1.
  pose proof (carpim_hata _ (Qmult_le_0_compat _ _ HP N20)) as [T20 _].
  pose proof (carpim_hata _ (Qmult_le_0_compat _ _ HP Na)) as [Ta _].
  pose proof (carpim_hata _ (Qmult_le_0_compat _ _ HP Na1)) as [_ Ta1].
  set (u := P / B).
  assert (Y : forall k : Z, P * (inject_Z k / B) == inject_Z k * u) by (intros k; unfold u; field; lra).
  assert (Y1 : inject_Z (a + 1) * u == inject_Z a * u + u) by (rewrite inject_Z_plus; ring).
  assert (Hu : 0 <= u) by (unfold u; apply Qle_shift_div_l; [exact HB | rewrite Qmult_0_l; exact HP]).
  assert (P20 : P * (inject_Z 20 / B * (1 - (1 # 9007199254740992))) <= P * b64 (inject_Z 20 / B))
    by (apply Qmult_le_l_nonneg; assumption).
  assert (Pa : P * (inject_Z a / B * (1 - (1 # 9007199254740992))) <= P * b64 (inject_Z a / B))
    by (apply Qmult_le_l_nonneg; assumption).
  assert (Pa1 : P * b64 (inject_Z (a + 1) / B) <= P * (inject_Z (a + 1) / B * (1 + (1 # 9007199254740992))))
    by (apply Qmult_le_l_nonneg; assumption).
  rewrite Qmult_assoc, Y in P20, Pa, Pa1. rewrite Y1 in Pa1.
  assert (E20 : inject_Z 20 * u == 20 * u) by (change (inject_Z 20) with 20; reflexivity).
  rewrite E20 in P20.
  set (W := inject_Z a * u) in *.
  assert (HW : 0 <= W) by (unfold W; apply Qmult_le_0_compat; [rewrite <- (Zle_Qle 0); lia | exact Hu]).
  lra.
Qed.

(** An attendance between 36 and 45 is at most 4.5 from the target,
    after the binary64 subtraction. *)
Lemma uzaklik_ic t : 36 <= t <= 45 -> Qabs (b64 (t - (81 # 2))) <= 9 # 2.
Proof.
  intros Ht. apply Qabs_Qle_condition. split.
  - assert (Hm : b64 (- (9 # 2)) == - (9 # 2)) by (vm_compute; reflexivity).
    rewrite <- Hm. apply b64_mono. lra.
  - assert (Hm : b64 (9 # 2) == 9 # 2) by (vm_compute; reflexivity).
    rewrite <- Hm. apply b64_mono. lra.
Qed.

(** A binary64 attendance above 45 is more than 4.5 from the target:
    it is at least [45 + 2^-47]. *)
Lemma uzaklik_dis y : 45 < b64 y -> 9 # 2 < Qabs (b64 (b64 y - (81 # 2))).
Proof.
  intros Hy. pose proof (b64_above_45 _ Hy) as A45.
  assert (Hm : b64 ((9 # 2) + (1 # 140737488355328)) == (9 # 2) + (1 # 140737488355328))
    by (vm_compute; reflexivity).
  assert (L : (9 # 2) + (1 # 140737488355328) <= b64 (b64 y - (81 # 2)))
    by (rewrite <- Hm; apply b64_mono; lra).
  apply Qlt_le_trans with (2 := Qle_trans _ _ _ L (Qle_Qabs _)). lra.
Qed.

Section Ceiling.
Variables (M : FunnelModels) (X : Features).

Lemma tahmini_sabit j k : model_davet M X == 0 -> tahmini M X j = tahmini M X k.
Proof.
  intros H0. unfold tahmini, katsayi. apply Qeq_bool_iff in H0. rewrite H0. reflexivity.
Qed.

Lemma tahmini_olcekli k :
  ~ model_davet M X == 0 -> tahmini M X k = olcekli (model_katilim M X) (model_davet M X) k.
Proof.
  intros H0. unfold tahmini, katsayi, olcekli. destruct (Qeq_bool _ 0) eqn:E; [|reflexivity].
  apply Qeq_bool_iff in E. contradiction.
Qed.

(** With a non-zero baseline the scaled attendance is either never
    positive, or the monotone [olcekli] of a positive baseline of the
    same magnitude. *)
Lemma tahmini_egilim :
  ~ model_davet M X == 0 ->
  (forall k, (0 <= k)%Z -> tahmini M X k <= 0) \/
  (exists P B, 0 < B /\ 0 <= P /\ Qabs B == Qabs (model_davet M X) /\
     forall k, tahmini M X k == olcekli P B k).
Proof.
  intros NB. setoid_rewrite tahmini_olcekli; [|exact NB..].
  set (P := model_katilim M X). set (B := model_davet M X) in *.
  destruct (Qlt_le_dec 0 B) as [PB|NPB].
  - destruct (Qlt_le_dec P 0) as [NP|PP].
    + left. intros k Hk. apply olcekli_nonpos; auto. apply Qlt_le_weak, NP.
    + right. exists P, B. split; [exact PB|]. split; [exact PP|]. split; [reflexivity|].
      intros k; reflexivity.
  - assert (NB' : B < 0) by (apply Qle_lteq in NPB as [L|L]; [exact L | contradiction]).
    destruct (Qlt_le_dec 0 P) as [PP|NP].
    + left. intros k Hk. rewrite <- olcekli_opp by exact NB. apply olcekli_nonpos; auto; lra.
    + right. exists (- P), (- B). split; [lra|]. split; [lra|]. split; [apply Qabs_opp|].
      intros k. rewrite olcekli_opp by exact NB. reflexivity.
Qed.

Lemma fark_ikiz k : fark M X k = Qabs (b64 (tahmini M X k - hedef_katilim)).
Proof. reflexivity. Qed.

(** A rejected candidate is strictly farther from 40.5 than the best
    admissible one. *)
Lemma rejected_farther k j :
  Qabs (model_davet M X) < 2 ^ 1024 ->
  is_best M X k -> In j adaylar -> ~ admissible M X j -> fark M X k < fark M X j.
Proof.
  intros Hfin (Hk & Ak & Lk & _) Hj Nj.
  assert (Hk' := Hk). assert (Hj' := Hj). apply in_adaylar in Hk', Hj'.
  unfold admissible, maksimum_katilim in Ak, Nj. apply Qnot_le_lt in Nj.
  destruct (Qeq_dec (model_davet M X) 0) as [E|NB].
  { rewrite (tahmini_sabit j k E) in Nj. exfalso. lra. }
  destruct (tahmini_egilim NB) as [Neg | (P & B & HB & HP & HBa & HT)].
  { pose proof (Neg j ltac:(lia)). lra. }
  assert (Hmax : B < 2 ^ 1024) by (rewrite <- (Qabs_pos B), HBa by lra; exact Hfin).
  rewrite HT in Ak, Nj.
  assert (Hkj : (k < j)%Z).
  { destruct (Z.lt_ge_cases k j) as [L|L]; [exact L|].
    pose proof (olcekli_mono P B j k HB HP ltac:(lia)). lra. }
  destruct (discrete_ivt _ (admissible_dec M X) k j Hkj) as (a & Ha & Aa & Na);
    [unfold admissible; rewrite HT; exact Ak | unfold admissible; rewrite HT; apply Qlt_not_le, Nj |].
  assert (Ina : In a adaylar) by (apply in_adaylar; lia).
  pose proof (Lk a Ina Aa) as Hka.
  unfold admissible, maksimum_katilim in Aa, Na. rewrite HT in Aa, Na. apply Qnot_le_lt in Na.
  pose proof (olcekli_mono P B 20 k HB HP ltac:(lia)) as M20.
  pose proof (olcekli_gap P B a HB HP Hmax ltac:(lia) ltac:(lra) Na) as G.
  assert (Fa : fark M X a <= 9 # 2) by (rewrite fark_ikiz, HT, hedef_katilim_eq; apply uzaklik_ic; lra).
  assert (Fj : 9 # 2 < fark M X j)
    by (rewrite fark_ikiz, HT, hedef_katilim_eq; unfold olcekli in *; apply uzaklik_dis, Nj).
  lra.
Qed.

Lemma best_is_closest k :
  Qabs (model_davet M X) < 2 ^ 1024 -> is_best M X k -> is_closest M X k.
Proof.
  intros Hfin Hb. pose proof Hb as (Hk & _ & Lk & Sk).
  split; [exact Hk|]. split; intros j Hj; destruct (admissible_dec M X j) as [Aj|Nj]; auto.
  - apply Qlt_le_weak, rejected_farther; auto.
  - intros _. apply rejected_farther; auto.
Qed.

(** When every candidate is rejected, the attendance grows with the
    candidate (or is constant), so 20 is the nearest to 40.5. *)
Lemma none_closest_20 :
  (forall j, In j adaylar -> ~ admissible M X j) -> is_closest M X 20.
Proof.
  intros Hno. assert (H20 : In 20%Z adaylar) by (apply in_adaylar; lia).
  split; [exact H20|]. split; [|intros j Hj Hlt; apply in_adaylar in Hj; lia].
  intros j Hj. destruct (Qeq_dec (model_davet M X) 0) as [E|NB].
  { rewrite !fark_ikiz, (tahmini_sabit 20 j E). apply Qle_refl. }
  pose proof (Hno _ H20) as N20. pose proof (Hno _ Hj) as Nj. apply in_adaylar in Hj.
  unfold admissible, maksimum_katilim in N20, Nj. apply Qnot_le_lt in N20, Nj.
  destruct (tahmini_egilim NB) as [Neg | (P & B & HB & HP & _ & HT)].
  { pose proof (Neg 20%Z ltac:(lia)). lra. }
  rewrite !fark_ikiz, hedef_katilim_eq, (HT 20%Z), (HT j). rewrite HT in N20, Nj.
  pose proof (olcekli_mono P B 20 j HB HP ltac:(lia)) as Mj.
  assert (Z : forall x, 45 < x -> 0 <= b64 (x - (81 # 2))) by (intros; apply b64_nonneg; lra).
  rewrite (Qabs_pos _ (Z _ N20)), (Qabs_pos _ (Z _ Nj)). apply b64_mono. lra.
Qed.
End Ceiling.

Lemma scan_in_adaylar M X : In (en_iyi_davet (scan M X)) adaylar.
Proof.
  destruct (scan_inv_full M X) as [(_ & ->) | (_ & Hin & _)]; [apply in_adaylar; cbn; lia | exact Hin].
Qed.

Lemma katsayi_nonneg k B : (0 <= k)%Z -> 0 <= B -> 0 <= katsayi k B.
Proof.
  intros Hk HB. unfold katsayi. destruct (Qeq_bool B 0) eqn:E; [discriminate|].
  apply Qeq_bool_neq in E. assert (0 < B) by (apply Qle_lteq in HB as [|H]; [auto | symmetry in H; contradiction]).
  apply b64_nonneg, div_nonneg; assumption.
Qed.

(** A non-negative prediction, rescaled by the chosen ratio and
    rounded, is a non-negative count. *)
Lemma olcekli_sayim_nonneg M X y : 0 <= model_davet M X -> 0 <= y ->
  (0 <= py_round (b64 (y * katsayi (en_iyi_davet (scan M X)) (model_davet M X))))%Z.
Proof.
  intros HB Hy. pose proof (scan_in_adaylar M X) as Hin. apply in_adaylar in Hin.
  apply py_round_ge_int, b64_nonneg, Qmult_le_0_compat; [exact Hy|].
  apply katsayi_nonneg; [lia | exact HB].
Qed.

(** [(C23)] The ceiling test of line 75 never changes the choice: the
    invitation count the loop selects is always the first candidate of
    [range(20, 150)] whose scaled attendance is nearest to 40.5 among
    all candidates, admissible or not. The fallback 20 is itself that
    candidate. *)
Theorem scan_ceiling_never_binds M X :
  Qabs (model_davet M X) < 2 ^ 1024 -> is_closest M X (en_iyi_davet (scan M X)).
Proof.
  intros Hfin. destruct (scan_inv_full M X) as [(Hno & ->) | (_ & Hbest)].
  - exact (none_closest_20 M X Hno).
  - exact (best_is_closest M X _ Hfin Hbest).
Qed.

(** [(C7)] A zero baseline: when the invitation model predicts 0, the
    ratio is 1 for every candidate, the loop keeps 20, and the counts are
    the predictions, rounded to binary64 and then to integers, unscaled. *)
Theorem gun_sayilari_zero_baseline M X :
  model_davet M X == 0 ->
  gun_sayilari M X =
  mkCounts 20 (py_round (b64 (model_teyit M X))) (py_round (b64 (model_teyit_yok M X)))
    (py_round (b64 (model_katilim M X))).
Proof.
  intros H0.
  assert (Hk : forall k, katsayi k (model_davet M X) = 1).
  { intros k. unfold katsayi. apply Qeq_bool_iff in H0. rewrite H0. reflexivity. }
  assert (Hbest : en_iyi_davet (scan M X) = 20%Z).
  { destruct (classic_admissible M X) as [Hex | Hno].
    - destruct (scan_some_admissible M X Hex) as (Hin & Ha & _ & Hstrict).
      apply in_adaylar in Hin. destruct (Z.eq_dec (en_iyi_davet (scan M X)) 20) as [E|NE]; [exact E|].
      exfalso. assert (Ht : tahmini M X 20 = tahmini M X (en_iyi_davet (scan M X))).
      { unfold tahmini. rewrite !Hk. reflexivity. }
      assert (Ha20 : admissible M X 20) by (unfold admissible; rewrite Ht; exact Ha).
      specialize (Hstrict 20%Z ltac:(apply in_adaylar; lia) Ha20 ltac:(lia)).
      unfold fark in Hstrict. rewrite Ht in Hstrict. apply (Qlt_irrefl _ Hstrict).
    - rewrite (proj2 (scan_init_iff M X) Hno). reflexivity. }
  unfold gun_sayilari. rewrite Hbest, Hk, !Qmult_1_r. reflexivity.
Qed.

(** The constant models of the scenario of the specification: 100
    invited, 90 confirmed, 10 declined and 85 attending. *)
Definition sabit_modeller : FunnelModels :=
  mkModels (fun _ => 100) (fun _ => 90) (fun _ => 10) (fun _ => 85).

(** Scenario: with these models the day gets 48 invitations
    (scaled attendance 40.8, the nearest to 40.5 below 45), 43
    confirmations, 5 refusals and 41 attendees, on every feature row. *)
Theorem sabit_modeller_senaryo X :
  gun_sayilari sabit_modeller X = mkCounts 48 43 5 41.
Proof. vm_compute. reflexivity. Qed.

(** Fallback: the loop leaves its initial state (invitation 20,
    [en_fark = inf]) exactly when no candidate respects the ceiling. *)
Theorem scan_fallback M X :
  scan M X = scan_init <-> (forall j, In j adaylar -> ~ admissible M X j).
Proof. apply scan_init_iff. Qed.

(** Capacity: when some candidate respects the ceiling, the
    rounded attendance of the day is at most 45 and the invitation
    count is one of the candidates 20..149. *)
Theorem gun_sayilari_capacity M X :
  (exists j, In j adaylar /\ admissible M X j) ->
  (sinava_katilacak (gun_sayilari M X) <= 45)%Z /\
  (20 <= davet_edilen (gun_sayilari M X) < 150)%Z.
Proof. apply gun_sayilari_sinir. Qed.

(** [(C5)] The fallback day: when no candidate respects the ceiling, the
    day is forecast with 20 invitations and at least 45 attendees: the
    invitation count is a rejected candidate and the capacity is not
    respected. *)
Theorem gun_sayilari_fallback M X :
  (forall j, In j adaylar -> ~ admissible M X j) ->
  davet_edilen (gun_sayilari M X) = 20%Z /\ (45 <= sinava_katilacak (gun_sayilari M X))%Z.
Proof. apply gun_sayilari_yedek. Qed.

(** Bounds of a day's counts: when the four models predict
    non-negative numbers, as the spec requires of [predict], the
    invitation count is a candidate 20..149 and the three rounded counts
    are non-negative. *)
Theorem gun_sayilari_nonneg M X :
  0 <= model_davet M X -> 0 <= model_teyit M X -> 0 <= model_teyit_yok M X ->
  0 <= model_katilim M X ->
  (20 <= davet_edilen (gun_sayilari M X) < 150)%Z /\ (0 <= teyit_veren (gun_sayilari M X))%Z /\
  (0 <= teyit_vermeyen (gun_sayilari M X))%Z /\ (0 <= sinava_katilacak (gun_sayilari M X))%Z.
Proof.
  intros HB HT HY HK. pose proof (scan_in_adaylar M X) as Hin. apply in_adaylar in Hin.
  unfold gun_sayilari. cbn [davet_edilen teyit_veren teyit_vermeyen sinava_katilacak].
  repeat split; try lia; apply olcekli_sayim_nonneg; assumption.
Qed.

(** ** Witnesses on concrete models *)

Definition ornek_satir : Features := mkFeatures 0 1 1 0.

(** An adversarial model: baseline 1 invitation and 10 attendees, so
    every candidate scales to 200 attendees or more. *)
Definition asiri_modeller : FunnelModels :=
  mkModels (fun _ => 1) (fun _ => 1) (fun _ => 1) (fun _ => 10).

(** A model whose invitation baseline is 0. *)
Definition sifir_modeller : FunnelModels :=
  mkModels (fun _ => 0) (fun _ => 30) (fun _ => 3) (fun _ => 27).

Lemma sabit_admissible : exists j, In j adaylar /\ admissible sabit_modeller ornek_satir j.
Proof.
  exists 48%Z. split; [apply in_adaylar; lia|]. apply Qle_bool_iff. vm_compute. reflexivity.
Defined.

Lemma asiri_none : forall j, In j adaylar -> ~ admissible asiri_modeller ornek_satir j.
Proof.
  intros j Hj Ha. apply in_adaylar in Hj.
  unfold admissible, maksimum_katilim in Ha.
  rewrite tahmini_olcekli in Ha by (cbn; discriminate).
  pose proof (olcekli_mono 10 1 20 j ltac:(reflexivity) ltac:(discriminate) ltac:(lia)) as Mj.
  assert (E : olcekli 10 1 20 == 200) by (vm_compute; reflexivity).
  cbn [model_katilim model_davet asiri_modeller] in Ha. lra.
Defined.

Lemma scan_refines_spec_witness :
  (exists j, In j adaylar /\ admissible sabit_modeller ornek_satir j) /\
  (en_iyi_davet (scan sabit_modeller ornek_satir) = 48%Z <-> is_best sabit_modeller ornek_satir 48).
Proof. split; [exact sabit_admissible | apply (scan_refines_spec _ _ _ sabit_admissible)]. Defined.

Lemma gun_sayilari_capacity_witness :
  (exists j, In j adaylar /\ admissible sabit_modeller ornek_satir j) /\
  (sinava_katilacak (gun_sayilari sabit_modeller ornek_satir) <= 45)%Z /\
  (20 <= davet_edilen (gun_sayilari sabit_modeller ornek_satir) < 150)%Z.
Proof. split; [exact sabit_admissible | apply (gun_sayilari_capacity _ _ sabit_admissible)]. Defined.

Lemma gun_sayilari_fallback_witness :
  (forall j, In j adaylar -> ~ admissible asiri_modeller ornek_satir j) /\
  davet_edilen (gun_sayilari asiri_modeller ornek_satir) = 20%Z /\
  (45 <= sinava_katilacak (gun_sayilari asiri_modeller ornek_satir))%Z.
Proof. split; [exact asiri_none | apply (gun_sayilari_fallback _ _ asiri_none)]. Defined.

Lemma gun_sayilari_zero_baseline_witness :
  model_davet sifir_modeller ornek_satir == 0 /\
  gun_sayilari sifir_modeller ornek_satir = mkCounts 20 30 3 27.
Proof.
  split; [reflexivity|].
  rewrite (gun_sayilari_zero_baseline sifir_modeller ornek_satir (Qeq_refl 0)).
  vm_compute. reflexivity.
Defined.

Lemma scan_ceiling_never_binds_witness :
  (Qabs (model_davet sabit_modeller ornek_satir) < 2 ^ 1024) /\
  is_closest sabit_modeller ornek_satir (en_iyi_davet (scan sabit_modeller ornek_satir)).
Proof.
  assert (H : Qabs (model_davet sabit_modeller ornek_satir) < 2 ^ 1024) by (vm_compute; reflexivity).
  split; [exact H | exact (scan_ceiling_never_binds _ _ H)].
Defined.

Lemma gun_sayilari_nonneg_witness :
  (0 <= model_davet sabit_modeller ornek_satir /\ 0 <= model_teyit sabit_modeller ornek_satir /\
   0 <= model_teyit_yok sabit_modeller ornek_satir /\ 0 <= model_katilim sabit_modeller ornek_satir) /\
  (20 <= davet_edilen (gun_sayilari sabit_modeller ornek_satir) < 150)%Z /\
  (0 <= teyit_veren (gun_sayilari sabit_modeller ornek_satir))%Z /\
  (0 <= teyit_vermeyen (gun_sayilari sabit_modeller ornek_satir))%Z /\
  (0 <= sinava_katilacak (gun_sayilari sabit_modeller ornek_satir))%Z.
Proof.
  assert (H : 0 <= model_davet sabit_modeller ornek_satir /\ 0 <= model_teyit sabit_modeller ornek_satir /\
    0 <= model_teyit_yok sabit_modeller ornek_satir /\ 0 <= model_katilim sabit_modeller ornek_satir)
    by (repeat split; apply Qle_bool_iff; vm_compute; reflexivity).
  destruct H as (H1 & H2 & H3 & H4). split; [repeat split; assumption|].
  exact (gun_sayilari_nonneg sabit_modeller ornek_satir H1 H2 H3 H4).
Defined.

End Optimizer.
