(* ===== verification/Forecast.v ===== *)
(** * Forecast: the day loop of [tahmin_et]

    [tahmin_et] ([src/app.py] lines 47-98) parses the two form dates
    with [strptime(..., "%Y-%m-%d")], then walks the days from the
    start to the end with [while mevcut_tarih <= bitis] and
    [mevcut_tarih += timedelta(days=1)]. It skips every day for which
    [resmi_tatil_mi] holds and appends one record per remaining day.
    The record's counts come from [Optimizer.gun_sayilari] on the
    feature row [[weekday, month, ISO week, 0]].

    The loop is [tahmin_dongusu], a [Fixpoint] on fuel; [tahmin_et]
    gives it [dongu_yakiti], one more than the number of days in the
    range, and [tahmin_et_terminates] shows it never runs out. The
    reference list of days is [aralik]. *)

From Stdlib Require Import ZArith QArith List Lia Bool String Sorted.
From S2P Require Import Prelude Calendar Strptime Optimizer.
Import ListNotations PyDate Strptime Optimizer.

Module Forecast.

(** ** Data *)

(** The dictionary appended at lines 87-94. *)
Record DailyForecast := mkForecast {
  f_tarih : string;
  f_gun : string;
  f_davet_edilen : Z;
  f_teyit_veren : Z;
  f_teyit_vermeyen : Z;
  f_sinava_katilacak : Z }.

(** Lines 58-63: the feature row of a business day, holiday flag 0. *)
Definition gun_ozellikleri (d : date) : Features :=
  mkFeatures (weekday d) (month d) (iso_week d) 0.

(** Lines 58-94: the record of one business day. *)
Definition gun_tahmini (M : FunnelModels) (d : date) : DailyForecast :=
  let c := gun_sayilari M (gun_ozellikleri d) in
  mkForecast (strftime_ymd d) (strftime_A d) (davet_edilen c) (teyit_veren c)
    (teyit_vermeyen c) (sinava_katilacak c).

Section Loop.
Context `{HolidayProvider}.

(** The [while] loop, lines 55-96. *)
Fixpoint tahmin_dongusu (fuel : nat) (M : FunnelModels) (mevcut_tarih bitis : date)
    (tahmin_sonuclari : list DailyForecast) : result (list DailyForecast) :=
  match fuel with
  | O => Err FuelExhausted
  | S fuel' =>
      if date_leb mevcut_tarih bitis then
        let sonuclar :=
          if resmi_tatil_mi mevcut_tarih then tahmin_sonuclari
          else tahmin_sonuclari ++ [gun_tahmini M mevcut_tarih] in
        match next_day mevcut_tarih with
        | Ok sonraki => tahmin_dongusu fuel' M sonraki bitis sonuclar
        | Err e => Err e
        end
      else Ok tahmin_sonuclari
  end.

Definition dongu_yakiti (baslangic bitis : date) : nat :=
  S (Z.to_nat (toordinal bitis - toordinal baslangic + 1)).

(** [tahmin_et] (lines 47-98). [tolerans_aktif] is accepted and unused. *)
Definition tahmin_et (M : FunnelModels) (baslangic bitis : string) (tolerans_aktif : bool)
    : result (list DailyForecast) :=
  b <- strptime fmt_ymd baslangic ;;
  e <- strptime fmt_ymd bitis ;;
  tahmin_dongusu (dongu_yakiti b e) M b e [].

(** ** The reference list of days *)

Fixpoint gunler (n : nat) (d : date) : list date :=
  match n with
  | O => []
  | S n' => d :: gunler n' (succ_ymd d)
  end.

(** The days from [b] to [e], both included. *)
Definition aralik (b e : date) : list date :=
  gunler (Z.to_nat (toordinal e - toordinal b + 1)) b.

Definition is_gun (d : date) : bool := negb (resmi_tatil_mi d).

(** The shape of a forecast record for the range [b..e]: its [Tarih]
    parses back with ["%Y-%m-%d"] to a day of the range, and its [Gün]
    is that day's name. *)
Definition kayit_gecerli (b e : date) (r : DailyForecast) : bool :=
  match strptime fmt_ymd (f_tarih r) with
  | Ok d => date_leb b d && date_leb d e && String.eqb (f_gun r) (strftime_A d)
  | Err _ => false
  end.

End Loop.

Section Proofs.
Context `{HolidayProvider}.

(** ** The loop, one case at a time *)

Lemma tahmin_dongusu_past fuel M cur e acc :
  valid cur = true -> valid e = true -> (toordinal e < toordinal cur)%Z ->
  tahmin_dongusu (S fuel) M cur e acc = Ok acc.
Proof.
  intros Vc Ve Hlt. cbn [tahmin_dongusu]. rewrite date_leb_toordinal by auto.
  destruct (Z.leb_spec (toordinal cur) (toordinal e)); [lia | reflexivity].
Qed.

(** Whatever the loop returns is the accumulator followed by the
    records of some business days. *)
Lemma tahmin_dongusu_shape fuel M cur e acc out :
  tahmin_dongusu fuel M cur e acc = Ok out ->
  exists ds, out = acc ++ map (gun_tahmini M) ds /\ Forall (fun d => resmi_tatil_mi d = false) ds.
Proof.
  revert cur acc. induction fuel as [|fuel IH]; intros cur acc Hrun; [discriminate|].
  cbn [tahmin_dongusu] in Hrun. destruct (date_leb cur e).
  - destruct (next_day cur) as [nxt|ex]; [|discriminate].
    destruct (IH _ _ Hrun) as (ds & -> & Hds).
    destruct (resmi_tatil_mi cur) eqn:Hc.
    + exists ds. auto.
    + exists (cur :: ds). split; [|constructor; auto]. rewrite <- app_assoc. reflexivity.
  - injection Hrun as <-. exists []. rewrite app_nil_r. auto.
Qed.

(** With an end date before 9999-12-31 and enough fuel, the loop
    returns the records of the business days among the remaining days. *)
Lemma tahmin_dongusu_Ok fuel M cur e acc :
  valid cur = true -> valid e = true -> (toordinal e < MAXORDINAL)%Z ->
  (Z.max 0 (toordinal e - toordinal cur + 1) < Z.of_nat fuel)%Z ->
  tahmin_dongusu fuel M cur e acc =
  Ok (acc ++ map (gun_tahmini M)
               (filter is_gun (gunler (Z.to_nat (toordinal e - toordinal cur + 1)) cur))).
Proof.
  revert cur acc. induction fuel as [|fuel IH]; intros cur acc Vc Ve Hmax Hf; [lia|].
  destruct (Z.leb_spec (toordinal cur) (toordinal e)) as [Hle|Hgt].
  - cbn [tahmin_dongusu]. rewrite date_leb_toordinal, (proj2 (Z.leb_le _ _) Hle) by auto.
    rewrite next_day_Ok by (auto; lia).
    destruct (succ_ymd_spec cur Vc ltac:(lia)) as [Vs Os].
    rewrite IH by (auto; lia).
    replace (Z.to_nat (toordinal e - toordinal cur + 1))
      with (S (Z.to_nat (toordinal e - toordinal (succ_ymd cur) + 1))) by lia.
    cbn [gunler filter]. destruct (is_gun cur) eqn:G; unfold is_gun in G;
      destruct (resmi_tatil_mi cur); try discriminate;
      cbn [map]; rewrite <- ?app_assoc; reflexivity.
  - rewrite tahmin_dongusu_past by auto.
    replace (Z.to_nat (toordinal e - toordinal cur + 1)) with 0%nat by lia.
    rewrite app_nil_r. reflexivity.
Qed.

(** Ending on 9999-12-31, the last step overflows. *)
Lemma tahmin_dongusu_overflow fuel M cur e acc :
  valid cur = true -> valid e = true -> toordinal e = MAXORDINAL ->
  (toordinal cur <= toordinal e)%Z ->
  (toordinal e - toordinal cur + 1 < Z.of_nat fuel)%Z ->
  tahmin_dongusu fuel M cur e acc = Err (OverflowError "date value out of range").
Proof.
  revert cur acc. induction fuel as [|fuel IH]; intros cur acc Vc Ve Hmax Hle Hf; [lia|].
  cbn [tahmin_dongusu]. rewrite date_leb_toordinal, (proj2 (Z.leb_le _ _) Hle) by auto.
  destruct (Z.eq_dec (toordinal cur) MAXORDINAL) as [Em|Ne].
  - rewrite next_day_max by exact Em. reflexivity.
  - rewrite next_day_Ok by (auto; lia).
    destruct (succ_ymd_spec cur Vc ltac:(lia)) as [Vs Os].
    apply IH; auto; lia.
Qed.

(** The reference list of days: valid, consecutive, increasing. *)
Lemma gunler_spec n d :
  valid d = true -> (toordinal d + Z.of_nat n <= MAXORDINAL + 1)%Z ->
  (forall x, In x (gunler n d) <->
     valid x = true /\ (toordinal d <= toordinal x < toordinal d + Z.of_nat n)%Z) /\
  StronglySorted (fun x y => date_compare x y = Lt) (gunler n d).
Proof.
  revert d. induction n as [|n IH]; intros d Vd Hn.
  - split; [|constructor]. intros x. simpl. split; [intros []|lia].
  - destruct n as [|n].
    + cbn [gunler]. split; [|repeat constructor].
      intros x. split.
      * intros [<- | []]. split; [exact Vd | lia].
      * intros [Vx Hx]. left. apply toordinal_inj; auto. lia.
    + destruct (succ_ymd_spec d Vd ltac:(lia)) as [Vs Os].
      destruct (IH (succ_ymd d) Vs ltac:(lia)) as (Hin & Hsort).
      cbn [gunler] in *. split.
      * intros x. split.
        -- intros [<- | Hx]; [split; [exact Vd | lia]|].
           apply Hin in Hx. destruct Hx as [Vx Hx]. split; [exact Vx | lia].
        -- intros [Vx Hx]. destruct (Z.eq_dec (toordinal x) (toordinal d)) as [E|NE].
           ++ left. apply toordinal_inj; auto.
           ++ right. apply Hin. split; [exact Vx | lia].
      * constructor; [exact Hsort|]. apply Forall_forall. intros x Hx.
        apply Hin in Hx. destruct Hx as [Vx Hx].
        rewrite date_compare_toordinal by auto. apply Z.compare_lt_iff. lia.
Qed.

Lemma aralik_spec b e :
  valid b = true -> valid e = true ->
  (forall x, In x (aralik b e) <->
     valid x = true /\ date_leb b x = true /\ date_leb x e = true) /\
  StronglySorted (fun x y => date_compare x y = Lt) (aralik b e).
Proof.
  intros Vb Ve. pose proof (toordinal_le_max e Ve). pose proof (toordinal_le_max b Vb).
  destruct (gunler_spec (Z.to_nat (toordinal e - toordinal b + 1)) b Vb ltac:(lia)) as [Hin Hs].
  split; [|exact Hs]. intros x. unfold aralik. rewrite Hin. split.
  - intros [Vx Hx]. rewrite !date_leb_toordinal, !Z.leb_le by auto.
    repeat split; auto; lia.
  - intros (Vx & L1 & L2). rewrite date_leb_toordinal, Z.leb_le in L1, L2 by auto.
    split; [exact Vx | lia].
Qed.

Lemma tahmin_et_parsed M s1 s2 tol b e :
  strptime fmt_ymd s1 = Ok b -> strptime fmt_ymd s2 = Ok e ->
  tahmin_et M s1 s2 tol = tahmin_dongusu (dongu_yakiti b e) M b e [].
Proof. intros H1 H2. unfold tahmin_et. rewrite H1, H2. reflexivity. Qed.

(** ** Theorems about [tahmin_et] *)

Lemma tahmin_et_yakit M s1 s2 tol : tahmin_et M s1 s2 tol <> Err FuelExhausted.
Proof.
  unfold tahmin_et.
  destruct (strptime fmt_ymd s1) as [b|ex] eqn:H1;
    [|destruct (strptime_Err _ _ _ H1) as [m ->]; discriminate].
  destruct (strptime fmt_ymd s2) as [e|ex] eqn:H2;
    [|destruct (strptime_Err _ _ _ H2) as [m ->]; discriminate].
  cbn [bind]. pose proof (strptime_valid _ _ _ H1) as Vb. pose proof (strptime_valid _ _ _ H2) as Ve.
  pose proof (toordinal_le_max e Ve). unfold dongu_yakiti.
  destruct (Z_lt_le_dec (toordinal e) (toordinal b)).
  - rewrite tahmin_dongusu_past by auto. discriminate.
  - destruct (Z.eq_dec (toordinal e) MAXORDINAL).
    + rewrite tahmin_dongusu_overflow by (auto; lia). discriminate.
    + rewrite tahmin_dongusu_Ok by (auto; lia). discriminate.
Qed.

(** [(C6)] Termination: the fuel given to the [while] loop always
    suffices; [tahmin_et] returns the forecasts or a Python error. *)
Theorem tahmin_et_terminates M s1 s2 tol : tahmin_et M s1 s2 tol <> Err FuelExhausted.
Proof. apply tahmin_et_yakit. Qed.

Lemma tahmin_et_liste M s1 s2 tol b e :
  strptime fmt_ymd s1 = Ok b -> strptime fmt_ymd s2 = Ok e -> (toordinal e < MAXORDINAL)%Z ->
  tahmin_et M s1 s2 tol = Ok (map (gun_tahmini M) (filter is_gun (aralik b e))).
Proof.
  intros H1 H2 Hmax. rewrite (tahmin_et_parsed M s1 s2 tol b e H1 H2).
  rewrite tahmin_dongusu_Ok; [reflexivity | eapply strptime_valid; eauto
    | eapply strptime_valid; eauto | exact Hmax | unfold dongu_yakiti; lia].
Qed.


Lemma tahmin_et_gunler M s1 s2 tol b e out :
  strptime fmt_ymd s1 = Ok b -> strptime fmt_ymd s2 = Ok e -> (toordinal e < MAXORDINAL)%Z ->
  tahmin_et M s1 s2 tol = Ok out ->
  exists ds, out = map (gun_tahmini M) ds /\
    StronglySorted (fun x y => date_compare x y = Lt) ds /\
    (forall d, In d ds <-> valid d = true /\ date_leb b d = true /\ date_leb d e = true /\
                         resmi_tatil_mi d = false).
Proof.
  intros H1 H2 Hmax Hout. rewrite (tahmin_et_liste M s1 s2 tol b e H1 H2 Hmax) in Hout.
  injection Hout as <-.
  destruct (aralik_spec b e (strptime_valid _ _ _ H1) (strptime_valid _ _ _ H2)) as [Hin Hs].
  exists (filter is_gun (aralik b e)). split; [reflexivity|]. split.
  - apply StronglySorted_filter, Hs.
  - intros d. rewrite filter_In, Hin. unfold is_gun. rewrite negb_true_iff. tauto.
Qed.

Lemma tahmin_et_kayitlari M s1 s2 tol out :
  tahmin_et M s1 s2 tol = Ok out ->
  forall r, In r out ->
    exists d, r = gun_tahmini M d /\ resmi_tatil_mi d = false /\
      (((f_sinava_katilacak r <= 45)%Z /\ (20 <= f_davet_edilen r < 150)%Z) \/
       (f_davet_edilen r = 20%Z /\ (45 <= f_sinava_katilacak r)%Z)).
Proof.
  unfold tahmin_et. intros Hout r Hr.
  destruct (bind_Ok _ _ _ Hout) as (b & _ & Hout1).
  destruct (bind_Ok _ _ _ Hout1) as (e & _ & Hloop).
  destruct (tahmin_dongusu_shape _ _ _ _ _ _ Hloop) as (ds & -> & Hds).
  apply in_map_iff in Hr. destruct Hr as (d & <- & Hd).
  exists d. split; [reflexivity|]. split; [exact (proj1 (Forall_forall _ _) Hds d Hd)|].
  unfold gun_tahmini; cbn [f_sinava_katilacak f_davet_edilen].
  destruct (classic_admissible M (gun_ozellikleri d)) as [Hex | Hno].
  - left. apply gun_sayilari_capacity, Hex.
  - right. apply gun_sayilari_fallback, Hno.
Qed.

Lemma tahmin_et_ters M s1 s2 tol b e :
  strptime fmt_ymd s1 = Ok b -> strptime fmt_ymd s2 = Ok e -> date_leb b e = false ->
  tahmin_et M s1 s2 tol = Ok [].
Proof.
  intros H1 H2 Hlt. rewrite (tahmin_et_parsed M s1 s2 tol b e H1 H2).
  unfold dongu_yakiti. cbn [tahmin_dongusu]. rewrite Hlt. reflexivity.
Qed.

(** [(C2)] Every emitted record is the record of a day that is not a
    weekend or holiday, and either keeps the attendance within the
    capacity 45 with 20..149 invitations, or is the fallback day with
    20 invitations and an attendance of at least 45. *)
Theorem tahmin_et_capacity M s1 s2 tol out :
  tahmin_et M s1 s2 tol = Ok out ->
  forall r, In r out ->
    exists d, r = gun_tahmini M d /\ resmi_tatil_mi d = false /\
      (((f_sinava_katilacak r <= 45)%Z /\ (20 <= f_davet_edilen r < 150)%Z) \/
       (f_davet_edilen r = 20%Z /\ (45 <= f_sinava_katilacak r)%Z)).
Proof. apply tahmin_et_kayitlari. Qed.

(** [(C3)] The forecast days: the records of a successful
    [tahmin_et] are those of exactly the valid days from the start to
    the end date that are neither weekends nor holidays, in strictly
    increasing order of date. *)
Theorem tahmin_et_business_days M s1 s2 tol b e out :
  strptime fmt_ymd s1 = Ok b -> strptime fmt_ymd s2 = Ok e -> (toordinal e < MAXORDINAL)%Z ->
  tahmin_et M s1 s2 tol = Ok out ->
  exists ds, out = map (gun_tahmini M) ds /\
    StronglySorted (fun x y => date_compare x y = Lt) ds /\
    (forall d, In d ds <-> valid d = true /\ date_leb b d = true /\ date_leb d e = true /\
                         resmi_tatil_mi d = false).
Proof. apply tahmin_et_gunler. Qed.

(** [(C4)] Refinement: for an end date before 9999-12-31, [tahmin_et]
    returns one record per day of the reference list [aralik b e] that
    is not a weekend or holiday, in that order. *)
Theorem tahmin_et_refines M s1 s2 tol b e :
  strptime fmt_ymd s1 = Ok b -> strptime fmt_ymd s2 = Ok e -> (toordinal e < MAXORDINAL)%Z ->
  tahmin_et M s1 s2 tol = Ok (map (gun_tahmini M) (filter is_gun (aralik b e))).
Proof. apply tahmin_et_liste. Qed.

(** [(C9)] A reversed range (end before start) is not an error: the
    loop body never runs and the forecast is empty. *)
Theorem tahmin_et_reversed M s1 s2 tol b e :
  strptime fmt_ymd s1 = Ok b -> strptime fmt_ymd s2 = Ok e -> date_leb b e = false ->
  tahmin_et M s1 s2 tol = Ok [].
Proof. apply tahmin_et_ters. Qed.

(** [(C10)] A range that ends on 9999-12-31 raises [OverflowError]:
    after the last day, [mevcut_tarih += timedelta(days=1)] leaves the
    range of [datetime], and the days already computed are lost. *)
Theorem tahmin_et_overflow M s1 s2 tol b e :
  strptime fmt_ymd s1 = Ok b -> strptime fmt_ymd s2 = Ok e ->
  toordinal e = MAXORDINAL -> date_leb b e = true ->
  tahmin_et M s1 s2 tol = Err (OverflowError "date value out of range").
Proof.
  intros H1 H2 Hmax Hle. pose proof (strptime_valid _ _ _ H1) as Vb.
  pose proof (strptime_valid _ _ _ H2) as Ve.
  rewrite date_leb_toordinal, Z.leb_le in Hle by auto.
  rewrite (tahmin_et_parsed M s1 s2 tol b e H1 H2).
  apply tahmin_dongusu_overflow; auto. unfold dongu_yakiti. lia.
Qed.
End Proofs.

(** [(C32)] Well-formed records: for a start year of at least 1000
    and an end date before 9999-12-31, every record of [tahmin_et]
    carries a [Tarih] text that parses back to a day of the range and
    the name of that day in [Gün]. *)
Theorem tahmin_et_kayit_gecerli `{HolidayProvider} M s1 s2 tol b e out :
  strptime fmt_ymd s1 = Ok b -> strptime fmt_ymd s2 = Ok e -> (toordinal e < MAXORDINAL)%Z ->
  (1000 <= year b)%Z -> tahmin_et M s1 s2 tol = Ok out ->
  forall r, In r out -> kayit_gecerli b e r = true.
Proof.
  intros H1 H2 Hmax Hy Hout r Hr.
  destruct (tahmin_et_gunler M s1 s2 tol b e out H1 H2 Hmax Hout) as (ds & -> & _ & Hin).
  apply in_map_iff in Hr as (d & <- & Hd). apply Hin in Hd as (V & Hb & He & _).
  pose proof (date_leb_year _ _ Hb).
  unfold kayit_gecerli. cbn [f_tarih f_gun gun_tahmini].
  rewrite strptime_strftime by (auto; lia). rewrite Hb, He, String.eqb_refl. reflexivity.
Qed.

(** A range of rest days: when every day from the start to the
    end date is a weekend or a holiday, [tahmin_et] returns an empty
    forecast, not an error. *)
Theorem tahmin_et_rest_days `{HolidayProvider} M s1 s2 tol b e :
  strptime fmt_ymd s1 = Ok b -> strptime fmt_ymd s2 = Ok e -> (toordinal e < MAXORDINAL)%Z ->
  (forall d, valid d = true -> date_leb b d = true -> date_leb d e = true -> resmi_tatil_mi d = true) ->
  tahmin_et M s1 s2 tol = Ok [].
Proof.
  intros H1 H2 Hmax Hrest. rewrite (tahmin_et_liste M s1 s2 tol b e H1 H2 Hmax).
  rewrite filter_all_false; [reflexivity|]. intros d Hd.
  apply (aralik_spec b e (strptime_valid _ _ _ H1) (strptime_valid _ _ _ H2)) in Hd as (V & Hb & He).
  unfold is_gun. rewrite (Hrest d V Hb He). reflexivity.
Qed.

(** ** Witnesses *)

Definition date_eqb (a b : date) : bool :=
  match date_compare a b with Eq => true | _ => false end.

(** A holiday table for the concrete checks: 2024-04-23 and 2024-05-01. *)
#[local] Instance ornek_tatiller : HolidayProvider :=
  {| tr_holidays := fun d => date_eqb d (mkdate 2024 4 23) || date_eqb d (mkdate 2024 5 1) |}.

Lemma tahmin_et_refines_witness :
  strptime fmt_ymd "2024-04-19" = Ok (mkdate 2024 4 19) /\
  strptime fmt_ymd "2024-04-24" = Ok (mkdate 2024 4 24) /\
  (toordinal (mkdate 2024 4 24) < MAXORDINAL)%Z /\
  tahmin_et sabit_modeller "2024-04-19" "2024-04-24" false =
  Ok (map (gun_tahmini sabit_modeller) (filter is_gun (aralik (mkdate 2024 4 19) (mkdate 2024 4 24)))).
Proof.
  split; [reflexivity|]. split; [reflexivity|]. split; [vm_compute; reflexivity|].
  apply tahmin_et_refines; [reflexivity | reflexivity | vm_compute; reflexivity].
Defined.

Lemma tahmin_et_business_days_witness :
  exists out, tahmin_et sabit_modeller "2024-04-19" "2024-04-24" false = Ok out /\
  exists ds, out = map (gun_tahmini sabit_modeller) ds /\
    StronglySorted (fun x y => date_compare x y = Lt) ds /\
    (forall d, In d ds <-> valid d = true /\ date_leb (mkdate 2024 4 19) d = true /\
                         date_leb d (mkdate 2024 4 24) = true /\ resmi_tatil_mi d = false).
Proof.
  destruct (tahmin_et sabit_modeller "2024-04-19" "2024-04-24" false) as [out|ex] eqn:E.
  - exists out. split; [reflexivity|].
    apply (tahmin_et_business_days sabit_modeller "2024-04-19" "2024-04-24" false
             (mkdate 2024 4 19) (mkdate 2024 4 24) out);
      [reflexivity | reflexivity | vm_compute; reflexivity | exact E].
  - vm_compute in E. discriminate.
Defined.

Lemma tahmin_et_capacity_witness :
  exists out, tahmin_et sabit_modeller "2024-04-19" "2024-04-24" false = Ok out /\
  forall r, In r out ->
    exists d, r = gun_tahmini sabit_modeller d /\ resmi_tatil_mi d = false /\
      (((f_sinava_katilacak r <= 45)%Z /\ (20 <= f_davet_edilen r < 150)%Z) \/
       (f_davet_edilen r = 20%Z /\ (45 <= f_sinava_katilacak r)%Z)).
Proof.
  destruct (tahmin_et sabit_modeller "2024-04-19" "2024-04-24" false) as [out|ex] eqn:E.
  - exists out. split; [reflexivity|]. exact (tahmin_et_capacity _ _ _ _ _ E).
  - vm_compute in E. discriminate.
Defined.

Lemma tahmin_et_reversed_witness :
  strptime fmt_ymd "2024-04-24" = Ok (mkdate 2024 4 24) /\
  strptime fmt_ymd "2024-04-19" = Ok (mkdate 2024 4 19) /\
  date_leb (mkdate 2024 4 24) (mkdate 2024 4 19) = false /\
  tahmin_et sabit_modeller "2024-04-24" "2024-04-19" false = Ok [].
Proof.
  split; [reflexivity|]. split; [reflexivity|]. split; [reflexivity|].
  apply (tahmin_et_reversed _ _ _ _ (mkdate 2024 4 24) (mkdate 2024 4 19)); reflexivity.
Defined.

Lemma tahmin_et_overflow_witness :
  strptime fmt_ymd "9999-12-30" = Ok (mkdate 9999 12 30) /\
  strptime fmt_ymd "9999-12-31" = Ok (mkdate 9999 12 31) /\
  toordinal (mkdate 9999 12 31) = MAXORDINAL /\
  date_leb (mkdate 9999 12 30) (mkdate 9999 12 31) = true /\
  tahmin_et sabit_modeller "9999-12-30" "9999-12-31" false =
  Err (OverflowError "date value out of range").
Proof.
  split; [reflexivity|]. split; [reflexivity|]. split; [reflexivity|]. split; [reflexivity|].
  apply (tahmin_et_overflow _ _ _ _ (mkdate 9999 12 30) (mkdate 9999 12 31)); reflexivity.
Defined.

Lemma tahmin_et_kayit_gecerli_witness :
  strptime fmt_ymd "2024-04-19" = Ok (mkdate 2024 4 19) /\
  strptime fmt_ymd "2024-04-24" = Ok (mkdate 2024 4 24) /\
  forall r, In r (match tahmin_et sabit_modeller "2024-04-19" "2024-04-24" false with
                  | Ok o => o | Err _ => [] end) ->
    kayit_gecerli (mkdate 2024 4 19) (mkdate 2024 4 24) r = true.
Proof.
  assert (H1 : strptime fmt_ymd "2024-04-19" = Ok (mkdate 2024 4 19)) by (vm_compute; reflexivity).
  assert (H2 : strptime fmt_ymd "2024-04-24" = Ok (mkdate 2024 4 24)) by (vm_compute; reflexivity).
  split; [exact H1|]. split; [exact H2|].
  apply (tahmin_et_kayit_gecerli sabit_modeller "2024-04-19" "2024-04-24" false _ _ _ H1 H2);
    [vm_compute; reflexivity | cbn; lia | vm_compute; reflexivity].
Defined.

(** 20 and 21 April 2024 are a Saturday and a Sunday. *)
Lemma tahmin_et_rest_days_witness :
  strptime fmt_ymd "2024-04-20" = Ok (mkdate 2024 4 20) /\
  strptime fmt_ymd "2024-04-21" = Ok (mkdate 2024 4 21) /\
  tahmin_et sabit_modeller "2024-04-20" "2024-04-21" false = Ok [].
Proof.
  assert (H1 : strptime fmt_ymd "2024-04-20" = Ok (mkdate 2024 4 20)) by (vm_compute; reflexivity).
  assert (H2 : strptime fmt_ymd "2024-04-21" = Ok (mkdate 2024 4 21)) by (vm_compute; reflexivity).
  split; [exact H1|]. split; [exact H2|].
  apply (tahmin_et_rest_days _ _ _ _ _ _ H1 H2); [vm_compute; reflexivity|].
  intros [y m d] _ Hb He. apply date_leb_lex in Hb, He. cbn [year month day] in Hb, He.
  assert (y = 2024 /\ m = 4 /\ (d = 20 \/ d = 21))%Z as (-> & -> & [-> | ->]) by lia;
    vm_compute; reflexivity.
Defined.

End Forecast.
