(* ===== verification/ForecastSteps.v ===== *)
(** * ForecastSteps: the day loop of [tahmin_et] as a transition system

    [Forecast.tahmin_dongusu] runs the [while] loop of [src/app.py]
    (lines 55-96) on fuel. This file gives the same loop a small-step
    semantics: a state is the loop at a day with the records so far
    ([Dongu]), the loop after its condition failed ([Bitti]), or the
    exception of [mevcut_tarih += timedelta(days=1)] ([Hata]). One
    iteration is one step of [adim], and [adim_fn] computes it.

    The theorems show that every run reaches a final state (liveness,
    by a measure on the days left) and that [tahmin_et] returns
    exactly the final state of the run from the parsed start date, so
    the fuel of the functional model neither cuts a run short nor adds
    behaviour. *)

From Stdlib Require Import ZArith List Lia Bool String.
From S2P Require Import Prelude Calendar Strptime Optimizer Forecast.
Import ListNotations PyDate Strptime Optimizer Forecast.

Module ForecastSteps.

(** ** States and steps *)

Inductive DonguDurumu :=
| Dongu (mevcut_tarih : date) (tahmin_sonuclari : list DailyForecast)
| Bitti (tahmin_sonuclari : list DailyForecast)
| Hata (e : exn).

(** The state a run of the loop ends in, for a result of [tahmin_et]. *)
Definition durum_of (r : result (list DailyForecast)) : DonguDurumu :=
  match r with Ok out => Bitti out | Err e => Hata e end.

Definition son_durum (s : DonguDurumu) : Prop :=
  match s with Dongu _ _ => False | _ => True end.

Section Steps.
Context `{HolidayProvider}.
Variables (M : FunnelModels) (bitis : date).

(** One iteration (lines 56-96): the test [mevcut_tarih <= bitis], the
    record of a business day, and the step to the next day. *)
Inductive adim : DonguDurumu -> DonguDurumu -> Prop :=
| adim_cikis cur acc :
    date_leb cur bitis = false -> adim (Dongu cur acc) (Bitti acc)
| adim_gun cur acc sonraki :
    date_leb cur bitis = true -> next_day cur = Ok sonraki ->
    adim (Dongu cur acc)
      (Dongu sonraki (if resmi_tatil_mi cur then acc else acc ++ [gun_tahmini M cur]))
| adim_tasma cur acc e :
    date_leb cur bitis = true -> next_day cur = Err e -> adim (Dongu cur acc) (Hata e).

(** The same step as a function; [None] for a final state. *)
Definition adim_fn (s : DonguDurumu) : option DonguDurumu :=
  match s with
  | Dongu cur acc =>
      if date_leb cur bitis then
        match next_day cur with
        | Ok sonraki =>
            Some (Dongu sonraki (if resmi_tatil_mi cur then acc else acc ++ [gun_tahmini M cur]))
        | Err e => Some (Hata e)
        end
      else Some (Bitti acc)
  | Bitti _ | Hata _ => None
  end.
End Steps.

(** ** The step relation and its function *)

Section StepFacts.
Context `{HolidayProvider}.
Variables (M : FunnelModels) (bitis : date).

Lemma adim_fn_spec s s' : adim M bitis s s' <-> adim_fn M bitis s = Some s'.
Proof.
  split.
  - intros []; cbn [adim_fn]; match goal with E : date_leb _ _ = _ |- _ => rewrite E end;
      try match goal with E : next_day _ = _ |- _ => rewrite E end; reflexivity.
  - destruct s as [cur acc| |]; cbn [adim_fn]; try discriminate.
    destruct (date_leb cur bitis) eqn:L; [|intros [= <-]; constructor; exact L].
    destruct (next_day cur) eqn:N; intros [= <-]; [apply adim_gun | apply adim_tasma]; auto.
Qed.

Lemma adim_functional s s1 s2 : adim M bitis s s1 -> adim M bitis s s2 -> s1 = s2.
Proof. rewrite !adim_fn_spec. congruence. Qed.

Lemma son_durum_irred s : son_durum s -> irred (adim M bitis) s.
Proof. intros F s' Hs. apply adim_fn_spec in Hs. destruct s; cbn in F, Hs; congruence. Qed.

Lemma durum_of_irred r : irred (adim M bitis) (durum_of r).
Proof. apply son_durum_irred. destruct r; exact I. Qed.

Lemma durum_of_inj r r' : durum_of r = durum_of r' -> r = r'.
Proof. destruct r, r'; cbn; congruence. Qed.

(** A loop state always has a step: only [Bitti] and [Hata] are final. *)
Lemma dongu_ilerler cur acc : exists s', adim M bitis (Dongu cur acc) s'.
Proof.
  setoid_rewrite adim_fn_spec. cbn [adim_fn].
  destruct (date_leb cur bitis); [destruct (next_day cur)|]; eexists; reflexivity.
Qed.

(** The fuelled loop follows the steps: a result other than running
    out of fuel is the final state of a run. *)
Lemma tahmin_dongusu_star fuel cur acc :
  match tahmin_dongusu fuel M cur bitis acc with
  | Err FuelExhausted => True
  | r => star (adim M bitis) (Dongu cur acc) (durum_of r)
  end.
Proof.
  revert cur acc. induction fuel as [|fuel IH]; intros cur acc; cbn [tahmin_dongusu]; [exact I|].
  destruct (date_leb cur bitis) eqn:L; [|apply star_one; constructor; exact L].
  destruct (next_day cur) as [sonraki|e] eqn:N.
  - specialize (IH sonraki (if resmi_tatil_mi cur then acc else acc ++ [gun_tahmini M cur])).
    destruct (tahmin_dongusu fuel M sonraki bitis _) as [out|[m|m|m|]]; try exact I;
      (eapply star_step; [apply adim_gun; eauto | exact IH]).
  - destruct e; try exact I; apply star_one; apply adim_tasma; auto.
Qed.
End StepFacts.

(** ** Theorems *)

(** [(C30)] Liveness of the day loop: from any valid day, every run of
    the loop reaches a final state, the end of the loop or the
    overflow error, whatever the models and holidays. *)
Theorem dongu_sonlanir `{HolidayProvider} M bitis cur acc :
  valid cur = true -> valid bitis = true ->
  eventually (adim M bitis) son_durum (Dongu cur acc).
Proof.
  intros Vc Vb. remember (Z.to_nat (toordinal bitis - toordinal cur + 1)) as n eqn:En.
  revert cur acc Vc En. induction n as [n IH] using lt_wf_ind; intros cur acc Vc En.
  apply ev_later; [apply dongu_ilerler|]. intros s' Hs.
  inversion Hs as [? ? L | ? ? sonraki L N | ? ? e L N]; subst; [apply ev_now; exact I| |apply ev_now; exact I].
  rewrite date_leb_toordinal, Z.leb_le in L by auto.
  pose proof (toordinal_le_max cur Vc).
  destruct (Z.eq_dec (toordinal cur) MAXORDINAL) as [E|NE];
    [rewrite next_day_max in N by exact E; discriminate|].
  rewrite next_day_Ok in N by (auto; lia). injection N as <-.
  destruct (succ_ymd_spec cur Vc ltac:(lia)) as [Vs Os].
  eapply IH; [|exact Vs|reflexivity]. rewrite Os. lia.
Qed.

(** [(C31)] Equivalence of the fuelled loop with the transition system:
    once both dates parse, [tahmin_et] returns [r] exactly when the run
    of the loop from the start day with no records ends in the state of
    [r]; the records of the forecast, or the overflow error. *)
Theorem tahmin_et_adimlar `{HolidayProvider} M s1 s2 tol b e r :
  strptime fmt_ymd s1 = Ok b -> strptime fmt_ymd s2 = Ok e ->
  (tahmin_et M s1 s2 tol = r <-> star (adim M e) (Dongu b []) (durum_of r)).
Proof.
  intros H1 H2.
  assert (Hrun : star (adim M e) (Dongu b []) (durum_of (tahmin_et M s1 s2 tol))).
  { pose proof (tahmin_et_yakit M s1 s2 tol) as Hf.
    rewrite (tahmin_et_parsed M s1 s2 tol b e H1 H2) in *.
    pose proof (tahmin_dongusu_star M e (dongu_yakiti b e) b []) as Hs.
    destruct (tahmin_dongusu _ M b e []) as [|[| | |]]; solve [exact Hs | congruence]. }
  split; [intros <-; exact Hrun|]. intros Hr.
  apply durum_of_inj. eapply finseq_unique; eauto using adim_functional, durum_of_irred.
Qed.

(** ** Witnesses *)

#[local] Instance adim_tatiller : HolidayProvider := {| tr_holidays := fun _ => false |}.

Lemma dongu_sonlanir_witness :
  valid (mkdate 2024 4 19) = true /\ valid (mkdate 2024 4 24) = true /\
  eventually (adim sabit_modeller (mkdate 2024 4 24)) son_durum (Dongu (mkdate 2024 4 19) []).
Proof.
  assert (V1 : valid (mkdate 2024 4 19) = true) by reflexivity.
  assert (V2 : valid (mkdate 2024 4 24) = true) by reflexivity.
  split; [exact V1|]. split; [exact V2|]. exact (dongu_sonlanir _ _ _ _ V1 V2).
Defined.

Lemma tahmin_et_adimlar_witness :
  strptime fmt_ymd "2024-04-19"%string = Ok (mkdate 2024 4 19) /\
  strptime fmt_ymd "2024-04-24"%string = Ok (mkdate 2024 4 24) /\
  (tahmin_et sabit_modeller "2024-04-19"%string "2024-04-24"%string false =
     tahmin_et sabit_modeller "2024-04-19"%string "2024-04-24"%string false <->
   star (adim sabit_modeller (mkdate 2024 4 24)) (Dongu (mkdate 2024 4 19) [])
     (durum_of (tahmin_et sabit_modeller "2024-04-19"%string "2024-04-24"%string false))).
Proof.
  assert (H1 : strptime fmt_ymd "2024-04-19"%string = Ok (mkdate 2024 4 19)) by (vm_compute; reflexivity).
  assert (H2 : strptime fmt_ymd "2024-04-24"%string = Ok (mkdate 2024 4 24)) by (vm_compute; reflexivity).
  split; [exact H1|]. split; [exact H2|]. exact (tahmin_et_adimlar _ _ _ _ _ _ _ H1 H2).
Defined.

End ForecastSteps.
