(* ===== verification/Dataset.v ===== *)
(** * Dataset: preparing the history and training the models

    [load_and_prepare_data] ([src/app.py] lines 14-25) reads
    [denemedata2.csv] with [pd.read_csv(sep=';')], converts the [Tarih]
    column with [astype(str)] and [pd.to_datetime(format="%d%m%Y",
    errors='coerce')], drops the rows whose date failed ([dropna]) and
    adds the features [Gün], [Ay], [Hafta] and [Tatil]. [egit_modeller]
    (lines 27-41) fits one regressor per count column on the same
    feature matrix.

    The CSV reader decides a column's type from all its fields. The
    [Tarih] column becomes [int64] when every field is an integer
    literal, [float64] when some fields are empty and the others are
    integer literals, and text ([object]) otherwise. [read_column]
    models this, [astype_str] is [str()] of each resulting cell, and
    [load_and_prepare_data] composes them with the parser of [Strptime].
    The fitting function of scikit-learn is a section variable of
    [egit_modeller]. *)

From Stdlib Require Import ZArith QArith List Lia Bool String Ascii.
From S2P Require Import Prelude Calendar Strptime Optimizer.
Import ListNotations PyDate Strptime Optimizer.

Module Dataset.

(** ** Data *)

(** A row of the CSV: the text of the [Tarih] field ([None] when the
    field is empty) and the four count columns. *)
Record RawRow := mkRaw {
  tarih_alani : option string;
  davet_sayisi : Z;
  teyit_sayisi : Z;
  teyit_yok_sayisi : Z;
  katilim_sayisi : Z }.

(** A cell of the [Tarih] column after [read_csv]. *)
Inductive cell :=
| CInt (z : Z)         (* int64 column *)
| CFloat (z : Z)       (* float64 column, an integral value *)
| CNaN                 (* missing value *)
| CText (s : string).  (* object column *)

(** An integer literal of the CSV reader: an optional sign and at least
    one decimal digit; leading zeros are allowed. *)
Definition digits_literal (ds : list ascii) : option Z :=
  match ds with
  | [] => None
  | _ :: _ => if forallb is_digit ds then Some (int_of_token ds) else None
  end.

(** [isspace_ascii] of the tokenizer: space, [\t], [\n], [\v], [\f]
    and [\r]. *)
Definition is_space (c : ascii) : bool :=
  ((nat_of_ascii c =? 32) || ((9 <=? nat_of_ascii c) && (nat_of_ascii c <=? 13)))%nat.

Fixpoint drop_space (cs : list ascii) : list ascii :=
  match cs with
  | c :: r => if is_space c then drop_space r else cs
  | [] => []
  end.

(** [str_to_int64] skips the spaces before the sign and after the last
    digit, and rejects anything else. *)
Definition strip_space (cs : list ascii) : list ascii :=
  rev (drop_space (rev (drop_space cs))).

Definition int_literal (s : string) : option Z :=
  match strip_space (list_ascii_of_string s) with
  | [] => None
  | c :: ds =>
      if Ascii.eqb c "-" then option_map Z.opp (digits_literal ds)
      else if Ascii.eqb c "+" then digits_literal ds
      else digits_literal (c :: ds)
  end.

Inductive dtype := Int64 | Float64 | ObjectDtype.

Definition is_int_field (c : option string) : bool :=
  match c with Some s => match int_literal s with Some _ => true | None => false end | None => false end.

Definition is_int_or_empty (c : option string) : bool :=
  match c with Some s => match int_literal s with Some _ => true | None => false end | None => true end.

Definition infer_dtype (cells : list (option string)) : dtype :=
  if forallb is_int_field cells then Int64
  else if forallb is_int_or_empty cells then Float64
  else ObjectDtype.

Definition literal_value (s : string) : Z :=
  match int_literal s with Some z => z | None => 0 end.

(** The [Tarih] column as [read_csv] types it. *)
Definition read_column (cells : list (option string)) : list cell :=
  let to_cell :=
    match infer_dtype cells with
    | Int64 => fun c => match c with Some s => CInt (literal_value s) | None => CNaN end
    | Float64 => fun c => match c with Some s => CFloat (literal_value s) | None => CNaN end
    | ObjectDtype => fun c => match c with Some s => CText s | None => CNaN end
    end in
  map to_cell cells.

Definition py_str_int (z : Z) : list ascii :=
  if z <? 0 then "-"%char :: decimal_digits 20 (- z) [] else decimal_digits 20 z [].

(** [astype(str)] of a cell: [str(np.int64)], [repr] of an integral
    float below [10^16] (larger ones print with an exponent; both
    contain a character the date format rejects), ["nan"], or the
    text itself. *)
Definition astype_str (c : cell) : string :=
  match c with
  | CInt z => string_of_list_ascii (py_str_int z)
  | CFloat z => string_of_list_ascii (py_str_int z ++ ["."; "0"]%char)
  | CNaN => "nan"%string
  | CText s => s
  end.

(** The prepared record: the date, the row and its feature row. *)
Record HistoricalRecord := mkHist {
  h_tarih : date;
  h_satir : RawRow;
  h_ozellik : Features }.

Section Prepare.
Context `{HolidayProvider}.

(** [Tatil] (line 23): [x.weekday() >= 5 or x in tr_holidays]. *)
Definition tatil_bayragi (x : date) : Z :=
  if (weekday x >=? 5) || tr_holidays x then 1 else 0.

(** Lines 19-23. *)
Definition ozellikler (x : date) : Features :=
  mkFeatures (weekday x) (month x) (iso_week x) (tatil_bayragi x).

(** Line 16: the converted [Tarih] column, [None] for [NaT]. *)
Definition tarih_hucreleri (cells : list (option string)) : list (option date) :=
  map (fun c => to_datetime_coerce fmt_dmy (astype_str c)) (read_column cells).

Definition tarih_sutunu (rows : list RawRow) : list (option date) :=
  tarih_hucreleri (map tarih_alani rows).

(** Lines 16-23: convert, [dropna(subset=['Tarih'])], add the features. *)
Definition load_and_prepare_data (rows : list RawRow) : list HistoricalRecord :=
  flat_map (fun '(r, t) =>
              match t with
              | Some x => [mkHist x r (ozellikler x)]
              | None => []
              end)
    (combine rows (tarih_sutunu rows)).
End Prepare.

Section Training.
(** [RandomForestRegressor(n_estimators=100, random_state=42).fit(X, y)]
    followed by [predict], as a function of the training data. *)
Variable fit : list Features -> list Z -> (Features -> Q).

(** Lines 27-41: four models on the same feature matrix. *)
Definition egit_modeller (df : list HistoricalRecord) : FunnelModels :=
  let X := map h_ozellik df in
  mkModels (fit X (map (fun h => davet_sayisi (h_satir h)) df))
           (fit X (map (fun h => teyit_sayisi (h_satir h)) df))
           (fit X (map (fun h => teyit_yok_sayisi (h_satir h)) df))
           (fit X (map (fun h => katilim_sayisi (h_satir h)) df)).

(** [fit] on zero rows raises [ValueError]. *)
Definition bos_veri_hatasi : exn :=
  ValueError "Found array with 0 sample(s) while a minimum of 1 is required".

(** Line 36: the first [fit] fails on an empty frame. *)
Definition egit_modeller_sonuc (df : list HistoricalRecord) : result FunnelModels :=
  match df with
  | [] => Err bos_veri_hatasi
  | _ :: _ => Ok (egit_modeller df)
  end.
End Training.

(** ** Lemmas: integer fields and their printing *)

Lemma is_digit_not_sign c :
  is_digit c = true -> Ascii.eqb c "-" = false /\ Ascii.eqb c "+" = false.
Proof.
  intros Hd. split.
  - destruct (Ascii.eqb_spec c "-") as [->|]; [vm_compute in Hd; discriminate Hd | reflexivity].
  - destruct (Ascii.eqb_spec c "+") as [->|]; [vm_compute in Hd; discriminate Hd | reflexivity].
Qed.

Lemma drop_space_digits l : forallb is_digit l = true -> drop_space l = l.
Proof.
  destruct l as [|c r]; [reflexivity|]. cbn [forallb drop_space].
  intros [Hc _]%andb_true_iff. unfold is_digit in Hc. unfold is_space.
  apply andb_true_iff in Hc as [H1 H2]. apply Nat.leb_le in H1, H2.
  destruct (Nat.eqb_spec (nat_of_ascii c) 32); [lia|].
  destruct (Nat.leb_spec 9 (nat_of_ascii c)), (Nat.leb_spec (nat_of_ascii c) 13); try lia; reflexivity.
Qed.

Lemma drop_space_keep l :
  forallb (fun c => negb (is_space c)) l = true -> drop_space l = l.
Proof.
  destruct l as [|c r]; [reflexivity|]. cbn [forallb drop_space].
  intros [Hc _]%andb_true_iff. apply negb_true_iff in Hc. rewrite Hc. reflexivity.
Qed.

(** A field without spaces is not stripped. *)
Lemma strip_space_keep l :
  forallb (fun c => negb (is_space c)) l = true -> strip_space l = l.
Proof.
  intros H. unfold strip_space. rewrite (drop_space_keep l H).
  rewrite drop_space_keep, rev_involutive; [reflexivity|].
  rewrite forallb_forall in *. intros x Hx%in_rev. auto.
Qed.

Lemma digits_not_space l : forallb is_digit l = true -> forallb (fun c => negb (is_space c)) l = true.
Proof.
  rewrite !forallb_forall. intros H c Hc. specialize (H c Hc).
  assert (D := drop_space_digits [c]). cbn [forallb drop_space] in D. rewrite H in D.
  destruct (is_space c); [specialize (D eq_refl); discriminate D | reflexivity].
Qed.

Lemma strip_space_digits l : forallb is_digit l = true -> strip_space l = l.
Proof. intros H. apply strip_space_keep, digits_not_space, H. Qed.

Lemma int_literal_digits l :
  l <> [] -> forallb is_digit l = true ->
  int_literal (string_of_list_ascii l) = Some (int_of_token l).
Proof.
  intros Hne Hall. unfold int_literal. rewrite list_ascii_of_string_of_list_ascii.
  rewrite strip_space_digits by exact Hall.
  destruct l as [|c ds]; [congruence|].
  pose proof Hall as Hc. cbn [forallb] in Hc. apply andb_true_iff in Hc as [Hc _].
  destruct (is_digit_not_sign c Hc) as [-> ->].
  change (digits_literal (c :: ds) = Some (int_of_token (c :: ds))).
  unfold digits_literal. rewrite Hall. reflexivity.
Qed.

(** [str] of a nonnegative integer below [10^(fuel+1)]: digits that
    read back as the integer. *)
Lemma decimal_digits_S f n acc :
  decimal_digits (S f) n acc =
  if n <? 10 then digit_char (n mod 10) :: acc
  else decimal_digits f (n / 10) (digit_char (n mod 10) :: acc).
Proof. reflexivity. Qed.

Lemma decimal_digits_ok f : forall n acc,
  0 <= n < 10 ^ Z.of_nat (S f) ->
  exists ds, decimal_digits (S f) n acc = ds ++ acc /\ ds <> [] /\
             forallb is_digit ds = true /\ int_of_token ds = n.
Proof.
  induction f as [|f IH]; intros n acc Hn; rewrite decimal_digits_S;
    destruct (digit_char_mod n) as (Hd & Hv & Hs).
  - change (10 ^ Z.of_nat 1) with 10 in Hn. destruct (Z.ltb_spec n 10); [|lia].
    exists [digit_char (n mod 10)]. repeat split; [discriminate|cbn [forallb]; rewrite Hd; reflexivity|].
    unfold int_of_token. cbn [fold_left]. unfold int_step. rewrite Hs, Hv. zlia.
  - destruct (Z.ltb_spec n 10).
    + exists [digit_char (n mod 10)]. repeat split; [discriminate|cbn [forallb]; rewrite Hd; reflexivity|].
      unfold int_of_token. cbn [fold_left]. unfold int_step. rewrite Hs, Hv. zlia.
    + destruct (IH (n / 10) (digit_char (n mod 10) :: acc)) as (ds & E & Hne & Hall & Hi).
      { rewrite Nat2Z.inj_succ, Z.pow_succ_r in Hn by lia. zlia. }
      exists (ds ++ [digit_char (n mod 10)]). rewrite E, <- app_assoc. repeat split.
      * intros Hx. apply app_eq_nil in Hx as [_ Hx]. discriminate Hx.
      * rewrite forallb_app, Hall. cbn [forallb]. rewrite Hd. reflexivity.
      * unfold int_of_token in *. rewrite fold_left_app, Hi. cbn [fold_left]. unfold int_step.
        rewrite Hs, Hv. zlia.
Qed.

(** [int(str(z))]: pandas reads back what [str] prints, for the
    integers of twenty digits at most. *)
Lemma py_str_int_literal z :
  - 10 ^ 20 < z < 10 ^ 20 -> int_literal (string_of_list_ascii (py_str_int z)) = Some z.
Proof.
  intros Hz. unfold py_str_int. destruct (Z.ltb_spec z 0).
  - destruct (decimal_digits_ok 19 (- z) [] ltac:(cbn; lia)) as (ds & -> & Hne & Hall & Hi).
    rewrite app_nil_r. unfold int_literal. rewrite list_ascii_of_string_of_list_ascii.
    rewrite strip_space_keep by (cbn; apply digits_not_space, Hall).
    cbv beta iota. rewrite Ascii.eqb_refl. unfold digits_literal. destruct ds; [congruence|].
    rewrite Hall. cbn [option_map]. rewrite Hi. f_equal. lia.
  - destruct (decimal_digits_ok 19 z [] ltac:(cbn; lia)) as (ds & -> & Hne & Hall & Hi).
    rewrite app_nil_r, int_literal_digits; auto. rewrite Hi. reflexivity.
Qed.

Lemma pad_digits_digits w n : forallb is_digit (pad_digits w n) = true.
Proof.
  revert n. induction w as [|w IH]; intros n; [reflexivity|].
  cbn [pad_digits]. rewrite forallb_app, IH. cbn [forallb].
  rewrite (proj1 (digit_char_mod n)). reflexivity.
Qed.

(** The number an 8-digit day-month-year field holds. *)
Definition dmy_value (d : date) : Z := day d * 1000000 + month d * 10000 + year d.

Lemma dmy_text_literal d :
  valid d = true -> 1000 <= year d ->
  int_literal (dmy_text d) = Some (dmy_value d).
Proof.
  intros V Hy. destruct (valid_fields d V) as (Hy' & Hm & Hd).
  destruct (month_table (year d) (month d) Hm) as ((_ & ?) & _). unfold MAXYEAR in Hy'.
  unfold dmy_text. rewrite int_literal_digits.
  - f_equal. unfold int_of_token. rewrite !fold_left_app, !int_step_pad by lia.
    simpl Z.of_nat. rewrite !Z.mod_small by (simpl; lia). unfold dmy_value. simpl. lia.
  - cbn [pad_digits]. rewrite <- !app_assoc. intros E. apply app_eq_nil in E as [_ E]. discriminate E.
  - rewrite !forallb_app, !pad_digits_digits. reflexivity.
Qed.

(** [str()] of that number gives the field back when the day has two
    significant digits. *)
Lemma py_str_dmy_value d :
  valid d = true -> 1000 <= year d -> 10 <= day d ->
  string_of_list_ascii (py_str_int (dmy_value d)) = dmy_text d.
Proof.
  intros V Hy Hd10. destruct (valid_fields d V) as (Hy' & Hm & Hd).
  destruct (month_table (year d) (month d) Hm) as ((_ & ?) & _). unfold MAXYEAR in Hy'.
  unfold py_str_int, dmy_text, dmy_value.
  destruct (Z.ltb_spec (day d * 1000000 + month d * 10000 + year d) 0); [lia|].
  rewrite (decimal_digits_pad 7) by (simpl; lia). rewrite app_nil_r. f_equal.
  set (n := day d * 1000000 + month d * 10000 + year d).
  change 8%nat with (2 + 6)%nat. rewrite pad_digits_split.
  change 6%nat with (2 + 4)%nat. rewrite pad_digits_split.
  change (10 ^ Z.of_nat (2 + 4)) with 1000000. change (10 ^ Z.of_nat 4) with 10000.
  replace (n / 1000000) with (day d) by (unfold n; zlia).
  rewrite (pad_digits_mod 2 (n / 10000)), (pad_digits_mod 4 n).
  change (10 ^ Z.of_nat 2) with 100. change (10 ^ Z.of_nat 4) with 10000.
  replace ((n / 10000) mod 100) with (month d) by (unfold n; zlia).
  replace (n mod 10000) with (year d) by (unfold n; zlia).
  reflexivity.
Qed.



Lemma load_shape `{HolidayProvider} rows ds :
  tarih_sutunu rows = map Some ds -> List.length rows = List.length ds ->
  map h_tarih (load_and_prepare_data rows) = ds /\ map h_satir (load_and_prepare_data rows) = rows.
Proof.
  unfold load_and_prepare_data. intros ->. revert ds.
  induction rows as [|r rows IH]; intros [|d ds] Hl; try discriminate; [auto|].
  simpl in Hl. destruct (IH ds ltac:(lia)) as [E1 E2]. simpl. rewrite E1, E2. auto.
Qed.

Lemma load_in `{HolidayProvider} rows h :
  In h (load_and_prepare_data rows) ->
  exists s, In (Some (h_tarih h)) (tarih_sutunu rows) /\ h_ozellik h = ozellikler (h_tarih h) /\
  to_datetime_coerce fmt_dmy s = Some (h_tarih h).
Proof.
  unfold load_and_prepare_data. intros Hin. apply in_flat_map in Hin.
  destruct Hin as ([r [x|]] & Hp & Hx); [|destruct Hx].
  destruct Hx as [<- | []]. simpl.
  pose proof (in_combine_r _ _ _ _ Hp) as Ht. unfold tarih_sutunu, tarih_hucreleri in Ht.
  pose proof Ht as Ht'. apply in_map_iff in Ht' as (c & Hc & _).
  exists (astype_str c). auto.
Qed.


(** ** Theorems *)

(** [(C11)] Every prepared record has a valid date and the feature row
    of that date: weekday 0..6, month 1..12, ISO week 1..53, and the
    holiday flag 1 exactly for weekends and holidays. *)
Theorem load_features `{HolidayProvider} rows h :
  In h (load_and_prepare_data rows) ->
  valid (h_tarih h) = true /\ h_ozellik h = ozellikler (h_tarih h) /\
  (0 <= gun (h_ozellik h) <= 6)%Z /\ (1 <= ay (h_ozellik h) <= 12)%Z /\
  (1 <= hafta (h_ozellik h) <= 53)%Z /\
  ((tatil (h_ozellik h) = 1%Z /\ resmi_tatil_mi (h_tarih h) = true) \/
   (tatil (h_ozellik h) = 0%Z /\ resmi_tatil_mi (h_tarih h) = false)).
Proof.
  intros Hin. destruct (load_in rows h Hin) as (s & _ & Hf & Hc).
  destruct (to_datetime_coerce_Some _ _ _ Hc) as [V _].
  destruct (valid_fields _ V) as (_ & Hm & _).
  rewrite Hf. unfold ozellikler, tatil_bayragi, resmi_tatil_mi; cbn [gun ay hafta tatil].
  split; [exact V|]. split; [reflexivity|].
  split; [apply weekday_bounds|]. split; [exact Hm|]. split; [apply iso_week_bounds, V|].
  destruct (_ || _); auto.
Qed.

(** [(C12)] When every [Tarih] field is the zero-padded day-month-year
    text of a date within the pandas range whose day has two
    significant digits, the column is read as integers and every row
    is kept with its date, in order. *)
Theorem load_int_dates `{HolidayProvider} rows ds :
  Forall2 (fun r d => tarih_alani r = Some (dmy_text d) /\ valid d = true /\
                      (10 <= day d)%Z /\ in_ts_bounds d = true) rows ds ->
  map h_tarih (load_and_prepare_data rows) = ds /\ map h_satir (load_and_prepare_data rows) = rows.
Proof.
  intros HF. apply load_shape; [|exact (Forall2_length HF)].
  assert (Hdt : infer_dtype (map tarih_alani rows) = Int64).
  { unfold infer_dtype.
    replace (forallb is_int_field (map tarih_alani rows)) with true; [reflexivity|].
    symmetry. apply forallb_forall. intros c Hc. apply in_map_iff in Hc as (r & <- & Hr).
    destruct (Forall2_in_l _ _ _ _ HF Hr) as (d & _ & Ht & V & _ & B).
    unfold is_int_field. rewrite Ht, dmy_text_literal by (auto; eapply in_ts_bounds_year; eauto).
    reflexivity. }
  unfold tarih_sutunu, tarih_hucreleri, read_column. rewrite Hdt, !map_map. clear Hdt.
  induction HF as [|r d rows ds (Ht & V & Hd & B) _ IH]; [reflexivity|].
  simpl. rewrite IH. f_equal. rewrite Ht. unfold literal_value.
  pose proof (in_ts_bounds_year d V B) as Hy.
  rewrite dmy_text_literal by auto. unfold astype_str. rewrite py_str_dmy_value by auto.
  unfold to_datetime_coerce. rewrite strptime_dmy_text, B by auto. reflexivity.
Qed.

(** The rows of the concrete checks: a date text and constant counts. *)
Definition csv_satiri (s : string) : RawRow := mkRaw (Some s) 100 90 10 85.



(** ** Witnesses *)

#[local] Instance bos_tatiller : HolidayProvider := {| tr_holidays := fun _ => false |}.

Definition ornek_kayit : HistoricalRecord :=
  mkHist (mkdate 2023 3 15) (csv_satiri "15032023") (ozellikler (mkdate 2023 3 15)).

Lemma load_features_witness :
  In ornek_kayit (load_and_prepare_data [csv_satiri "15032023"]) /\
  valid (h_tarih ornek_kayit) = true /\ h_ozellik ornek_kayit = ozellikler (h_tarih ornek_kayit) /\
  (0 <= gun (h_ozellik ornek_kayit) <= 6)%Z /\ (1 <= ay (h_ozellik ornek_kayit) <= 12)%Z /\
  (1 <= hafta (h_ozellik ornek_kayit) <= 53)%Z /\
  ((tatil (h_ozellik ornek_kayit) = 1%Z /\ resmi_tatil_mi (h_tarih ornek_kayit) = true) \/
   (tatil (h_ozellik ornek_kayit) = 0%Z /\ resmi_tatil_mi (h_tarih ornek_kayit) = false)).
Proof.
  assert (Hin : In ornek_kayit (load_and_prepare_data [csv_satiri "15032023"])).
  { vm_compute. left. reflexivity. }
  split; [exact Hin | exact (load_features _ _ Hin)].
Defined.

Lemma load_int_dates_witness :
  Forall2 (fun r d => tarih_alani r = Some (dmy_text d) /\ valid d = true /\
                      (10 <= day d)%Z /\ in_ts_bounds d = true)
    [csv_satiri "15032023"; csv_satiri "28022024"] [mkdate 2023 3 15; mkdate 2024 2 28] /\
  map h_tarih (load_and_prepare_data [csv_satiri "15032023"; csv_satiri "28022024"]) =
    [mkdate 2023 3 15; mkdate 2024 2 28] /\
  map h_satir (load_and_prepare_data [csv_satiri "15032023"; csv_satiri "28022024"]) =
    [csv_satiri "15032023"; csv_satiri "28022024"].
Proof.
  assert (HF : Forall2 (fun r d => tarih_alani r = Some (dmy_text d) /\ valid d = true /\
                      (10 <= day d)%Z /\ in_ts_bounds d = true)
    [csv_satiri "15032023"; csv_satiri "28022024"] [mkdate 2023 3 15; mkdate 2024 2 28]).
  { repeat constructor; simpl; lia. }
  split; [exact HF | exact (load_int_dates _ _ HF)].
Defined.


End Dataset.
