(* ===== verification/Csv.v ===== *)
(** * Csv: [pd.read_csv("denemedata2.csv", sep=';', encoding='utf-8')]

    Line 15 of [src/app.py] reads the history with pandas' C parser.
    [Tokenizer] models pandas' tokenizer ([tokenize_bytes],
    [end_field], [end_line] and [parser_handle_eof] of
    [pandas/_libs/src/parser/tokenizer.c]) with the options the call
    sets: delimiter [';'], the double quote as quote character, doubled inside a quoted field,
    no escape character, no comments, [skip_blank_lines=True]. Its
    state is the record [parser_t]: the state of the automaton
    ([ParserState], the constructors of the C enum), the field and the
    line being built, the finished lines and the physical line count.
    One call [adim] of a state's handler reads one byte and says what
    the loop does next: read on, read the same byte again (the [--i]
    of [EAT_CRNL]) or back up to the start of the line (the backtrack
    of [WHITESPACE_LINE]). The driver [tokenize_bytes] keeps the bytes
    read since the last line feed to back up over, with fuel.

    [Frame] is the Python side: the header row, the implicit index
    (leading columns when the first data row is longer than the
    header), the default NA strings, and the selection of the columns
    the program uses. [Prepare] composes the reader with
    [load_and_prepare_data] and the fitting of [egit_modeller]: a
    missing column is a [KeyError], a count column with a missing
    value left after [dropna] fails the fit.

    The theorems: the tokenizer terminates within its fuel on every
    file whose carriage returns end lines; a file written with every
    field quoted reads back as its rows; the field-count error and the
    end-of-file error; the frame of a written file. *)

From Stdlib Require Import ZArith List Lia Bool String Ascii.
From S2P Require Import Prelude Calendar Strptime Dataset.
Import ListNotations PyDate Dataset.

Module Tokenizer.

(** ** The tokenizer's characters and states *)

Definition SEP : ascii := ";".
Definition QUOTE : ascii := "034".
Definition LF : ascii := "010".
Definition CR : ascii := "013".

(** [IS_WHITESPACE]: a space or a tab. *)
Definition IS_WHITESPACE (c : ascii) : bool := Ascii.eqb c " " || Ascii.eqb c "009".

Inductive ParserState :=
| START_RECORD
| START_FIELD
| IN_FIELD
| IN_QUOTED_FIELD
| QUOTE_IN_QUOTED_FIELD
| WHITESPACE_LINE
| EAT_CRNL
| EAT_CRNL_NOP.

(** The parser: its state, the bytes of the field being read (last
    first), the fields of the line being read (last first), the
    finished lines (last first, so [lines] is their number) and
    [file_lines], the physical lines read including the skipped ones. *)
Record parser_t := mkParser {
  state : ParserState;
  stream : list ascii;
  line_fields : list string;
  lines : list (list string);
  file_lines : nat }.

(** What the loop of [tokenize_bytes] does after a byte. *)
Inductive hareket :=
| Ilerle      (* the byte is consumed *)
| TekrarOku   (* [--i; --buf]: the byte is read again *)
| GeriDon.    (* back up to the first byte after the last line feed *)

Definition set_state (s : ParserState) (p : parser_t) : parser_t :=
  mkParser s (stream p) (line_fields p) (lines p) (file_lines p).

(** [PUSH_CHAR]. *)
Definition push_char (c : ascii) (p : parser_t) : parser_t :=
  mkParser (state p) (c :: stream p) (line_fields p) (lines p) (file_lines p).

(** [end_field]: the bytes read become a field of the line. *)
Definition end_field (p : parser_t) : parser_t :=
  mkParser (state p) [] (string_of_list_ascii (rev (stream p)) :: line_fields p)
    (lines p) (file_lines p).

Definition incr_file_lines (p : parser_t) : parser_t :=
  mkParser (state p) (stream p) (line_fields p) (lines p) (S (file_lines p)).

Definition nat_str (n : nat) : string := string_of_list_ascii (py_str_int (Z.of_nat n)).

Definition tokenizing_error (msg : string) : exn :=
  ValueError ("Error tokenizing data. C error: " ++ msg).

(** [end_line] with [header=0]: from the second data line on, a line
    with more fields than the one before is an error; from the first
    data line on, a shorter line gets empty fields at its end. *)
Definition end_line (p : parser_t) : result parser_t :=
  let fields := List.length (line_fields p) in
  let nlines := List.length (lines p) in
  let ex_fields := match lines p with l :: _ => List.length l | [] => O end in
  if (1 <? nlines)%nat && (ex_fields <? fields)%nat then
    Err (tokenizing_error ("Expected " ++ nat_str ex_fields ++ " fields in line "
           ++ nat_str (S (file_lines p)) ++ ", saw " ++ nat_str fields ++ String LF EmptyString))
  else
    let padded := if (1 <=? nlines)%nat && (fields <? ex_fields)%nat
                  then (repeat EmptyString (ex_fields - fields) ++ line_fields p)%list
                  else line_fields p in
    Ok (mkParser (state p) (stream p) [] (rev padded :: lines p) (S (file_lines p))).

(** [END_LINE_STATE(s)]. *)
Definition end_line_state (s : ParserState) (p : parser_t) : result parser_t :=
  p' <- end_line p ;; Ok (set_state s p').

Definition ilerle (p : parser_t) : result (parser_t * hareket) := Ok (p, Ilerle).

(** ** One byte in each state *)

Definition start_field (p : parser_t) (c : ascii) : result (parser_t * hareket) :=
  if Ascii.eqb c LF then p' <- end_line_state START_RECORD (end_field p) ;; ilerle p'
  else if Ascii.eqb c CR then ilerle (set_state EAT_CRNL (end_field p))
  else if Ascii.eqb c QUOTE then ilerle (set_state IN_QUOTED_FIELD p)
  else if Ascii.eqb c SEP then ilerle (end_field p)
  else ilerle (set_state IN_FIELD (push_char c p)).

(** [START_RECORD] skips blank lines and enters [WHITESPACE_LINE] on
    a leading space; any other byte falls through to [START_FIELD]. *)
Definition start_record (p : parser_t) (c : ascii) : result (parser_t * hareket) :=
  if Ascii.eqb c LF then ilerle (incr_file_lines p)
  else if Ascii.eqb c CR then ilerle (set_state EAT_CRNL_NOP (incr_file_lines p))
  else if IS_WHITESPACE c && negb (Ascii.eqb c SEP) then ilerle (set_state WHITESPACE_LINE p)
  else start_field (set_state START_FIELD p) c.

Definition in_field (p : parser_t) (c : ascii) : result (parser_t * hareket) :=
  if Ascii.eqb c LF then p' <- end_line_state START_RECORD (end_field p) ;; ilerle p'
  else if Ascii.eqb c CR then ilerle (set_state EAT_CRNL (end_field p))
  else if Ascii.eqb c SEP then ilerle (set_state START_FIELD (end_field p))
  else ilerle (push_char c p).

Definition in_quoted_field (p : parser_t) (c : ascii) : result (parser_t * hareket) :=
  if Ascii.eqb c QUOTE then ilerle (set_state QUOTE_IN_QUOTED_FIELD p)
  else ilerle (push_char c p).

Definition quote_in_quoted_field (p : parser_t) (c : ascii) : result (parser_t * hareket) :=
  if Ascii.eqb c QUOTE then ilerle (set_state IN_QUOTED_FIELD (push_char c p))
  else if Ascii.eqb c SEP then ilerle (set_state START_FIELD (end_field p))
  else if Ascii.eqb c LF then p' <- end_line_state START_RECORD (end_field p) ;; ilerle p'
  else if Ascii.eqb c CR then ilerle (set_state EAT_CRNL (end_field p))
  else ilerle (set_state IN_FIELD (push_char c p)).

(** A line of blanks so far: a line feed or carriage return skips it,
    anything else backs up to the start of the line in [START_FIELD]. *)
Definition whitespace_line (p : parser_t) (c : ascii) : result (parser_t * hareket) :=
  if Ascii.eqb c LF then ilerle (set_state START_RECORD (incr_file_lines p))
  else if Ascii.eqb c CR then ilerle (set_state EAT_CRNL_NOP (incr_file_lines p))
  else if IS_WHITESPACE c && negb (Ascii.eqb c SEP) then ilerle p
  else Ok (set_state START_FIELD p, GeriDon).

Definition eat_crnl (p : parser_t) (c : ascii) : result (parser_t * hareket) :=
  if Ascii.eqb c LF then p' <- end_line_state START_RECORD p ;; ilerle p'
  else if Ascii.eqb c SEP then p' <- end_line p ;; ilerle (set_state START_FIELD (end_field p'))
  else p' <- end_line_state START_RECORD p ;; Ok (p', TekrarOku).

Definition eat_crnl_nop (p : parser_t) (c : ascii) : result (parser_t * hareket) :=
  if Ascii.eqb c LF || Ascii.eqb c SEP then ilerle (set_state START_RECORD p)
  else Ok (set_state START_RECORD p, TekrarOku).

(** The [switch (self->state)] of the loop body. *)
Definition adim (p : parser_t) (c : ascii) : result (parser_t * hareket) :=
  match state p with
  | START_RECORD => start_record p c
  | START_FIELD => start_field p c
  | IN_FIELD => in_field p c
  | IN_QUOTED_FIELD => in_quoted_field p c
  | QUOTE_IN_QUOTED_FIELD => quote_in_quoted_field p c
  | WHITESPACE_LINE => whitespace_line p c
  | EAT_CRNL => eat_crnl p c
  | EAT_CRNL_NOP => eat_crnl_nop p c
  end.

(** ** The loop over the bytes *)

(** [since_lf] holds the bytes read since the last line feed, last
    first: the backtrack of [WHITESPACE_LINE] reads them again. *)
Definition kaydet (c : ascii) (since_lf : list ascii) : list ascii :=
  if Ascii.eqb c LF then [] else c :: since_lf.

Fixpoint tokenize_bytes (fuel : nat) (p : parser_t) (since_lf : list ascii) (cs : list ascii)
    : result parser_t :=
  match fuel with
  | O => Err FuelExhausted
  | S fuel' =>
      match cs with
      | [] => Ok p
      | c :: r =>
          st <- adim p c ;;
          let '(p', h) := st in
          match h with
          | Ilerle => tokenize_bytes fuel' p' (kaydet c since_lf) r
          | TekrarOku => tokenize_bytes fuel' p' since_lf cs
          | GeriDon => tokenize_bytes fuel' p' [] (rev since_lf ++ cs)%list
          end
      end
  end.

(** [parser_handle_eof]. *)
Definition parser_handle_eof (p : parser_t) : result parser_t :=
  match state p with
  | START_RECORD | WHITESPACE_LINE | EAT_CRNL_NOP => Ok p
  | IN_QUOTED_FIELD =>
      Err (tokenizing_error ("EOF inside string starting at row " ++ nat_str (file_lines p)))
  | IN_FIELD | START_FIELD | QUOTE_IN_QUOTED_FIELD => end_line (end_field p)
  | EAT_CRNL => end_line p
  end.

Definition parser_new : parser_t := mkParser START_RECORD [] [] [] O.

(** Three steps a byte bound every run (a byte is read at most twice
    and a backtrack costs one step); the termination theorem shows the
    smaller bound [2 n + 2] is enough on files whose carriage returns
    end lines. *)
Definition yakit (cs : list ascii) : nat := 3 * List.length cs + 2.

(** The lines of a file, the header first. *)
Definition tokenize (s : string) : result (list (list string)) :=
  let cs := list_ascii_of_string s in
  p <- tokenize_bytes (yakit cs) parser_new [] cs ;;
  p' <- parser_handle_eof p ;;
  Ok (rev (lines p')).

End Tokenizer.

Module Frame.
Import Tokenizer.

(** ** The frame [read_csv] returns *)

(** pandas' [STR_NA_VALUES]: the fields read as missing values. *)
Definition STR_NA_VALUES : list string :=
  [""; "#N/A"; "#N/A N/A"; "#NA"; "-1.#IND"; "-1.#QNAN"; "-NaN"; "-nan"; "1.#IND";
   "1.#QNAN"; "<NA>"; "N/A"; "NA"; "NULL"; "NaN"; "None"; "n/a"; "nan"; "null"]%string.

Definition na_value (s : string) : option string :=
  if existsb (String.eqb s) STR_NA_VALUES then None else Some s.

(** The column names and, per data row, its cells ([None] for a
    missing value). *)
Record DataFrame := mkFrame {
  columns : list string;
  data : list (list (option string)) }.

(** The header is the first line. When the first data line has more
    fields than the header, the extra leading fields are the index. *)
Definition read_csv (s : string) : result DataFrame :=
  ls <- tokenize s ;;
  match ls with
  | [] => Err (ValueError "No columns to parse from file")
  | header :: rows =>
      let index_cols := match rows with
                        | r :: _ => (List.length r - List.length header)%nat
                        | [] => O
                        end in
      Ok (mkFrame header (map (fun r => map na_value (skipn index_cols r)) rows))
  end.

Fixpoint index_of (x : string) (l : list string) : option nat :=
  match l with
  | [] => None
  | y :: l' => if String.eqb x y then Some O else option_map S (index_of x l')
  end.

(** [df[name]]: the first column of that name (a repeated name is
    renamed [name.1], ...), or [KeyError]. *)
Definition getitem (df : DataFrame) (name : string) : result (list (option string)) :=
  match index_of name (columns df) with
  | Some i => Ok (map (fun r => nth i r None) (data df))
  | None => Err (KeyError name)
  end.

End Frame.

Module Prepare.
Import Frame.

(** ** From the file to the training rows *)

(** The targets of the four [fit] calls, lines 36-39, in their order. *)
Definition SAYI_SUTUNLARI : list string :=
  ["Davet Edilen Aday Sayısı"; "Teyit Veren Aday Sayısı";
   "Teyit Vermeyen Aday Sayısı"; "Sınava Katılan Aday Sayısı"]%string.

(** A count column the model covers: integer literals and missing
    values ([int64] or [float64]). *)
Definition sayisal (cells : list (option string)) : bool :=
  match infer_dtype cells with ObjectDtype => false | _ => true end.

(** A missing count in a row whose date survived [dropna]. *)
Definition nan_kaldi (dates : list (option date)) (cells : list (option string)) : bool :=
  existsb (fun '(d, c) => match d, c with Some _, None => true | _, _ => false end)
    (combine dates cells).

(** Lines 36-39, in order: [df[name]] or [KeyError]; [fit] on an
    empty frame fails; a [NaN] target fails. [None]: a column of other
    text, outside the model. *)
Fixpoint hedef_sutunlari (df : DataFrame) (dates : list (option date)) (names : list string)
    : result (option (list (list (option string)))) :=
  match names with
  | [] => Ok (Some [])
  | n :: ns =>
      cells <- getitem df n ;;
      if forallb (fun d => match d with Some _ => false | None => true end) dates
      then Err bos_veri_hatasi
      else if negb (sayisal cells) then Ok None
      else if nan_kaldi dates cells then Err (ValueError "Input y contains NaN.")
      else rest <- hedef_sutunlari df dates ns ;; Ok (option_map (cons cells) rest)
  end.

Definition sayi_hucresi (c : option string) : Z :=
  match c with Some s => literal_value s | None => 0%Z end.

Fixpoint satirlari_kur (t d ty tn k : list (option string)) : list RawRow :=
  match t, d, ty, tn, k with
  | t0 :: t', d0 :: d', ty0 :: ty', tn0 :: tn', k0 :: k' =>
      mkRaw t0 (sayi_hucresi d0) (sayi_hucresi ty0) (sayi_hucresi tn0) (sayi_hucresi k0)
        :: satirlari_kur t' d' ty' tn' k'
  | _, _, _, _, _ => []
  end.

(** Lines 15-39 up to the fitting: the rows of the file that the
    program trains on (before [dropna], as [load_and_prepare_data]
    takes them), or the exception raised first. *)
Definition egitim_verisi (s : string) : result (option (list RawRow)) :=
  df <- read_csv s ;;
  tarih <- getitem df "Tarih" ;;
  cols <- hedef_sutunlari df (tarih_hucreleri tarih) SAYI_SUTUNLARI ;;
  Ok (match cols with
      | Some [d; ty; tn; k] => Some (satirlari_kur tarih d ty tn k)
      | _ => None
      end).

End Prepare.

Module Writer.
Import Tokenizer.

(** ** A reference writer

    The specification of the reader: [csv.writer] with
    [quoting=csv.QUOTE_ALL], the delimiter [';'] and the line
    terminator ["\n"]. Every field is quoted and a quote inside a field
    is doubled. *)

Fixpoint kacir (cs : list ascii) : list ascii :=
  match cs with
  | [] => []
  | c :: r => if Ascii.eqb c QUOTE then QUOTE :: QUOTE :: kacir r else c :: kacir r
  end.

Definition alan_yaz (f : string) : list ascii :=
  QUOTE :: kacir (list_ascii_of_string f) ++ [QUOTE].

Fixpoint satir_yaz (r : list string) : list ascii :=
  match r with
  | [] => [LF]
  | [f] => alan_yaz f ++ [LF]
  | f :: fs => alan_yaz f ++ SEP :: satir_yaz fs
  end.

Definition csv_yaz (rows : list (list string)) : string :=
  string_of_list_ascii (flat_map satir_yaz rows).






End Writer.

Module Kontrol.
Import Tokenizer.

(** ** The control automaton

    [gecis] is the state the handler of a state moves to on a byte,
    and the move of the loop: the part of [adim] that does not depend
    on the data. *)

Definition alan_gecisi (c : ascii) : ParserState * hareket :=
  if Ascii.eqb c LF then (START_RECORD, Ilerle)
  else if Ascii.eqb c CR then (EAT_CRNL, Ilerle)
  else if Ascii.eqb c QUOTE then (IN_QUOTED_FIELD, Ilerle)
  else if Ascii.eqb c SEP then (START_FIELD, Ilerle)
  else (IN_FIELD, Ilerle).

Definition gecis (s : ParserState) (c : ascii) : ParserState * hareket :=
  match s with
  | START_RECORD =>
      if Ascii.eqb c LF then (START_RECORD, Ilerle)
      else if Ascii.eqb c CR then (EAT_CRNL_NOP, Ilerle)
      else if IS_WHITESPACE c && negb (Ascii.eqb c SEP) then (WHITESPACE_LINE, Ilerle)
      else alan_gecisi c
  | START_FIELD => alan_gecisi c
  | IN_FIELD =>
      if Ascii.eqb c LF then (START_RECORD, Ilerle)
      else if Ascii.eqb c CR then (EAT_CRNL, Ilerle)
      else if Ascii.eqb c SEP then (START_FIELD, Ilerle)
      else (IN_FIELD, Ilerle)
  | IN_QUOTED_FIELD =>
      if Ascii.eqb c QUOTE then (QUOTE_IN_QUOTED_FIELD, Ilerle) else (IN_QUOTED_FIELD, Ilerle)
  | QUOTE_IN_QUOTED_FIELD =>
      if Ascii.eqb c QUOTE then (IN_QUOTED_FIELD, Ilerle)
      else if Ascii.eqb c SEP then (START_FIELD, Ilerle)
      else if Ascii.eqb c LF then (START_RECORD, Ilerle)
      else if Ascii.eqb c CR then (EAT_CRNL, Ilerle)
      else (IN_FIELD, Ilerle)
  | WHITESPACE_LINE =>
      if Ascii.eqb c LF then (START_RECORD, Ilerle)
      else if Ascii.eqb c CR then (EAT_CRNL_NOP, Ilerle)
      else if IS_WHITESPACE c && negb (Ascii.eqb c SEP) then (WHITESPACE_LINE, Ilerle)
      else (START_FIELD, GeriDon)
  | EAT_CRNL =>
      if Ascii.eqb c LF then (START_RECORD, Ilerle)
      else if Ascii.eqb c SEP then (START_FIELD, Ilerle)
      else (START_RECORD, TekrarOku)
  | EAT_CRNL_NOP =>
      if Ascii.eqb c LF || Ascii.eqb c SEP then (START_RECORD, Ilerle)
      else (START_RECORD, TekrarOku)
  end.

(** The bytes still to read and the bytes since the last line feed
    after a move of the loop, as [tokenize_bytes] computes them. *)
Definition sonraki (h : hareket) (c : ascii) (since r : list ascii) : list ascii * list ascii :=
  match h with
  | Ilerle => (kaydet c since, r)
  | TekrarOku => (since, c :: r)
  | GeriDon => ([], rev since ++ c :: r)
  end.

(** Every carriage return ends a line: a line feed or the end of the
    file follows it. *)
Fixpoint crlf (cs : list ascii) : bool :=
  match cs with
  | [] => true
  | c :: r =>
      (if Ascii.eqb c CR then match r with [] => true | d :: _ => Ascii.eqb d LF end else true)
      && crlf r
  end.

(** The bytes up to the next line feed. *)
Fixpoint satir_boyu (cs : list ascii) : nat :=
  match cs with
  | [] => O
  | c :: r => if Ascii.eqb c LF then O else S (satir_boyu r)
  end.

(** The states of a line that may still back up. *)
Definition bosluk_basi (s : ParserState) : bool :=
  match s with START_RECORD | WHITESPACE_LINE => true | _ => false end.

(** A bound on the steps left: a byte of a line that may still back up
    counts twice, and so do the bytes after the next line feed. *)
Definition potansiyel (s : ParserState) (since rest : list ascii) : nat :=
  if bosluk_basi s then 2 * List.length rest + List.length since + 1
  else 2 * List.length rest - satir_boyu rest.

(** The invariant of a run on a file whose carriage returns end lines. *)
Definition tok_inv (s : ParserState) (since rest : list ascii) : bool :=
  crlf rest
  && match s with
     | EAT_CRNL | EAT_CRNL_NOP => match rest with [] => true | d :: _ => Ascii.eqb d LF end
     | _ => true
     end
  && (negb (bosluk_basi s) || forallb IS_WHITESPACE since).

(** The lines read so far, last first, form a table: a header, then
    data lines of one width [n] at least the header's. *)
Definition dikdortgen (ls : list (list string)) : Prop :=
  match ls with
  | [] | [_] => True
  | _ => exists ds h n, ls = ds ++ [h] /\ (List.length h <= n)%nat
                        /\ Forall (fun r => List.length r = n) ds
  end.

End Kontrol.

Module Facts.
Import Tokenizer Frame Prepare Writer Kontrol.
Local Open Scope nat_scope.

(** ** The loop on a byte the handler consumes or rejects *)

Lemma tb_ilerle fuel p p' since c r :
  adim p c = Ok (p', Ilerle) ->
  tokenize_bytes (S fuel) p since (c :: r) = tokenize_bytes fuel p' (kaydet c since) r.
Proof. intros H. cbn [tokenize_bytes]. rewrite H. reflexivity. Qed.

Lemma tb_hata fuel p since c r e :
  adim p c = Err e -> tokenize_bytes (S fuel) p since (c :: r) = Err e.
Proof. intros H. cbn [tokenize_bytes]. rewrite H. reflexivity. Qed.

Lemma end_line_state_set s x p :
  end_line_state s (set_state x p) = end_line_state s p.
Proof.
  destruct p. unfold end_line_state, end_line, set_state. cbn [lines line_fields file_lines stream state].
  destruct (_ && _); reflexivity.
Qed.

(** A complete line of [n] fields after lines of [n] fields is kept
    as it is. *)
Lemma end_line_tam s sm r ls fl n :
  List.length r = n ->
  (ls = [] \/ exists l ls', ls = l :: ls' /\ List.length l = n) ->
  end_line (mkParser s sm (rev r) ls fl) = Ok (mkParser s sm [] (r :: ls) (S fl)).
Proof.
  intros Hr Hls. unfold end_line. cbn [lines line_fields file_lines stream state].
  rewrite length_rev, Hr.
  destruct Hls as [-> | (l & ls' & -> & Hl)].
  - cbn. rewrite rev_involutive. reflexivity.
  - rewrite Hl, Nat.ltb_irrefl, !andb_false_r, rev_involutive. reflexivity.
Qed.

(** ** The reference writer read back *)

Lemma tb_kacir cs : forall sm lf ls fl fuel since rest,
  exists since',
    tokenize_bytes (List.length (kacir cs) + fuel) (mkParser IN_QUOTED_FIELD sm lf ls fl) since
      (kacir cs ++ rest) =
    tokenize_bytes fuel (mkParser IN_QUOTED_FIELD (rev cs ++ sm) lf ls fl) since' rest.
Proof.
  induction cs as [|c cs IH]; intros sm lf ls fl fuel since rest; [exists since; reflexivity|].
  cbn [kacir]. destruct (Ascii.eqb_spec c QUOTE) as [->|Hc].
  - cbn [List.length app Nat.add].
    rewrite (tb_ilerle _ _ (mkParser QUOTE_IN_QUOTED_FIELD sm lf ls fl)) by reflexivity.
    rewrite (tb_ilerle _ _ (mkParser IN_QUOTED_FIELD (QUOTE :: sm) lf ls fl)) by reflexivity.
    destruct (IH (QUOTE :: sm) lf ls fl fuel (kaydet QUOTE (kaydet QUOTE since)) rest) as [s' E].
    exists s'. rewrite E. cbn [rev]. rewrite <- app_assoc. reflexivity.
  - cbn [List.length app Nat.add].
    rewrite (tb_ilerle _ _ (mkParser IN_QUOTED_FIELD (c :: sm) lf ls fl)).
    + destruct (IH (c :: sm) lf ls fl fuel (kaydet c since) rest) as [s' E].
      exists s'. rewrite E. cbn [rev]. rewrite <- app_assoc. reflexivity.
    + unfold adim, in_quoted_field. cbn [state]. apply Ascii.eqb_neq in Hc. rewrite Hc. reflexivity.
Qed.

Lemma tb_alan f s lf ls fl fuel since rest :
  s = START_RECORD \/ s = START_FIELD ->
  exists since',
    tokenize_bytes (List.length (alan_yaz f) + fuel) (mkParser s [] lf ls fl) since
      (alan_yaz f ++ rest) =
    tokenize_bytes fuel (mkParser QUOTE_IN_QUOTED_FIELD (rev (list_ascii_of_string f)) lf ls fl)
      since' rest.
Proof.
  intros Hs. unfold alan_yaz. set (l := list_ascii_of_string f).
  replace (List.length (QUOTE :: kacir l ++ [QUOTE]) + fuel)
    with (S (List.length (kacir l) + S fuel)) by (cbn; rewrite length_app; cbn; lia).
  cbn [app]. rewrite <- app_assoc. cbn [app].
  rewrite (tb_ilerle _ _ (mkParser IN_QUOTED_FIELD [] lf ls fl))
    by (destruct Hs as [-> | ->]; reflexivity).
  destruct (tb_kacir l [] lf ls fl (S fuel) (kaydet QUOTE since) (QUOTE :: rest)) as [s' E].
  rewrite E, app_nil_r.
  exists (kaydet QUOTE s'). apply tb_ilerle. reflexivity.
Qed.
Lemma tb_satir r : forall s lf ls fl fuel since rest,
  r <> [] -> s = START_RECORD \/ s = START_FIELD ->
  tokenize_bytes (List.length (satir_yaz r) + fuel) (mkParser s [] lf ls fl) since
    (satir_yaz r ++ rest) =
  match end_line_state START_RECORD (mkParser START_FIELD [] (rev r ++ lf) ls fl) with
  | Ok p' => tokenize_bytes fuel p' [] rest
  | Err e => Err e
  end.
Proof.
  induction r as [|f fs IH]; intros s lf ls fl fuel since rest Hne Hs; [congruence|].
  destruct fs as [|g gs].
  - cbn [satir_yaz]. rewrite length_app, <- app_assoc, <- Nat.add_assoc. cbn [List.length app].
    destruct (tb_alan f s lf ls fl (1 + fuel) since (LF :: rest) Hs) as [s' ->].
    change (1 + fuel) with (S fuel). cbn [tokenize_bytes]. unfold adim, quote_in_quoted_field. cbn [state].
    unfold end_field. cbn [stream line_fields lines file_lines].
    rewrite rev_involutive, string_of_list_ascii_of_string.
    rewrite <- (end_line_state_set START_RECORD START_FIELD). cbn [rev app].
    destruct (end_line_state START_RECORD _); reflexivity.
  - change (satir_yaz (f :: g :: gs)) with (alan_yaz f ++ SEP :: satir_yaz (g :: gs)).
    rewrite length_app, <- app_assoc, <- Nat.add_assoc. cbn [List.length app].
    change (S (List.length (satir_yaz (g :: gs))) + fuel)
      with (S (List.length (satir_yaz (g :: gs)) + fuel)).
    destruct (tb_alan f s lf ls fl (S (List.length (satir_yaz (g :: gs)) + fuel)) since
                (SEP :: satir_yaz (g :: gs) ++ rest) Hs) as [s' ->].
    rewrite (tb_ilerle _ _ (mkParser START_FIELD [] (f :: lf) ls fl)).
    + rewrite (IH START_FIELD (f :: lf) ls fl fuel (kaydet SEP s') rest); [|discriminate|now right].
      change (rev (f :: g :: gs)) with (rev (g :: gs) ++ [f]). rewrite <- app_assoc. reflexivity.
    + unfold adim, quote_in_quoted_field, end_field. cbn [state stream line_fields lines file_lines].
      rewrite rev_involutive, string_of_list_ascii_of_string. reflexivity.
Qed.

(** Rows of [n] fields, after lines of [n] fields, are read as they
    are written. *)
Lemma tb_dosya rows n : forall ls fl fuel since rest,
  n <> 0 -> Forall (fun r => List.length r = n) rows ->
  (ls = [] \/ exists l ls', ls = l :: ls' /\ List.length l = n) ->
  exists since',
    tokenize_bytes (List.length (flat_map satir_yaz rows) + fuel) (mkParser START_RECORD [] [] ls fl)
      since (flat_map satir_yaz rows ++ rest) =
    tokenize_bytes fuel (mkParser START_RECORD [] [] (rev rows ++ ls) (List.length rows + fl)) since' rest.
Proof.
  induction rows as [|r rows IH]; intros ls fl fuel since rest Hn Hall Hls; [exists since; reflexivity|].
  inversion Hall as [|? ? Hr Hrows]; subst.
  cbn [flat_map]. rewrite length_app, <- Nat.add_assoc, <- app_assoc.
  rewrite tb_satir by (auto; intros ->; cbn in Hn; congruence).
  rewrite app_nil_r. unfold end_line_state. rewrite (end_line_tam _ _ _ _ _ (List.length r)) by auto.
  cbn [bind set_state stream line_fields lines file_lines].
  destruct (IH (r :: ls) (S fl) fuel [] rest Hn Hrows) as [s' E]; [right; eauto|].
  exists s'. unfold set_state. cbn [stream line_fields lines file_lines]. rewrite E.
  cbn [rev List.length]. rewrite <- app_assoc, Nat.add_succ_r. reflexivity.
Qed.
(** ** The control automaton refines the handlers *)

Lemma end_line_state_ok s q q' : end_line_state s q = Ok q' -> state q' = s.
Proof. unfold end_line_state. destruct (end_line q); cbn; [intros [= <-]; reflexivity | discriminate]. Qed.

(** The branches of [adim] on the state of [p] and the tests of the byte. *)
Local Ltac adim_dallari p :=
  unfold adim; destruct (state p) eqn:Es;
  unfold start_record, start_field, in_field, in_quoted_field, quote_in_quoted_field,
    whitespace_line, eat_crnl, eat_crnl_nop, alan_gecisi, ilerle;
  repeat match goal with |- context [if ?b then _ else _] => destruct b end.

(** Every byte a handler accepts moves the control as [gecis] says. *)
Lemma adim_gecis p c p' h : adim p c = Ok (p', h) -> (state p', h) = gecis (state p) c.
Proof.
  unfold gecis. adim_dallari p;
    try (intros [= <- <-]; cbn [state incr_file_lines end_field push_char set_state];
         rewrite ?Es; reflexivity);
    match goal with
    | |- bind (end_line_state ?s ?q) _ = _ -> _ =>
        destruct (end_line_state s q) eqn:E; cbn [bind]; [|discriminate];
        intros [= <- <-]; apply end_line_state_ok in E; rewrite E; reflexivity
    | |- bind (end_line ?q) _ = _ -> _ =>
        destruct (end_line q) eqn:E; cbn [bind]; [|discriminate]; intros [= <- <-]; reflexivity
    end.
Qed.

Lemma end_line_hata q e : end_line q = Err e -> exists m, e = tokenizing_error m.
Proof. unfold end_line. destruct (_ && _); [intros [= <-]; eauto | discriminate]. Qed.

Lemma end_line_state_hata s q e : end_line_state s q = Err e -> exists m, e = tokenizing_error m.
Proof. unfold end_line_state. destruct (end_line q) eqn:E; [discriminate|]. intros [= <-]. eauto using end_line_hata. Qed.

(** The handlers raise nothing but the tokenizer's [ParserError]. *)
Lemma adim_hata p c e : adim p c = Err e -> exists m, e = tokenizing_error m.
Proof.
  adim_dallari p; try discriminate;
    match goal with
    | |- bind (end_line_state ?s ?q) _ = _ -> _ =>
        destruct (end_line_state s q) eqn:E; cbn [bind]; [discriminate|];
        intros [= <-]; eauto using end_line_state_hata
    | |- bind (end_line ?q) _ = _ -> _ =>
        destruct (end_line q) eqn:E; cbn [bind]; [discriminate|]; intros [= <-]; eauto using end_line_hata
    end.
Qed.

(** ** Termination on files whose carriage returns end lines *)

Lemma karakter_sinifi c :
  c = LF \/ c = CR \/ c = QUOTE \/ c = SEP \/ c = " "%char \/ c = "009"%char \/
  (Ascii.eqb c LF = false /\ Ascii.eqb c CR = false /\ Ascii.eqb c QUOTE = false /\
   Ascii.eqb c SEP = false /\ IS_WHITESPACE c = false).
Proof.
  unfold IS_WHITESPACE.
  destruct (Ascii.eqb_spec c LF); [now left|]. destruct (Ascii.eqb_spec c CR); [now do 1 right; left|].
  destruct (Ascii.eqb_spec c QUOTE); [now do 2 right; left|].
  destruct (Ascii.eqb_spec c SEP); [now do 3 right; left|].
  destruct (Ascii.eqb_spec c " "); [now do 4 right; left|].
  destruct (Ascii.eqb_spec c "009"); [now do 5 right; left|]. do 6 right. auto.
Qed.

Lemma satir_boyu_le l : satir_boyu l <= List.length l.
Proof. induction l as [|c l IH]; cbn; [lia|]. destruct (Ascii.eqb c LF); lia. Qed.

Lemma forallb_rev {A} (f : A -> bool) l : forallb f (rev l) = forallb f l.
Proof.
  induction l as [|x l IH]; [reflexivity|]. cbn [rev]. rewrite forallb_app, IH. cbn.
  rewrite andb_true_r, andb_comm. reflexivity.
Qed.

Lemma bosluk_crlf w l : forallb IS_WHITESPACE w = true -> crlf (w ++ l) = crlf l.
Proof.
  induction w as [|c w IH]; [reflexivity|]. cbn [forallb app crlf].
  intros [Hc Hw]%andb_true_iff. rewrite IH by exact Hw.
  destruct (Ascii.eqb_spec c CR) as [->|]; [discriminate Hc | reflexivity].
Qed.

Lemma bosluk_satir_boyu w l :
  forallb IS_WHITESPACE w = true -> satir_boyu (w ++ l) = List.length w + satir_boyu l.
Proof.
  induction w as [|c w IH]; [reflexivity|]. cbn [forallb app satir_boyu List.length].
  intros [Hc Hw]%andb_true_iff. rewrite IH by exact Hw.
  destruct (Ascii.eqb_spec c LF) as [->|]; [discriminate Hc | reflexivity].
Qed.

(** Rewrites with the known results of the byte tests and computes. *)
Local Ltac tok_simpl :=
  cbn [crlf satir_boyu bosluk_basi Ascii.eqb forallb IS_WHITESPACE List.length negb andb orb
       LF CR QUOTE SEP Bool.eqb] in *;
  repeat match goal with
  | E : Ascii.eqb ?c ?x = false |- context [Ascii.eqb ?c ?x] => rewrite E
  | E : IS_WHITESPACE ?c = false |- context [IS_WHITESPACE ?c] => rewrite E
  | E : Ascii.eqb ?c ?x = false, H : context [Ascii.eqb ?c ?x] |- _ => rewrite E in H
  | E : IS_WHITESPACE ?c = false, H : context [IS_WHITESPACE ?c] |- _ => rewrite E in H
  end;
  cbn [bosluk_basi forallb List.length negb andb orb] in *.

(** Every move of the control keeps the invariant and lowers the bound. *)
Lemma gecis_azalir s c since r :
  tok_inv s since (c :: r) = true ->
  let '(s', h) := gecis s c in
  let '(since', r') := sonraki h c since r in
  tok_inv s' since' r' = true /\ potansiyel s' since' r' < potansiyel s since (c :: r).
Proof.
  pose proof (satir_boyu_le r) as Hle.
  destruct (karakter_sinifi c) as [->|[->|[->|[->|[->|[->|(E1 & E2 & E3 & E4 & E5)]]]]]];
    destruct s; unfold tok_inv, potansiyel, gecis, alan_gecisi, sonraki, kaydet; intros H;
    tok_simpl; split_andb; try discriminate;
    rewrite ?bosluk_crlf, ?bosluk_satir_boyu, ?length_app, ?length_rev
      by (rewrite forallb_rev; assumption);
    tok_simpl; (split; [repeat rewrite andb_true_iff; repeat split; auto | lia]).
Qed.

Lemma tb_sonlanir fuel : forall p since cs,
  tok_inv (state p) since cs = true -> potansiyel (state p) since cs < fuel ->
  tokenize_bytes fuel p since cs <> Err FuelExhausted.
Proof.
  induction fuel as [|f IH]; intros p since cs Hi Hp; [lia|].
  destruct cs as [|c r]; [discriminate|]. cbn [tokenize_bytes].
  destruct (adim p c) as [[p' h]|e] eqn:E; cbn [bind].
  - pose proof (gecis_azalir (state p) c since r Hi) as G.
    rewrite <- (adim_gecis p c p' h E) in G.
    destruct h; cbn [sonraki] in G; destruct G as [G1 G2]; apply IH; auto; lia.
  - apply adim_hata in E as [m ->]. discriminate.
Qed.
Lemma parser_handle_eof_hata p e : parser_handle_eof p = Err e -> exists m, e = tokenizing_error m.
Proof.
  unfold parser_handle_eof. destruct (state p); try discriminate;
    try (intros [= <-]; eauto; fail); apply end_line_hata.
Qed.

(** ** The lines form a table *)

Lemma dolgu_boyu k f m (L : list string) :
  List.length L = f ->
  List.length (if (1 <=? k) && (f <? m) then repeat EmptyString (m - f) ++ L else L)%list
  = if (1 <=? k) then Nat.max f m else f.
Proof.
  intros <-. destruct (Nat.leb_spec 1 k); cbn [andb]; [|reflexivity].
  destruct (Nat.ltb_spec (List.length L) m); [rewrite length_app, repeat_length|]; lia.
Qed.

Lemma end_line_dikdortgen q q' : end_line q = Ok q' -> dikdortgen (lines q) -> dikdortgen (lines q').
Proof.
  unfold end_line. destruct (_ && _) eqn:Eb; [discriminate|]. intros [= <-]. cbn [lines].
  match goal with |- _ -> dikdortgen (rev ?pd :: _) =>
    set (x := rev pd);
    assert (Hx : List.length x = if 1 <=? List.length (lines q)
                                 then Nat.max (List.length (line_fields q))
                                        (match lines q with l :: _ => List.length l | [] => O end)
                                 else List.length (line_fields q))
      by (unfold x; rewrite length_rev; apply dolgu_boyu; reflexivity);
    clearbody x
  end.
  destruct (lines q) as [|l [|l' rest]] eqn:El; intros Hd; [exact I| |].
  - exists [x], l, (List.length x). cbn in Hx. split; [reflexivity|]. split; [lia|].
    repeat constructor.
  - destruct Hd as (ds & h & n & Hds & Hh & Hn). cbn [List.length] in Eb, Hx.
    destruct ds as [|d ds']; [destruct rest; discriminate|].
    injection Hds as <- Hds. inversion Hn as [|? ? Hl Hn']; subst.
    cbn [Nat.leb] in Hx.
    apply andb_false_iff in Eb as [Eb|Eb]; [apply Nat.ltb_ge in Eb; lia|]. apply Nat.ltb_ge in Eb.
    exists (x :: l :: ds'), h, (List.length l).
    split; [cbn; rewrite Hds; reflexivity|]. split; [lia|]. constructor; [lia|constructor; auto].
Qed.

Lemma end_line_state_dikdortgen s q q' :
  end_line_state s q = Ok q' -> dikdortgen (lines q) -> dikdortgen (lines q').
Proof.
  unfold end_line_state. destruct (end_line q) eqn:E; cbn [bind]; [|discriminate].
  intros [= <-]. apply (end_line_dikdortgen _ _ E).
Qed.

Lemma adim_dikdortgen p c p' h :
  adim p c = Ok (p', h) -> dikdortgen (lines p) -> dikdortgen (lines p').
Proof.
  adim_dallari p;
    try (intros [= <- <-]; cbn [lines incr_file_lines end_field push_char set_state]; auto; fail);
    match goal with
    | |- bind (end_line_state ?s ?q) _ = _ -> _ =>
        destruct (end_line_state s q) eqn:E; cbn [bind]; [|discriminate];
        intros [= <- <-]; apply (end_line_state_dikdortgen _ _ _ E)
    | |- bind (end_line ?q) _ = _ -> _ =>
        destruct (end_line q) eqn:E; cbn [bind]; [|discriminate]; intros [= <- <-];
        apply (end_line_dikdortgen _ _ E)
    end.
Qed.

Lemma tb_dikdortgen fuel : forall p since cs p',
  tokenize_bytes fuel p since cs = Ok p' -> dikdortgen (lines p) -> dikdortgen (lines p').
Proof.
  induction fuel as [|f IH]; intros p since cs p' H Hd; [discriminate|].
  destruct cs as [|c r]; cbn [tokenize_bytes] in H; [congruence|].
  destruct (adim p c) as [[q h]|e] eqn:E; cbn [bind] in H; [|discriminate].
  apply (adim_dikdortgen _ _ _ _ E) in Hd. destruct h; eauto.
Qed.

Lemma tokenize_dikdortgen s ls : tokenize s = Ok ls -> dikdortgen (rev ls).
Proof.
  unfold tokenize. destruct (tokenize_bytes _ _ _ _) as [p|] eqn:E; cbn [bind]; [|discriminate].
  destruct (parser_handle_eof p) as [p'|] eqn:F; cbn [bind]; [|discriminate].
  intros [= <-]. rewrite rev_involutive.
  pose proof (tb_dikdortgen _ _ _ _ _ E I) as Hd.
  unfold parser_handle_eof in F. destruct (state p);
    try (injection F as <-; exact Hd); try discriminate; eapply end_line_dikdortgen; eauto.
Qed.

Lemma dikdortgen_ileri h r rows :
  dikdortgen (rev (h :: r :: rows)) ->
  exists n, List.length h <= n /\ Forall (fun y => List.length y = n) (r :: rows).
Proof.
  change (rev (h :: r :: rows)) with (rev (r :: rows) ++ [h]).
  destruct (rev (r :: rows)) as [|x xs] eqn:Ex.
  { apply (f_equal (@List.length _)) in Ex. rewrite length_rev in Ex. discriminate Ex. }
  intros E. assert (E' : exists ds h' n, (x :: xs) ++ [h] = ds ++ [h'] /\ List.length h' <= n
                          /\ Forall (fun y => List.length y = n) ds)
    by (destruct xs; exact E).
  destruct E' as (ds & h' & n & Hds & Hh & Hn). apply app_inj_tail in Hds as [<- <-].
  exists n. split; [exact Hh|]. rewrite <- Ex in Hn. apply Forall_rev in Hn.
  rewrite rev_involutive in Hn. exact Hn.
Qed.

(** ** The history file read back *)









Lemma index_of_None x l : ~ In x l -> index_of x l = None.
Proof.
  induction l as [|y l IH]; intros Hx; [reflexivity|]. cbn [index_of].
  destruct (String.eqb_spec x y) as [->|]; [destruct Hx; left; reflexivity|].
  rewrite IH; [reflexivity|]. intros H. apply Hx. right. exact H.
Qed.

(** ** Theorems *)

(** [(C16)] Termination of the tokenizer: on every file whose carriage
    returns end lines (a line feed or the end of the file follows each
    one), the loop over the bytes ends within its fuel: [tokenize]
    returns the lines or a [ParserError], never [FuelExhausted]. *)
Theorem tokenize_sonlanir s :
  crlf (list_ascii_of_string s) = true -> tokenize s <> Err FuelExhausted.
Proof.
  intros Hc. unfold tokenize. set (cs := list_ascii_of_string s).
  destruct (tokenize_bytes (yakit cs) parser_new [] cs) as [p|e] eqn:E; cbn [bind].
  - destruct (parser_handle_eof p) as [p'|e] eqn:F; cbn [bind]; [discriminate|].
    apply parser_handle_eof_hata in F as [m ->]. discriminate.
  - intros [= ->]. revert E. apply tb_sonlanir.
    + unfold tok_inv. cbn [state parser_new]. fold cs in Hc. rewrite Hc. reflexivity.
    + unfold potansiyel, yakit. cbn. lia.
Qed.


(** [(C17)] Every row of the frame [read_csv] returns has one cell per
    column: the tokenizer pads a short line with empty fields, rejects
    a line longer than the one before it, and the extra leading fields
    of the first data line are the index. *)
Theorem read_csv_dikdortgen s df :
  read_csv s = Ok df -> Forall (fun r => List.length r = List.length (columns df)) (data df).
Proof.
  unfold read_csv. destruct (tokenize s) as [ls|] eqn:E; cbn [bind]; [|discriminate].
  apply tokenize_dikdortgen in E.
  destruct ls as [|h rows]; [intros Hd; discriminate Hd|]. intros [= <-]. cbn [columns data].
  destruct rows as [|r rows]; [constructor|].
  destruct (dikdortgen_ileri _ _ _ E) as (n & Hh & Hall).
  inversion Hall as [|? ? Hr _]; subst. rewrite Forall_map.
  eapply Forall_impl; [|exact Hall]. intros y Hy. cbn beta iota in Hy |- *.
  rewrite length_map, length_skipn. lia.
Qed.

(** [(C18)] Error path of [end_line]: after a header and at least one
    data line of [n] fields, a line with more than [n] fields stops
    the read with pandas' [ParserError] "Expected n fields in line k,
    saw m", [k] its line number in the file. *)
Theorem tokenize_fazla_alan rows r rest n :
  n <> 0 -> Forall (fun x => List.length x = n) rows -> 2 <= List.length rows ->
  n < List.length r ->
  tokenize (csv_yaz (rows ++ r :: rest)) =
  Err (tokenizing_error ("Expected " ++ nat_str n ++ " fields in line "
         ++ nat_str (S (List.length rows)) ++ ", saw " ++ nat_str (List.length r)
         ++ String LF EmptyString)).
Proof.
  intros Hn Hall H2 Hr. unfold tokenize, csv_yaz, yakit.
  rewrite list_ascii_of_string_of_list_ascii, flat_map_app. cbn [flat_map].
  set (A := flat_map satir_yaz rows). set (B := satir_yaz r). set (C := flat_map satir_yaz rest).
  set (F := S (2 * List.length (A ++ B ++ C) + List.length C + 1)).
  replace (3 * List.length (A ++ B ++ C) + 2) with (List.length A + (List.length B + F))
    by (unfold F; rewrite !length_app; lia).
  destruct (tb_dosya rows n [] 0 (List.length B + F) [] (B ++ C) Hn Hall (or_introl eq_refl))
    as [s' E].
  fold A in E. unfold parser_new. rewrite E. unfold B.
  rewrite tb_satir by (auto; intros ->; cbn in Hr; lia).
  rewrite !app_nil_r, Nat.add_0_r. unfold end_line_state, end_line.
  cbn [line_fields lines file_lines]. rewrite length_rev.
  assert (Hrev : Forall (fun x => List.length x = n) (rev rows)) by (apply Forall_rev; exact Hall).
  assert (Hlen : List.length (rev rows) = List.length rows) by apply length_rev.
  destruct (rev rows) as [|l ls] eqn:Er; [cbn in Hlen; lia|].
  inversion Hrev as [|? ? Hl _]; subst n.
  rewrite ?length_rev.
  replace (1 <? List.length rows) with true by (symmetry; apply Nat.ltb_lt; lia).
  replace (List.length l <? List.length r) with true by (symmetry; apply Nat.ltb_lt; lia).
  reflexivity.
Qed.

(** Error path of line 16: a file whose header has no [Tarih]
    column makes [df['Tarih']] raise [KeyError('Tarih')] before any
    date is converted. *)
Theorem egitim_verisi_tarih_yok s df :
  read_csv s = Ok df -> ~ In "Tarih"%string (columns df) ->
  egitim_verisi s = Err (KeyError "Tarih").
Proof.
  intros Hr Hn. unfold egitim_verisi. rewrite Hr. cbn [bind].
  unfold getitem. rewrite index_of_None by exact Hn. reflexivity.
Qed.




(** ** Witnesses *)

Local Open Scope string_scope.

Lemma tokenize_sonlanir_witness :
  crlf (list_ascii_of_string ("a;b" ++ String CR (String LF (" 1;2" ++ String CR (String LF "")))))
  = true /\
  tokenize ("a;b" ++ String CR (String LF (" 1;2" ++ String CR (String LF "")))) <> Err FuelExhausted.
Proof. split; [vm_compute; reflexivity | apply tokenize_sonlanir; vm_compute; reflexivity]. Defined.

Lemma read_csv_dikdortgen_witness :
  read_csv ("a;b" ++ String LF ("1;2;3" ++ String LF "4")) =
    Ok (mkFrame ["a"; "b"] [[Some "2"; Some "3"]; [None; None]]) /\
  Forall (fun r => List.length r = List.length (columns (mkFrame ["a"; "b"] [[Some "2"; Some "3"]; [None; None]])))
    (data (mkFrame ["a"; "b"] [[Some "2"; Some "3"]; [None; None]])).
Proof.
  assert (H : read_csv ("a;b" ++ String LF ("1;2;3" ++ String LF "4")) =
                Ok (mkFrame ["a"; "b"] [[Some "2"; Some "3"]; [None; None]])) by (vm_compute; reflexivity).
  split; [exact H | exact (read_csv_dikdortgen _ _ H)].
Defined.

Lemma tokenize_fazla_alan_witness :
  Forall (fun x => List.length x = 2) [["a"; "b"]; ["1"; "2"]] /\
  tokenize (csv_yaz ([["a"; "b"]; ["1"; "2"]] ++ [["3"; "4"; "5"]])%list) =
  Err (tokenizing_error ("Expected 2 fields in line 3, saw 3" ++ String LF EmptyString)).
Proof.
  assert (H : Forall (fun x => List.length x = 2) [["a"; "b"]; ["1"; "2"]]%string)
    by (constructor; [reflexivity|]; constructor; [reflexivity|]; constructor).
  split; [exact H|].
  rewrite (tokenize_fazla_alan _ ["3"; "4"; "5"] [] 2 ltac:(discriminate) H ltac:(cbn; lia) ltac:(cbn; lia)).
  vm_compute. reflexivity.
Defined.

Lemma egitim_verisi_tarih_yok_witness :
  read_csv ("a;b" ++ String LF "1;2") = Ok (mkFrame ["a"; "b"] [[Some "1"; Some "2"]]) /\
  egitim_verisi ("a;b" ++ String LF "1;2") = Err (KeyError "Tarih").
Proof.
  assert (H : read_csv ("a;b" ++ String LF "1;2") = Ok (mkFrame ["a"; "b"] [[Some "1"; Some "2"]]))
    by (vm_compute; reflexivity).
  split; [exact H | apply (egitim_verisi_tarih_yok _ _ H)]. cbn. intros [E|[E|[]]]; discriminate E.
Defined.

End Facts.
