(* ===== verification/Charts.v ===== *)
(** * Charts: the data of [grafik_uret]

    [grafik_uret] ([src/app.py] lines 102-140) builds a frame from the
    forecast records, converts their [Tarih] texts with
    [pd.to_datetime] (line 108), sorts by date (line 109) and adds the
    cumulative attendance and the room use [attendance / 45] (lines
    110-111). The three figures then plot these columns; the bar chart
    labels its bars with [strftime("%d-%m")] of the dates (line 133).
    This file models the frame and the bar labels; the figures are in
    [Figures] and their base64 encoding in [Base64]. *)

From Stdlib Require Import ZArith QArith List Lia Bool String Ascii Sorted.
From S2P Require Import Prelude Calendar Strptime Float64 Optimizer Forecast.
Import ListNotations PyDate Strptime Float64 Optimizer Forecast.

Module Charts.

(** ** [grafik_uret]: the plotted data *)

(** One row of the sorted frame with the two derived columns. *)
Record GrafikSatiri := mkGrafik {
  g_tarih : date;
  g_davet : Z;
  g_teyit : Z;
  g_katilim : Z;
  g_kumulatif : Z;   (* Kümülatif Katılım *)
  g_salon : Q }.     (* Salon Kullanımı *)

(** [pd.to_datetime(df["Tarih"])] on the ["%Y-%m-%d"] strings (line
    108). A date outside the nanosecond [Timestamp] range raises
    [OutOfBoundsDatetime], a [ValueError] (its message, which also
    names the date, is shortened here). *)
Fixpoint tarihleri_cevir (l : list DailyForecast) : result (list (DailyForecast * date)) :=
  match l with
  | [] => Ok []
  | r :: rest =>
      d <- strptime fmt_ymd (f_tarih r) ;;
      if in_ts_bounds d then
        ds <- tarihleri_cevir rest ;;
        Ok ((r, d) :: ds)
      else Err (ValueError "Out of bounds nanosecond timestamp")
  end.

(** [sort_values("Tarih")]: an insertion sort on the date. Any sort
    gives this result when the dates are distinct, as they are for a
    forecast. *)
Fixpoint sirali_ekle (x : DailyForecast * date) (l : list (DailyForecast * date))
    : list (DailyForecast * date) :=
  match l with
  | [] => [x]
  | y :: rest => if date_leb (snd x) (snd y) then x :: y :: rest else y :: sirali_ekle x rest
  end.

Definition sirala (l : list (DailyForecast * date)) : list (DailyForecast * date) :=
  fold_right sirali_ekle [] l.

(** [cumsum()] of attendance and [Sınava Katılacak / 45], an [int64]
    column divided in binary64. *)
Fixpoint kumulatif (acc : Z) (l : list (DailyForecast * date)) : list GrafikSatiri :=
  match l with
  | [] => []
  | (r, d) :: rest =>
      let acc' := (acc + f_sinava_katilacak r)%Z in
      mkGrafik d (f_davet_edilen r) (f_teyit_veren r) (f_sinava_katilacak r) acc'
        (b64 (inject_Z (f_sinava_katilacak r) / 45)) :: kumulatif acc' rest
  end.

(** Lines 103-111; [None] is the early [return None, None, None]. *)
Definition grafik_verisi (tahminler : list DailyForecast) : result (option (list GrafikSatiri)) :=
  match tahminler with
  | [] => Ok None
  | _ :: _ =>
      rows <- tarihleri_cevir tahminler ;;
      Ok (Some (kumulatif 0 (sirala rows)))
  end.

(** [df["Tarih"].dt.strftime("%d-%m")] (line 133): the bar labels. *)
Definition strftime_dm (d : date) : string :=
  string_of_list_ascii (pad_digits 2 (day d) ++ ["-"%char] ++ pad_digits 2 (month d)).

Definition bar_etiketleri (gs : list GrafikSatiri) : list string :=
  map (fun g => strftime_dm (g_tarih g)) gs.

(** ** Lemmas on the chart data *)

Lemma sirala_sorted (l : list (DailyForecast * date)) :
  StronglySorted (fun x y => date_compare (snd x) (snd y) = Lt) l -> sirala l = l.
Proof.
  induction 1 as [|x l Hs IH Hall]; [reflexivity|]. simpl. rewrite IH.
  destruct l as [|y l]; [reflexivity|]. simpl.
  inversion Hall as [|? ? Hxy _]; subst. unfold date_leb. rewrite Hxy. reflexivity.
Qed.

Lemma tarihleri_cevir_gunler M (ds : list date) :
  (forall d, In d ds -> valid d = true /\ in_ts_bounds d = true) ->
  tarihleri_cevir (map (gun_tahmini M) ds) = Ok (map (fun d => (gun_tahmini M d, d)) ds).
Proof.
  induction ds as [|d ds IH]; intros Hv; [reflexivity|].
  destruct (Hv d (or_introl eq_refl)) as [V B]. cbn [map tarihleri_cevir].
  change (f_tarih (gun_tahmini M d)) with (strftime_ymd d).
  rewrite strptime_strftime by (auto; apply in_ts_bounds_year; auto). cbn [bind]. rewrite B.
  rewrite IH by (intros x Hx; apply Hv; right; exact Hx). reflexivity.
Qed.

Lemma kumulatif_katilim acc l :
  map g_katilim (kumulatif acc l) = map (fun p => f_sinava_katilacak (fst p)) l /\
  map g_davet (kumulatif acc l) = map (fun p => f_davet_edilen (fst p)) l /\
  map g_tarih (kumulatif acc l) = map snd l /\
  last (map g_kumulatif (kumulatif acc l)) acc =
    fold_left Z.add (map (fun p => f_sinava_katilacak (fst p)) l) acc.
Proof.
  revert acc. induction l as [|[r d] l IH]; intros acc; [repeat split; reflexivity|].
  destruct (IH (acc + f_sinava_katilacak r)%Z) as (E1 & E2 & E3 & E4).
  cbn [kumulatif map fst snd fold_left]. rewrite E1, E2, E3. repeat split.
  rewrite <- E4. destruct l as [|[r' d'] l]; [reflexivity|].
  etransitivity; [|apply last_default; cbn [kumulatif map]; discriminate]. reflexivity.
Qed.

(** The first record whose date [pd.to_datetime] cannot hold makes the
    conversion fail with a [ValueError]. *)
Lemma tarihleri_cevir_Err l :
  (exists r, In r l /\ forall d, strptime fmt_ymd (f_tarih r) = Ok d -> in_ts_bounds d = false) ->
  exists msg, tarihleri_cevir l = Err (ValueError msg).
Proof.
  induction l as [|a l IH]; intros (r & Hr & Hb); [destruct Hr|]. cbn [tarihleri_cevir].
  destruct (strptime fmt_ymd (f_tarih a)) as [d|ex] eqn:E; cbn [bind].
  - destruct (in_ts_bounds d) eqn:B; [|eexists; reflexivity].
    destruct Hr as [<-|Hr]; [rewrite (Hb d E) in B; discriminate|].
    destruct (IH (ex_intro _ r (conj Hr Hb))) as [msg ->]. eexists; reflexivity.
  - destruct (strptime_Err _ _ _ E) as [msg ->]. eexists; reflexivity.
Qed.

Lemma grafik_verisi_gunler M (ds : list date) :
  ds <> [] -> StronglySorted (fun x y => date_compare x y = Lt) ds ->
  (forall d, In d ds -> valid d = true /\ in_ts_bounds d = true) ->
  grafik_verisi (map (gun_tahmini M) ds) =
  Ok (Some (kumulatif 0 (map (fun d => (gun_tahmini M d, d)) ds))).
Proof.
  intros Hne Hs Hv.
  assert (Hl : StronglySorted (fun x y => date_compare (snd x) (snd y) = Lt)
                 (map (fun d => (gun_tahmini M d, d)) ds))
    by exact (StronglySorted_map _ (fun x y => date_compare (snd x) (snd y) = Lt)
                (fun d => (gun_tahmini M d, d)) ds (fun x y H => H) Hs).
  unfold grafik_verisi. destruct ds as [|d0 ds0]; [contradiction|].
  cbn [map]. change (gun_tahmini M d0 :: map (gun_tahmini M) ds0) with (map (gun_tahmini M) (d0 :: ds0)).
  rewrite (tarihleri_cevir_gunler M _ Hv). cbn [bind]. rewrite (sirala_sorted _ Hl). reflexivity.
Qed.

(** The chart data of a successful forecast whose range lies in the
    [Timestamp] range: one row per forecast day, in order. *)
Lemma tahmin_et_grafik `{HolidayProvider} M s1 s2 tol b e out :
  strptime fmt_ymd s1 = Ok b -> strptime fmt_ymd s2 = Ok e ->
  in_ts_bounds b = true -> in_ts_bounds e = true -> tahmin_et M s1 s2 tol = Ok out -> out <> [] ->
  exists ds, out = map (gun_tahmini M) ds /\
    StronglySorted (fun x y => date_compare x y = Lt) ds /\
    (forall d, In d ds -> valid d = true /\ date_leb b d = true /\ date_leb d e = true) /\
    grafik_verisi out = Ok (Some (kumulatif 0 (map (fun d => (gun_tahmini M d, d)) ds))).
Proof.
  intros H1 H2 Bb Be Hout Hne.
  pose proof (in_ts_bounds_max e (strptime_valid _ _ _ H2) Be) as Hmax.
  destruct (tahmin_et_gunler M s1 s2 tol b e out H1 H2 Hmax Hout) as (ds & -> & Hs & Hin).
  exists ds. split; [reflexivity|]. split; [exact Hs|]. split.
  - intros d Hd. apply Hin in Hd as (V & Hb & He & _). auto.
  - apply grafik_verisi_gunler; [intros ->; apply Hne; reflexivity | exact Hs|].
    intros d Hd. apply Hin in Hd as (V & Hb & He & _). split; [exact V|].
    exact (in_ts_bounds_between b e d Bb Be Hb He).
Qed.

Lemma sirali_ekle_In x y l : In y (sirali_ekle x l) <-> x = y \/ In y l.
Proof.
  induction l as [|z l IH]; cbn [sirali_ekle]; [cbn; tauto|].
  destruct (date_leb _ _); cbn [In]; [tauto|]. rewrite IH. tauto.
Qed.

Lemma sirala_In x l : In x (sirala l) <-> In x l.
Proof.
  unfold sirala. induction l as [|y l IH]; [reflexivity|]. cbn [fold_right].
  rewrite sirali_ekle_In, IH. cbn [In]. tauto.
Qed.

Lemma tarihleri_cevir_In l rows : tarihleri_cevir l = Ok rows -> forall p, In p rows -> In (fst p) l.
Proof.
  revert rows. induction l as [|r l IH]; cbn [tarihleri_cevir]; intros rows H p Hp.
  - injection H as <-. destruct Hp.
  - destruct (strptime fmt_ymd (f_tarih r)) as [d|]; cbn [bind] in H; [|discriminate].
    destruct (in_ts_bounds d); [|discriminate].
    destruct (tarihleri_cevir l) as [ds|] eqn:E; cbn [bind] in H; [|discriminate].
    injection H as <-. destruct Hp as [<-|Hp]; [left; reflexivity | right; exact (IH ds eq_refl p Hp)].
Qed.

(** What a chart row keeps of its record. *)
Definition satir_kaydi (g : GrafikSatiri) (r : DailyForecast) : Prop :=
  g_davet g = f_davet_edilen r /\ g_katilim g = f_sinava_katilacak r /\
  g_salon g = b64 (inject_Z (f_sinava_katilacak r) / 45).

Lemma kumulatif_In acc l g : In g (kumulatif acc l) -> exists p, In p l /\ satir_kaydi g (fst p).
Proof.
  revert acc. induction l as [|[r d] l IH]; intros acc Hg; [destruct Hg|].
  destruct Hg as [<-|Hg].
  - exists (r, d). split; [left; reflexivity | repeat split].
  - destruct (IH _ Hg) as (p & Hp & E). exists p. split; [right; exact Hp | exact E].
Qed.

(** Every row of the chart data comes from a record of the forecast. *)
Lemma grafik_verisi_In out gs :
  grafik_verisi out = Ok (Some gs) -> forall g, In g gs -> exists r, In r out /\ satir_kaydi g r.
Proof.
  unfold grafik_verisi. destruct out as [|r0 rs]; [discriminate|].
  destruct (tarihleri_cevir _) as [rows|] eqn:E; cbn [bind]; [|discriminate].
  intros [= <-] g Hg. destruct (kumulatif_In _ _ _ Hg) as (p & Hp & Eq).
  rewrite sirala_In in Hp. exists (fst p). split; [exact (tarihleri_cevir_In _ _ E p Hp) | exact Eq].
Qed.

(** With non-negative attendances the cumulative column never decreases. *)
Lemma kumulatif_artan acc l :
  (forall p, In p l -> (0 <= f_sinava_katilacak (fst p))%Z) ->
  Sorted Z.le (acc :: map g_kumulatif (kumulatif acc l)).
Proof.
  revert acc. induction l as [|[r d] l IH]; intros acc Hl; [repeat constructor|].
  assert (Hr := Hl (r, d) (or_introl eq_refl)). cbn [fst] in Hr. cbn [kumulatif map].
  constructor; [apply IH; intros p Hp; apply Hl; right; exact Hp | constructor; cbn [g_kumulatif]; lia].
Qed.

Lemma grafik_verisi_artan out gs :
  grafik_verisi out = Ok (Some gs) -> (forall r, In r out -> (0 <= f_sinava_katilacak r)%Z) ->
  Sorted Z.le (0%Z :: map g_kumulatif gs).
Proof.
  unfold grafik_verisi. destruct out as [|r0 rs]; [discriminate|].
  destruct (tarihleri_cevir _) as [rows|] eqn:E; cbn [bind]; [|discriminate].
  intros [= <-] Hn. apply kumulatif_artan. intros p Hp. rewrite sirala_In in Hp.
  exact (Hn _ (tarihleri_cevir_In _ _ E p Hp)).
Qed.

(** The bar labels tell the day and month apart. *)
Lemma strftime_dm_inj d d' :
  valid d = true -> valid d' = true -> strftime_dm d = strftime_dm d' ->
  day d = day d' /\ month d = month d'.
Proof.
  intros V V' E. apply (f_equal list_ascii_of_string) in E.
  unfold strftime_dm in E. rewrite !list_ascii_of_string_of_list_ascii in E.
  apply app_eq_length in E as [Ed E]; [|rewrite !pad_digits_length; reflexivity].
  apply (f_equal (@tl ascii)) in E. cbn [tl] in E. rename E into Em.
  destruct (valid_fields d V) as (_ & Hm & Hd), (valid_fields d' V') as (_ & Hm' & Hd').
  destruct (month_table (year d) (month d) Hm) as ((_ & ?) & _).
  destruct (month_table (year d') (month d') Hm') as ((_ & ?) & _).
  split; [apply (pad_digits_inj 2) in Ed | apply (pad_digits_inj 2) in Em]; auto; cbn; lia.
Qed.

Lemma etiketler_farkli (ds : list date) :
  (forall d, In d ds -> valid d = true) -> StronglySorted (fun x y => date_compare x y = Lt) ds ->
  (forall d d', In d ds -> In d' ds -> toordinal d' - toordinal d < 365) ->
  NoDup (map strftime_dm ds).
Proof.
  intros Hv Hs. induction Hs as [|d ds Hs IH Hall]; intros Hr; cbn [map]; constructor.
  - intros Hin. apply in_map_iff in Hin as (x & Ex & Hx).
    pose proof (proj1 (Forall_forall _ _) Hall x Hx) as Lt.
    destruct (strftime_dm_inj x d (Hv x (or_intror Hx)) (Hv d (or_introl eq_refl)) Ex) as [Dd Dm].
    specialize (Hr d x (or_introl eq_refl) (or_intror Hx)).
    unfold date_compare in Lt. rewrite Dd, Dm, !Z.compare_refl in Lt.
    revert Lt. destruct (Z.compare_spec (year d) (year x)); try discriminate. intros _.
    pose proof (same_day_month_gap d x (eq_sym Dm) (eq_sym Dd) ltac:(lia)). lia.
  - apply IH; [intros y Hy; apply Hv; right; exact Hy|]. intros y z Hy Hz. apply Hr; right; auto.
Qed.

(** The chart data of a forecast: the sort by date of
    [grafik_uret] keeps the forecast's order, the plotted attendance and
    invitation series are the forecast's, the dates are increasing, and
    the last cumulative attendance is the total attendance. *)
Theorem grafik_verisi_tahmin `{HolidayProvider} M s1 s2 tol b e out :
  strptime fmt_ymd s1 = Ok b -> strptime fmt_ymd s2 = Ok e ->
  in_ts_bounds b = true -> in_ts_bounds e = true -> tahmin_et M s1 s2 tol = Ok out -> out <> [] ->
  exists gs, grafik_verisi out = Ok (Some gs) /\
    map g_katilim gs = map f_sinava_katilacak out /\
    map g_davet gs = map f_davet_edilen out /\
    StronglySorted (fun x y => date_compare x y = Lt) (map g_tarih gs) /\
    last (map g_kumulatif gs) 0%Z = fold_left Z.add (map f_sinava_katilacak out) 0%Z.
Proof.
  intros H1 H2 Bb Be Hout Hne.
  destruct (tahmin_et_grafik M s1 s2 tol b e out H1 H2 Bb Be Hout Hne) as (ds & -> & Hs & _ & G).
  eexists. split; [exact G|].
  destruct (kumulatif_katilim 0 (map (fun d => (gun_tahmini M d, d)) ds)) as (E1 & E2 & E3 & E4).
  rewrite E1, E2, E3, E4, !map_map, map_id. repeat split; [exact Hs].
Qed.

(** For a range shorter than a year, the ["%d-%m"] labels of the bar
    chart are pairwise distinct. *)
Lemma bar_etiketleri_tekil `{HolidayProvider} M s1 s2 tol b e out gs :
  strptime fmt_ymd s1 = Ok b -> strptime fmt_ymd s2 = Ok e ->
  in_ts_bounds b = true -> in_ts_bounds e = true -> toordinal e - toordinal b < 365 ->
  tahmin_et M s1 s2 tol = Ok out -> grafik_verisi out = Ok (Some gs) ->
  NoDup (bar_etiketleri gs).
Proof.
  intros H1 H2 Bb Be Hr Hout G.
  destruct out as [|o os]; [discriminate|].
  destruct (tahmin_et_grafik M s1 s2 tol b e _ H1 H2 Bb Be Hout ltac:(discriminate))
    as (ds & Eo & Hs & Hin & G'). rewrite G in G'. injection G' as ->.
  destruct (kumulatif_katilim 0 (map (fun d => (gun_tahmini M d, d)) ds)) as (_ & _ & E3 & _).
  unfold bar_etiketleri. rewrite <- (map_map g_tarih strftime_dm), E3, !map_map. cbn [snd].
  pose proof (strptime_valid _ _ _ H1) as Vb. pose proof (strptime_valid _ _ _ H2) as Ve.
  apply etiketler_farkli; [intros d Hd; apply Hin, Hd | exact Hs |].
  intros d d' Hd Hd'. destruct (Hin d Hd) as (V & Hb & _), (Hin d' Hd') as (V' & _ & He').
  rewrite date_leb_toordinal, Z.leb_le in Hb, He' by auto. lia.
Qed.

(** ** Witnesses *)

#[local] Instance grafik_tatiller : HolidayProvider := {| tr_holidays := fun _ => false |}.

(** The rows of the chart data, or none when it fails. *)
Definition grafik_satirlari (t : list DailyForecast) : list GrafikSatiri :=
  match grafik_verisi t with Ok (Some g) => g | _ => [] end.

Definition ornek_tahmin : list DailyForecast :=
  match tahmin_et sabit_modeller "2024-04-19"%string "2024-04-24"%string false with Ok o => o | Err _ => [] end.

Lemma grafik_verisi_tahmin_witness :
  tahmin_et sabit_modeller "2024-04-19"%string "2024-04-24"%string false = Ok ornek_tahmin /\ ornek_tahmin <> [] /\
  exists gs, grafik_verisi ornek_tahmin = Ok (Some gs) /\
    map g_katilim gs = map f_sinava_katilacak ornek_tahmin /\
    map g_davet gs = map f_davet_edilen ornek_tahmin /\
    StronglySorted (fun x y => date_compare x y = Lt) (map g_tarih gs) /\
    last (map g_kumulatif gs) 0%Z = fold_left Z.add (map f_sinava_katilacak ornek_tahmin) 0%Z.
Proof.
  assert (Ht : tahmin_et sabit_modeller "2024-04-19"%string "2024-04-24"%string false = Ok ornek_tahmin)
    by (vm_compute; reflexivity).
  assert (Hne : ornek_tahmin <> []) by (vm_compute; discriminate).
  split; [exact Ht|]. split; [exact Hne|].
  apply (grafik_verisi_tahmin sabit_modeller "2024-04-19"%string "2024-04-24"%string false
           (mkdate 2024 4 19) (mkdate 2024 4 24));
    [vm_compute; reflexivity | vm_compute; reflexivity | vm_compute; reflexivity
    | vm_compute; reflexivity | exact Ht | exact Hne].
Defined.

(** A forecast from 2024-04-22 to 2025-04-22, a Monday and a Tuesday. *)
End Charts.
