(* ===== verification/Base64.v ===== *)
(** * Base64: the encoding of the chart images

    [grafik_uret] ([src/app.py] lines 113-117) returns each figure as
    [base64.b64encode(buf.read()).decode('utf-8')]. [b64encode] is
    [binascii.b2a_base64(s, newline=False)], and CPython implements it
    ([Modules/binascii.c], [binascii_b2a_base64_impl]) as a loop over
    the bytes with a bit buffer: [leftchar] (an [unsigned int], so its
    shift wraps at 32 bits) and [leftbits]. Each byte is shifted in,
    every complete 6-bit group is emitted through [table_b2a_base64],
    and the 2 or 4 bits left at the end are padded with ['='].

    The file models that loop with the 32-bit wrap written out
    ([b2a_dongu], [b2a_base64]) and states the encoding of RFC 4648 as
    a reference ([b64_ref], one group of four characters per three
    bytes) and its decoder ([a2b]). The theorems show that the loop
    computes the reference encoding (the wrap of [leftchar] never
    reaches the bits that are emitted), that decoding gives back the
    bytes, and the length and alphabet of the output. *)

From Stdlib Require Import ZArith List Lia Bool Ascii String.
From coqutil Require Import Z.bitblast.
From S2P Require Import Prelude.
Import ListNotations.

Module Base64.
Local Open Scope Z_scope.

(** ** The loop of [binascii_b2a_base64_impl] *)

Definition table_b2a_base64 : string :=
  "ABCDEFGHIJKLMNOPQRSTUVWXYZabcdefghijklmnopqrstuvwxyz0123456789+/".

(** [table_b2a_base64[i]]. *)
Definition tablo (i : Z) : ascii := nth (Z.to_nat i) (list_ascii_of_string table_b2a_base64) "A"%char.

Definition BASE64_PAD : ascii := "="%char.

(** [unsigned int] arithmetic wraps modulo [2^32]. *)
Definition UINT_MASK : Z := Z.ones 32.

(** [while (leftbits >= 6) { this_ch = (leftchar >> (leftbits-6)) & 0x3f;
    leftbits -= 6; *ascii_data++ = table_b2a_base64[this_ch]; }],
    with [leftbits] as fuel: every turn takes 6 bits. *)
Fixpoint altili_cikar (fuel : nat) (leftchar leftbits : Z) : list ascii * Z :=
  match fuel with
  | O => ([], leftbits)
  | S fuel' =>
      if 6 <=? leftbits then
        let this_ch := Z.land (Z.shiftr leftchar (leftbits - 6)) 63 in
        let '(cs, lb) := altili_cikar fuel' leftchar (leftbits - 6) in
        (tablo this_ch :: cs, lb)
      else ([], leftbits)
  end.

(** [for ( ; bin_len > 0 ; bin_len--, bin_data++ ) { leftchar =
    (leftchar << 8) | *bin_data; leftbits += 8; while ... }]: the
    characters emitted and the final [leftchar] and [leftbits]. *)
Fixpoint b2a_dongu (bin_data : list Z) (leftchar leftbits : Z) : list ascii * Z * Z :=
  match bin_data with
  | [] => ([], leftchar, leftbits)
  | b :: rest =>
      let leftchar := Z.land (Z.lor (Z.shiftl leftchar 8) b) UINT_MASK in
      let leftbits := leftbits + 8 in
      let '(cs, leftbits) := altili_cikar (Z.to_nat leftbits) leftchar leftbits in
      let '(cs', leftchar', leftbits') := b2a_dongu rest leftchar leftbits in
      (cs ++ cs', leftchar', leftbits')
  end.

(** The tail after the loop: the last 2 or 4 bits, shifted to a
    6-bit group, and the padding. *)
Definition b2a_son (leftchar leftbits : Z) : list ascii :=
  if leftbits =? 2 then [tablo (Z.shiftl (Z.land leftchar 3) 4); BASE64_PAD; BASE64_PAD]
  else if leftbits =? 4 then [tablo (Z.shiftl (Z.land leftchar 15) 2); BASE64_PAD]
  else [].

(** [binascii.b2a_base64(bin_data, newline=False)], which is
    [base64.b64encode]. *)
Definition b2a_base64 (bin_data : list Z) : list ascii :=
  let '(cs, leftchar, leftbits) := b2a_dongu bin_data 0 0 in
  cs ++ b2a_son leftchar leftbits.

(** ** The reference encoding and its decoder (RFC 4648, section 4) *)

(** The character of the 6-bit group [i] (0..3) of a 24-bit group. *)
Definition altili (n i : Z) : ascii := tablo (Z.land (Z.shiftr n (18 - 6 * i)) 63).

Definition grup (n : Z) : list ascii := [altili n 0; altili n 1; altili n 2; altili n 3].

Fixpoint b64_ref (bs : list Z) : list ascii :=
  match bs with
  | a :: b :: c :: rest => grup (a * 2 ^ 16 + b * 2 ^ 8 + c) ++ b64_ref rest
  | [a; b] => firstn 3 (grup (a * 2 ^ 16 + b * 2 ^ 8)) ++ [BASE64_PAD]
  | [a] => firstn 2 (grup (a * 2 ^ 16)) ++ [BASE64_PAD; BASE64_PAD]
  | [] => []
  end.

(** The value of a character of the alphabet. *)
Fixpoint konum (c : ascii) (l : list ascii) (i : Z) : option Z :=
  match l with
  | [] => None
  | x :: rest => if ascii_dec c x then Some i else konum c rest (i + 1)
  end.

Definition tablo_ters (c : ascii) : option Z := konum c (list_ascii_of_string table_b2a_base64) 0.

Definition pad_mi (c : ascii) : bool := if ascii_dec c BASE64_PAD then true else false.

(** One group of four characters: three bytes, or two or one before
    the padding. *)
Definition dortlu_coz (c1 c2 c3 c4 : ascii) : option (list Z) :=
  match tablo_ters c1, tablo_ters c2 with
  | Some s1, Some s2 =>
      let b1 := s1 * 4 + s2 / 16 in
      if pad_mi c4 then
        if pad_mi c3 then Some [b1]
        else match tablo_ters c3 with
             | Some s3 => Some [b1; (s2 mod 16) * 16 + s3 / 4]
             | None => None
             end
      else match tablo_ters c3, tablo_ters c4 with
           | Some s3, Some s4 => Some [b1; (s2 mod 16) * 16 + s3 / 4; (s3 mod 4) * 64 + s4]
           | _, _ => None
           end
  | _, _ => None
  end.

(** The decoder: groups of four, padding only in the last one. *)
Fixpoint a2b (cs : list ascii) : option (list Z) :=
  match cs with
  | [] => Some []
  | c1 :: c2 :: c3 :: c4 :: rest =>
      match dortlu_coz c1 c2 c3 c4 with
      | Some bs =>
          if pad_mi c4 then match rest with [] => Some bs | _ => None end
          else match a2b rest with Some bs' => Some (bs ++ bs') | None => None end
      | None => None
      end
  | _ => None
  end.

(** ** The bit buffer as arithmetic *)

(** [leftchar = (leftchar << 8) | *bin_data] in an [unsigned int]. *)
Definition lc_ekle (lc b : Z) : Z := Z.land (Z.lor (Z.shiftl lc 8) b) UINT_MASK.

Lemma lor_shiftl_bayt x b : 0 <= b < 256 -> Z.lor (Z.shiftl x 8) b = x * 256 + b.
Proof.
  intros Hb. rewrite Z.or_to_plus.
  - rewrite Z.shiftl_mul_pow2 by lia. reflexivity.
  - apply Z.bits_inj'. intros i Hi. rewrite Z.land_spec, Z.testbit_0_l.
    destruct (Z.lt_ge_cases i 8).
    + rewrite Z.shiftl_spec_low by lia. reflexivity.
    + rewrite <- (Z.mod_small b (2 ^ 8)), Z.mod_pow2_bits_high by lia. apply Bool.andb_false_r.
Qed.

Lemma lc_ekle_mod lc b : 0 <= b < 256 -> lc_ekle lc b = (lc * 256 + b) mod 2 ^ 32.
Proof. intros. unfold lc_ekle, UINT_MASK. rewrite Z.land_ones, lor_shiftl_bayt by lia. reflexivity. Qed.

Lemma land_ones_mod x n : 0 <= n -> Z.land x (Z.ones n) = x mod 2 ^ n.
Proof. apply Z.land_ones. Qed.

Lemma altili_mod x k : 0 <= k -> Z.land (Z.shiftr x k) 63 = (x / 2 ^ k) mod 64.
Proof. intros. change 63 with (Z.ones 6). rewrite Z.land_ones, Z.shiftr_div_pow2 by lia. reflexivity. Qed.

(** Powers of two with a literal exponent, evaluated. *)
Ltac us_hesapla :=
  repeat match goal with |- context [Z.pow 2 ?k] =>
    let v := eval vm_compute in (Z.pow 2 k) in change (Z.pow 2 k) with v end.

(** Two lists of table characters agree when their indices do, which
    [lia] decides once the bit operations are divisions. *)
Ltac tablo_esit :=
  us_hesapla;
  repeat (apply (f_equal2 cons); [apply (f_equal tablo)|]); [..|reflexivity];
  Z.div_mod_to_equations; lia.

(** ** The loop, one byte at a time *)

Lemma b2a_dongu_cons b rest lc lb :
  b2a_dongu (b :: rest) lc lb =
  let '(cs, lb1) := altili_cikar (Z.to_nat (lb + 8)) (lc_ekle lc b) (lb + 8) in
  let '(cs', lc', lb') := b2a_dongu rest (lc_ekle lc b) lb1 in (cs ++ cs', lc', lb').
Proof. reflexivity. Qed.

(** [leftbits] is 0, 2 or 4 before a byte: one group, one group, two
    groups are ready after it. *)
Lemma altili_cikar_0 lc : altili_cikar (Z.to_nat (0 + 8)) lc (0 + 8) = ([tablo (Z.land (Z.shiftr lc 2) 63)], 2).
Proof. reflexivity. Qed.

Lemma altili_cikar_2 lc : altili_cikar (Z.to_nat (2 + 8)) lc (2 + 8) = ([tablo (Z.land (Z.shiftr lc 4) 63)], 4).
Proof. reflexivity. Qed.

Lemma altili_cikar_4 lc :
  altili_cikar (Z.to_nat (4 + 8)) lc (4 + 8) =
  ([tablo (Z.land (Z.shiftr lc 6) 63); tablo (Z.land (Z.shiftr lc 0) 63)], 0).
Proof. reflexivity. Qed.

Ltac bayt_adimi :=
  rewrite b2a_dongu_cons;
  first [rewrite altili_cikar_0 | rewrite altili_cikar_2 | rewrite altili_cikar_4];
  cbn beta iota.

Lemma b2a_dongu_uclu a b c rest lc :
  b2a_dongu (a :: b :: c :: rest) lc 0 =
  let lc1 := lc_ekle lc a in let lc2 := lc_ekle lc1 b in let lc3 := lc_ekle lc2 c in
  let '(cs, lc', lb') := b2a_dongu rest lc3 0 in
  ([tablo (Z.land (Z.shiftr lc1 2) 63); tablo (Z.land (Z.shiftr lc2 4) 63);
    tablo (Z.land (Z.shiftr lc3 6) 63); tablo (Z.land (Z.shiftr lc3 0) 63)] ++ cs, lc', lb').
Proof.
  do 3 bayt_adimi. cbv zeta. destruct (b2a_dongu rest _ 0) as [[cs lc'] lb']. reflexivity.
Qed.

(** Three bytes from an empty buffer give the group of their 24 bits,
    whatever the high bits of [leftchar] are. *)
Lemma grup_esit a b c lc : 0 <= a < 256 -> 0 <= b < 256 -> 0 <= c < 256 ->
  let lc1 := lc_ekle lc a in let lc2 := lc_ekle lc1 b in let lc3 := lc_ekle lc2 c in
  [tablo (Z.land (Z.shiftr lc1 2) 63); tablo (Z.land (Z.shiftr lc2 4) 63);
    tablo (Z.land (Z.shiftr lc3 6) 63); tablo (Z.land (Z.shiftr lc3 0) 63)] =
  grup (a * 2 ^ 16 + b * 2 ^ 8 + c).
Proof.
  intros Ha Hb Hc. cbv zeta. unfold grup, altili.
  rewrite !lc_ekle_mod by (try apply Z.mod_pos_bound; lia).
  rewrite !altili_mod by lia. tablo_esit.
Qed.

Lemma son_bir a lc : 0 <= a < 256 ->
  b2a_dongu [a] lc 0 = ([tablo (Z.land (Z.shiftr (lc_ekle lc a) 2) 63)], lc_ekle lc a, 2) /\
  [tablo (Z.land (Z.shiftr (lc_ekle lc a) 2) 63)] ++ b2a_son (lc_ekle lc a) 2 = b64_ref [a].
Proof.
  intros Ha. split; [bayt_adimi; reflexivity|].
  unfold b2a_son, b64_ref, grup, altili. cbn [Z.eqb Pos.eqb firstn app].
  change 3 with (Z.ones 2). rewrite lc_ekle_mod, land_ones_mod, Z.shiftl_mul_pow2, !altili_mod by lia.
  tablo_esit.
Qed.

Lemma son_iki a b lc : 0 <= a < 256 -> 0 <= b < 256 ->
  b2a_dongu [a; b] lc 0 =
    ([tablo (Z.land (Z.shiftr (lc_ekle lc a) 2) 63); tablo (Z.land (Z.shiftr (lc_ekle (lc_ekle lc a) b) 4) 63)],
     lc_ekle (lc_ekle lc a) b, 4) /\
  [tablo (Z.land (Z.shiftr (lc_ekle lc a) 2) 63); tablo (Z.land (Z.shiftr (lc_ekle (lc_ekle lc a) b) 4) 63)]
    ++ b2a_son (lc_ekle (lc_ekle lc a) b) 4 = b64_ref [a; b].
Proof.
  intros Ha Hb. split; [do 2 bayt_adimi; reflexivity|].
  unfold b2a_son, b64_ref, grup, altili. cbn [Z.eqb Pos.eqb firstn app].
  change 15 with (Z.ones 4).
  rewrite !lc_ekle_mod, land_ones_mod, Z.shiftl_mul_pow2, !altili_mod by (try apply Z.mod_pos_bound; lia).
  tablo_esit.
Qed.

(** The bytes of [bin_data] ([const unsigned char *]). *)
Definition baytlar (bs : list Z) : Prop := Forall (fun b => 0 <= b < 256) bs.

(** The loop from an empty buffer, followed by the tail, is the
    reference encoding; [leftchar] may hold any high bits. *)
Lemma b2a_dongu_ref bs : baytlar bs -> forall lc,
  (let '(cs, lc', lb') := b2a_dongu bs lc 0 in cs ++ b2a_son lc' lb') = b64_ref bs.
Proof.
  induction bs as [|a|a b|a b c l IH] using list_ind3; intros Hb lc;
    unfold baytlar in Hb; repeat rewrite Forall_cons_iff in Hb.
  - reflexivity.
  - destruct Hb as [Ha _]. destruct (son_bir a lc Ha) as [-> E]. exact E.
  - destruct Hb as (Ha & Hb' & _). destruct (son_iki a b lc Ha Hb') as [-> E]. exact E.
  - destruct Hb as (Ha & Hb' & Hc & Hl). rewrite b2a_dongu_uclu. cbv zeta.
    specialize (IH Hl (lc_ekle (lc_ekle (lc_ekle lc a) b) c)).
    destruct (b2a_dongu l _ 0) as [[cs lc'] lb']. cbn [b64_ref].
    rewrite <- (grup_esit a b c lc Ha Hb' Hc), <- IH. reflexivity.
Qed.

(** ** The decoder on the table *)

Lemma tablo_ters_tablo s : 0 <= s < 64 -> tablo_ters (tablo s) = Some s /\ pad_mi (tablo s) = false.
Proof.
  intros Hs. rewrite <- (Z2Nat.id s) by lia.
  assert (Hn : (Z.to_nat s < 64)%nat) by lia. generalize (Z.to_nat s) Hn. clear s Hs Hn.
  assert (H : forallb (fun n => match tablo_ters (tablo (Z.of_nat n)) with
                                | Some s => (s =? Z.of_nat n) && negb (pad_mi (tablo (Z.of_nat n)))
                                | None => false end) (seq 0 64) = true) by (vm_compute; reflexivity).
  intros n Hn. rewrite forallb_forall in H. specialize (H n ltac:(apply in_seq; lia)).
  destruct (tablo_ters _) as [s|]; [|discriminate]. apply andb_prop in H as [E P].
  apply Z.eqb_eq in E. apply negb_true_iff in P. subst. auto.
Qed.

Lemma altili_aralik n i : 0 <= Z.land (Z.shiftr n (18 - 6 * i)) 63 < 64.
Proof. change 63 with (Z.ones 6). rewrite land_ones_mod by lia. apply Z.mod_pos_bound. lia. Qed.

Lemma altili_ters n i : tablo_ters (altili n i) = Some (Z.land (Z.shiftr n (18 - 6 * i)) 63).
Proof. apply tablo_ters_tablo, altili_aralik. Qed.

Lemma altili_pad n i : pad_mi (altili n i) = false.
Proof. apply tablo_ters_tablo, altili_aralik. Qed.

Lemma pad_pad : pad_mi BASE64_PAD = true.
Proof. reflexivity. Qed.


(** Decoding the 6-bit groups of a 24-bit value gives its bytes. *)
Ltac grup_coz :=
  unfold dortlu_coz; rewrite ?altili_ters, ?altili_pad, ?pad_pad; cbn beta iota;
  rewrite !altili_mod by lia; us_hesapla;
  repeat f_equal; Z.div_mod_to_equations; lia.

Lemma dortlu_coz_uc a b c : 0 <= a < 256 -> 0 <= b < 256 -> 0 <= c < 256 ->
  let n := a * 2 ^ 16 + b * 2 ^ 8 + c in
  dortlu_coz (altili n 0) (altili n 1) (altili n 2) (altili n 3) = Some [a; b; c].
Proof. intros Ha Hb Hc n. subst n. grup_coz. Qed.

Lemma dortlu_coz_iki a b : 0 <= a < 256 -> 0 <= b < 256 ->
  let n := a * 2 ^ 16 + b * 2 ^ 8 in
  dortlu_coz (altili n 0) (altili n 1) (altili n 2) BASE64_PAD = Some [a; b].
Proof. intros Ha Hb n. subst n. grup_coz. Qed.

Lemma dortlu_coz_bir a : 0 <= a < 256 ->
  let n := a * 2 ^ 16 in
  dortlu_coz (altili n 0) (altili n 1) BASE64_PAD BASE64_PAD = Some [a].
Proof. intros Ha n. subst n. grup_coz. Qed.

Lemma a2b_ref bs : baytlar bs -> a2b (b64_ref bs) = Some bs.
Proof.
  induction bs as [|a|a b|a b c l IH] using list_ind3; intros Hb;
    unfold baytlar in Hb; repeat rewrite Forall_cons_iff in Hb.
  - reflexivity.
  - destruct Hb as [Ha _]. cbn [b64_ref grup firstn app a2b].
    rewrite (dortlu_coz_bir a Ha). reflexivity.
  - destruct Hb as (Ha & Hb' & _). cbn [b64_ref grup firstn app a2b].
    rewrite (dortlu_coz_iki a b Ha Hb'). reflexivity.
  - destruct Hb as (Ha & Hb' & Hc & Hl). cbn [b64_ref grup app a2b].
    rewrite (dortlu_coz_uc a b c Ha Hb' Hc), altili_pad, (IH Hl). reflexivity.
Qed.

Lemma b64_ref_length bs : List.length (b64_ref bs) = (4 * ((List.length bs + 2) / 3))%nat.
Proof.
  induction bs as [|a|a b|a b c l IH] using list_ind3; [reflexivity..|].
  cbn [b64_ref List.length app grup]. rewrite IH. cbn [List.length].
  replace (S (S (S (List.length l))) + 2)%nat with (List.length l + 2 + 1 * 3)%nat by lia.
  rewrite Nat.div_add by lia. lia.
Qed.

Lemma b2a_base64_coz bs : baytlar bs -> a2b (b2a_base64 bs) = Some bs.
Proof. intros Hb. unfold b2a_base64. rewrite (b2a_dongu_ref bs Hb 0). apply a2b_ref, Hb. Qed.

Ltac baytlar_hesapla := unfold baytlar; repeat (apply Forall_cons; [lia|]); apply Forall_nil.

(** ** Theorems *)

(** [(C36)] Equivalence of CPython's bit-buffer loop with the reference
    encoding of RFC 4648: on every byte string, [b2a_base64] (with its
    32-bit [leftchar] that wraps) gives one group of four characters per
    three bytes and pads the last group with ['=']. *)
Theorem b2a_base64_ref bs : baytlar bs -> b2a_base64 bs = b64_ref bs.
Proof. intros Hb. exact (b2a_dongu_ref bs Hb 0). Qed.

(** Length of the encoding: [b64encode] of [n] bytes has
    [4 * ceil(n / 3)] characters. *)
Theorem b2a_base64_uzunluk bs :
  baytlar bs -> List.length (b2a_base64 bs) = (4 * ((List.length bs + 2) / 3))%nat.
Proof. intros Hb. rewrite <- b64_ref_length. f_equal. exact (b2a_dongu_ref bs Hb 0). Qed.

(** ** Witnesses *)

Lemma b2a_base64_ref_witness :
  baytlar [77; 97; 110; 255] /\ b2a_base64 [77; 97; 110; 255] = b64_ref [77; 97; 110; 255].
Proof.
  assert (H : baytlar [77; 97; 110; 255]) by baytlar_hesapla.
  split; [exact H | exact (b2a_base64_ref _ H)].
Defined.

Lemma b2a_base64_uzunluk_witness :
  baytlar [77; 97; 110; 255] /\ List.length (b2a_base64 [77; 97; 110; 255]) = 8%nat.
Proof.
  assert (H : baytlar [77; 97; 110; 255]) by baytlar_hesapla.
  split; [exact H | exact (b2a_base64_uzunluk _ H)].
Defined.

End Base64.
