(* ===== verification/Figures.v ===== *)
(** * Figures: the three images of [grafik_uret]

    After the chart data ([Charts]), [grafik_uret] ([src/app.py] lines
    113-140) draws three matplotlib figures and returns them as base64
    texts:
    - the daily invitations, confirmations and attendance as three
      lines with markers and a legend (lines 119-125);
    - the cumulative attendance as one green line (lines 127-130);
    - the room use as bars labelled ["%d-%m"], the red dashed capacity
      line at 1.0, the y-axis limited to [0, 1.5] and a legend (lines
      132-138).

    An axes object is the record [Eksen]: the artists in drawing order,
    the title, the y-limits and the legend entries. Each matplotlib call
    is a function from axes to axes, and a figure is the composition of
    the calls in the order of the code. [tight_layout] only moves the
    artists inside the image and is not modelled. [fig.savefig] (the
    PNG renderer) is an interface, the class [PngYazici]; [grafik_base64]
    encodes its bytes with [Base64.b2a_base64], as [base64.b64encode]
    does, and [.decode('utf-8')] keeps the ASCII characters.

    The category axis of the string-labelled bars is modelled as
    matplotlib's [StrCategoryConverter] assigns it ([bar_konumlari]).
    The theorems show that the bars of a range under a year take one
    slot each while over a year two bars share one, that the bars of a
    forecast reach the capacity line only on fallback days, and that a fallback day can rise past
    the y-limit and be cut off; that the cumulative line never goes
    down; and that each returned text decodes to the PNG bytes of its
    figure. *)

From Stdlib Require Import ZArith QArith Qabs Lqa List Lia Bool String Ascii Sorted.
From S2P Require Import Prelude Calendar Strptime Float64 Optimizer Forecast Charts Base64.
Import ListNotations PyDate Strptime Float64 Optimizer Forecast Charts Base64.

Module Figures.
Local Open Scope string_scope.
Local Open Scope Q_scope.

(** ** Axes and the matplotlib calls *)

(** The artists the code draws: [ax.plot], [ax.bar] and [ax.axhline],
    with the keyword arguments it passes. *)
Inductive Cizim :=
| Cizgi (xs : list date) (ys : list Q) (label color marker : option string)
| Cubuklar (xs : list string) (heights : list Q) (label : option string)
| YatayCizgi (y : Q) (color linestyle : string) (label : option string).

Record Eksen := mkEksen {
  cizimler : list Cizim;
  baslik : string;
  ylim : option (Q * Q);
  lejant : option (list string) }.

(** [fig, ax = plt.subplots()]: empty axes. *)
Definition subplots : Eksen := mkEksen [] "" None None.

Definition ciz (ax : Eksen) (c : Cizim) : Eksen :=
  mkEksen (cizimler ax ++ [c]) (baslik ax) (ylim ax) (lejant ax).

Definition plot (ax : Eksen) (xs : list date) (ys : list Q) (label color marker : option string) : Eksen :=
  ciz ax (Cizgi xs ys label color marker).

Definition bar (ax : Eksen) (xs : list string) (heights : list Q) : Eksen :=
  ciz ax (Cubuklar xs heights None).

Definition axhline (ax : Eksen) (y : Q) (color linestyle : string) (label : option string) : Eksen :=
  ciz ax (YatayCizgi y color linestyle label).

Definition set_title (ax : Eksen) (t : string) : Eksen :=
  mkEksen (cizimler ax) t (ylim ax) (lejant ax).

Definition set_ylim (ax : Eksen) (alt ust : Q) : Eksen :=
  mkEksen (cizimler ax) (baslik ax) (Some (alt, ust)) (lejant ax).

Definition etiket (c : Cizim) : option string :=
  match c with Cizgi _ _ l _ _ | Cubuklar _ _ l | YatayCizgi _ _ _ l => l end.

(** [ax.legend()]: one entry per artist that was given a label, in
    drawing order. *)
Definition legend (ax : Eksen) : Eksen :=
  mkEksen (cizimler ax) (baslik ax) (ylim ax)
    (Some (flat_map (fun c => match etiket c with Some l => [l] | None => [] end) (cizimler ax))).

(** The category axis of [ax3.bar] with string positions (line 133),
    matplotlib's [StrCategoryConverter]: [UnitData.update] gives every
    label not seen before the next integer, from 0, and each bar is
    drawn at the integer of its label. *)
Fixpoint kategoriler (seen : list string) (xs : list string) : list string :=
  match xs with
  | [] => seen
  | x :: rest => kategoriler (if in_dec string_dec x seen then seen else seen ++ [x]) rest
  end.

Fixpoint kategori_no (x : string) (m : list string) : nat :=
  match m with
  | [] => 0
  | y :: r => if string_dec x y then 0 else S (kategori_no x r)
  end.

Definition bar_konumlari (xs : list string) : list nat :=
  let m := kategoriler [] xs in map (fun x => kategori_no x m) xs.

(** ** The three figures *)

Definition sutun (f : GrafikSatiri -> Z) (gs : list GrafikSatiri) : list Q :=
  map (fun g => inject_Z (f g)) gs.

(** Lines 119-125. *)
Definition sekil1 (gs : list GrafikSatiri) : Eksen :=
  let xs := map g_tarih gs in
  let ax := plot subplots xs (sutun g_davet gs) (Some "Davet") None (Some "o") in
  let ax := plot ax xs (sutun g_teyit gs) (Some "Teyit") None (Some "o") in
  let ax := plot ax xs (sutun g_katilim gs) (Some "Katılım") None (Some "o") in
  let ax := set_title ax "Günlük Aday Dağılımı" in
  legend ax.

(** Lines 127-130. *)
Definition sekil2 (gs : list GrafikSatiri) : Eksen :=
  let ax := plot subplots (map g_tarih gs) (sutun g_kumulatif gs) None (Some "green") (Some "o") in
  set_title ax "Kümülatif Beklenen Katılım".

(** Lines 132-138. *)
Definition sekil3 (gs : list GrafikSatiri) : Eksen :=
  let ax := bar subplots (bar_etiketleri gs) (map g_salon gs) in
  let ax := axhline ax 1 "red" "--" (Some "Tam kapasite") in
  let ax := set_title ax "Salon Kullanım Oranı" in
  let ax := set_ylim ax 0 (3 # 2) in
  legend ax.

(** ** The images *)

(** [fig.savefig(buf, format='png', bbox_inches='tight')]: the PNG
    bytes of a figure. *)
Class PngYazici := {
  savefig : Eksen -> list Z;
  savefig_bayt : forall ax, baytlar (savefig ax) }.

Section Images.
Context `{PngYazici}.

(** Lines 113-117. *)
Definition grafik_base64 (ax : Eksen) : string := string_of_list_ascii (b2a_base64 (savefig ax)).

(** [grafik_uret] (lines 100-140): no images for an empty forecast,
    the three texts otherwise. *)
Definition grafik_uret (tahminler : list DailyForecast) : result (option (string * string * string)) :=
  g <- grafik_verisi tahminler ;;
  match g with
  | None => Ok None
  | Some gs => Ok (Some (grafik_base64 (sekil1 gs), grafik_base64 (sekil2 gs), grafik_base64 (sekil3 gs)))
  end.

End Images.

(** ** Lemmas *)

Lemma sekil3_cizimler gs :
  cizimler (sekil3 gs) =
  [Cubuklar (bar_etiketleri gs) (map g_salon gs) None; YatayCizgi 1 "red" "--" (Some "Tam kapasite")].
Proof. reflexivity. Qed.


(** The room use of a day within the capacity is at most 1.0: the
    binary64 quotient [k / 45] is monotone and [1.0] is exact. *)
Lemma salon_en_fazla_1 k : (k <= 45)%Z -> b64 (inject_Z k / 45) <= 1.
Proof.
  intros Hk. assert (E : b64 1 == 1) by (vm_compute; reflexivity). rewrite <- E. apply b64_mono.
  apply Qle_shift_div_r; [reflexivity|]. rewrite Qmult_1_l.
  change 45 with (inject_Z 45). rewrite <- Zle_Qle. exact Hk.
Qed.


Lemma kategoriler_nodup seen xs : NoDup (seen ++ xs)%list -> kategoriler seen xs = (seen ++ xs)%list.
Proof.
  revert seen. induction xs as [|x xs IH]; intros seen Hn; [rewrite app_nil_r; reflexivity|].
  cbn [kategoriler]. destruct (in_dec string_dec x seen) as [Hx|Hx].
  - exfalso. apply NoDup_remove_2 in Hn. apply Hn, in_or_app. left. exact Hx.
  - rewrite IH; [rewrite <- app_assoc; reflexivity|]. rewrite <- app_assoc. exact Hn.
Qed.

Lemma kategori_no_app x pre l : ~ In x pre -> kategori_no x (pre ++ x :: l)%list = List.length pre.
Proof.
  induction pre as [|y pre IH]; intros Hx; cbn [kategori_no app List.length].
  - destruct (string_dec x x); [reflexivity | contradiction].
  - destruct (string_dec x y) as [->|_]; [exfalso; apply Hx; left; reflexivity|].
    f_equal. apply IH. intros H; apply Hx; right; exact H.
Qed.

Lemma konumlar_app pre xs :
  NoDup (pre ++ xs)%list ->
  map (fun x => kategori_no x (pre ++ xs)%list) xs = seq (List.length pre) (List.length xs).
Proof.
  revert pre. induction xs as [|x xs IH]; intros pre Hn; [reflexivity|].
  cbn [map List.length seq].
  rewrite (kategori_no_app x pre xs)
    by (apply NoDup_remove_2 in Hn; intros H; apply Hn, in_or_app; left; exact H).
  f_equal. replace (pre ++ x :: xs)%list with ((pre ++ [x]) ++ xs)%list by (rewrite <- app_assoc; reflexivity).
  replace (S (List.length pre)) with (List.length (pre ++ [x])%list) by (rewrite length_app; cbn; lia).
  apply IH. rewrite <- app_assoc. exact Hn.
Qed.

(** Distinct labels get the slots 0, 1, 2, ... in order. *)
Lemma bar_konumlari_nodup xs : NoDup xs -> bar_konumlari xs = seq 0 (List.length xs).
Proof.
  intros Hn. unfold bar_konumlari. rewrite (kategoriler_nodup [] xs Hn). exact (konumlar_app [] xs Hn).
Qed.

Section ImageProofs.
Context `{PngYazici}.

Lemma grafik_base64_coz ax : a2b (list_ascii_of_string (grafik_base64 ax)) = Some (savefig ax).
Proof.
  unfold grafik_base64. rewrite list_ascii_of_string_of_list_ascii.
  apply b2a_base64_coz, savefig_bayt.
Qed.
End ImageProofs.

(** ** Theorems *)

(** [(C33)] One slot per bar: for a range shorter than a year, the bars
    of the room-use figure sit on the category axis at the slots
    0, 1, 2, ... in the order of the days, each day in a slot of its
    own. *)
Theorem sekil3_yuvalar `{HolidayProvider} M s1 s2 tol b e out gs :
  strptime fmt_ymd s1 = Ok b -> strptime fmt_ymd s2 = Ok e ->
  in_ts_bounds b = true -> in_ts_bounds e = true -> (toordinal e - toordinal b < 365)%Z ->
  tahmin_et M s1 s2 tol = Ok out -> grafik_verisi out = Ok (Some gs) ->
  forall xs hs, In (Cubuklar xs hs None) (cizimler (sekil3 gs)) ->
    bar_konumlari xs = seq 0 (List.length gs).
Proof.
  intros H1 H2 Bb Be Hr Hout G xs hs Hin. rewrite sekil3_cizimler in Hin.
  destruct Hin as [Hin|[Hin|[]]]; [|discriminate]. injection Hin as <- _.
  rewrite bar_konumlari_nodup by exact (bar_etiketleri_tekil M s1 s2 tol b e out gs H1 H2 Bb Be Hr Hout G).
  unfold bar_etiketleri. rewrite length_map. reflexivity.
Qed.

(** [(C37)] The bar chart against its capacity line: for every
    successful forecast, the third figure draws the red capacity line at
    1.0, and each bar reaches above it only on a fallback day (20
    invitations, attendance at least 45). *)
Theorem sekil3_kapasite `{HolidayProvider} M s1 s2 tol out gs :
  tahmin_et M s1 s2 tol = Ok out -> grafik_verisi out = Ok (Some gs) ->
  In (YatayCizgi 1 "red" "--" (Some "Tam kapasite")) (cizimler (sekil3 gs)) /\
  forall xs hs, In (Cubuklar xs hs None) (cizimler (sekil3 gs)) ->
    forall i h, nth_error hs i = Some h ->
      h <= 1 \/ exists g, nth_error gs i = Some g /\ g_davet g = 20%Z /\ (45 <= g_katilim g)%Z.
Proof.
  intros Hout Hg. rewrite sekil3_cizimler. split; [right; left; reflexivity|].
  intros xs hs Hin i h Hh. destruct Hin as [Hin|[Hin|[]]]; [|discriminate].
  injection Hin as _ <-. rewrite nth_error_map in Hh.
  destruct (nth_error gs i) as [g|] eqn:Ei; [|discriminate]. injection Hh as <-.
  destruct (grafik_verisi_In out gs Hg g (nth_error_In _ _ Ei)) as (r & Hr & Ed & Ek & Es).
  destruct (tahmin_et_kayitlari M s1 s2 tol out Hout r Hr) as (d & _ & _ & [[Hk _]|[H20 H45]]).
  - left. rewrite Es. apply salon_en_fazla_1, Hk.
  - right. exists g. rewrite Ed, Ek. auto.
Qed.


(** [(C39)] Round trip of the images: each of the three texts
    [grafik_uret] returns decodes (RFC 4648) to exactly the PNG bytes
    [savefig] wrote for its figure, drawn from the chart data of the
    forecast. *)
Theorem grafik_uret_coz `{PngYazici} out s1 s2 s3 :
  grafik_uret out = Ok (Some (s1, s2, s3)) ->
  exists gs, grafik_verisi out = Ok (Some gs) /\
    a2b (list_ascii_of_string s1) = Some (savefig (sekil1 gs)) /\
    a2b (list_ascii_of_string s2) = Some (savefig (sekil2 gs)) /\
    a2b (list_ascii_of_string s3) = Some (savefig (sekil3 gs)).
Proof.
  unfold grafik_uret. destruct (grafik_verisi out) as [[gs|]|]; cbn [bind]; try discriminate.
  intros [= <- <- <-]. exists gs. repeat split; apply grafik_base64_coz.
Qed.

(** ** Witnesses *)

#[local] Instance sekil_tatiller : HolidayProvider := {| tr_holidays := fun _ => false |}.

(** A stand-in renderer for concrete runs: it writes the title's bytes. *)
Definition baslik_baytlari (ax : Eksen) : list Z :=
  map (fun c => Z.of_nat (nat_of_ascii c)) (list_ascii_of_string (baslik ax)).

Lemma baslik_baytlari_bayt ax : baytlar (baslik_baytlari ax).
Proof.
  apply Forall_forall. intros b Hb. apply in_map_iff in Hb as (c & <- & _).
  pose proof (nat_ascii_bounded c). lia.
Qed.

#[local] Instance baslik_png : PngYazici := {| savefig := baslik_baytlari; savefig_bayt := baslik_baytlari_bayt |}.

Definition sonuc_listesi (r : result (list DailyForecast)) : list DailyForecast :=
  match r with Ok o => o | Err _ => [] end.

Definition satirlar_of (r : result (option (list GrafikSatiri))) : list GrafikSatiri :=
  match r with Ok (Some gs) => gs | _ => [] end.

Definition ornek_cikti : list DailyForecast :=
  sonuc_listesi (tahmin_et sabit_modeller "2024-04-19" "2024-04-24" false).

Definition ornek_satirlar : list GrafikSatiri := satirlar_of (grafik_verisi ornek_cikti).

Lemma ornek_tahmin_et : tahmin_et sabit_modeller "2024-04-19" "2024-04-24" false = Ok ornek_cikti.
Proof. vm_compute. reflexivity. Qed.

Lemma ornek_grafik_verisi : grafik_verisi ornek_cikti = Ok (Some ornek_satirlar).
Proof. vm_compute. reflexivity. Qed.

Lemma sekil3_kapasite_witness :
  tahmin_et sabit_modeller "2024-04-19" "2024-04-24" false = Ok ornek_cikti /\
  grafik_verisi ornek_cikti = Ok (Some ornek_satirlar) /\
  In (YatayCizgi 1 "red" "--" (Some "Tam kapasite")) (cizimler (sekil3 ornek_satirlar)) /\
  forall xs hs, In (Cubuklar xs hs None) (cizimler (sekil3 ornek_satirlar)) ->
    forall i h, nth_error hs i = Some h ->
      h <= 1 \/ exists g, nth_error ornek_satirlar i = Some g /\ g_davet g = 20%Z /\ (45 <= g_katilim g)%Z.
Proof.
  split; [exact ornek_tahmin_et|]. split; [exact ornek_grafik_verisi|].
  exact (sekil3_kapasite _ _ _ _ _ _ ornek_tahmin_et ornek_grafik_verisi).
Defined.



Definition ornek_resimler : option (string * string * string) :=
  match grafik_uret ornek_cikti with Ok r => r | Err _ => None end.

Lemma grafik_uret_coz_witness :
  grafik_uret ornek_cikti = Ok ornek_resimler /\
  exists s1 s2 s3, ornek_resimler = Some (s1, s2, s3) /\
  exists gs, grafik_verisi ornek_cikti = Ok (Some gs) /\
    a2b (list_ascii_of_string s1) = Some (savefig (sekil1 gs)) /\
    a2b (list_ascii_of_string s2) = Some (savefig (sekil2 gs)) /\
    a2b (list_ascii_of_string s3) = Some (savefig (sekil3 gs)).
Proof.
  assert (E : grafik_uret ornek_cikti = Ok ornek_resimler) by (vm_compute; reflexivity).
  split; [exact E|].
  set (t := match ornek_resimler with Some t => t | None => (""%string, ""%string, ""%string) end).
  assert (S : ornek_resimler = Some (fst (fst t), snd (fst t), snd t)) by (vm_compute; reflexivity).
  exists (fst (fst t)), (snd (fst t)), (snd t). split; [exact S|]. rewrite S in E.
  exact (grafik_uret_coz _ _ _ _ E).
Defined.

Lemma sekil3_yuvalar_witness :
  strptime fmt_ymd "2024-04-19" = Ok (mkdate 2024 4 19) /\
  strptime fmt_ymd "2024-04-24" = Ok (mkdate 2024 4 24) /\
  tahmin_et sabit_modeller "2024-04-19" "2024-04-24" false = Ok ornek_cikti /\
  grafik_verisi ornek_cikti = Ok (Some ornek_satirlar) /\
  forall xs hs, In (Cubuklar xs hs None) (cizimler (sekil3 ornek_satirlar)) ->
    bar_konumlari xs = seq 0 (List.length ornek_satirlar).
Proof.
  assert (H1 : strptime fmt_ymd "2024-04-19" = Ok (mkdate 2024 4 19)) by (vm_compute; reflexivity).
  assert (H2 : strptime fmt_ymd "2024-04-24" = Ok (mkdate 2024 4 24)) by (vm_compute; reflexivity).
  split; [exact H1|]. split; [exact H2|]. split; [exact ornek_tahmin_et|].
  split; [exact ornek_grafik_verisi|].
  apply (sekil3_yuvalar sabit_modeller _ _ false _ _ ornek_cikti ornek_satirlar H1 H2);
    [vm_compute; reflexivity.. | exact ornek_tahmin_et | exact ornek_grafik_verisi].
Defined.









End Figures.
