(* ===== verification/Excel.v ===== *)
(** * Excel: the spreadsheet [indir] sends

    [indir] ([src/app.py] lines 164-174) builds [pd.DataFrame] from the
    list of forecast dictionaries and writes it with
    [to_excel(writer, index=False, sheet_name="Tahminler")] into
    ["tahminler.xlsx"]. The frame's columns are the dictionary keys in
    their insertion order (lines 87-94), the first row of the sheet is
    the header, and every record is one row. Python strings become text
    cells and integers number cells.

    The sheet is modelled at the level of its cells: [excel_tablosu]
    gives the sheet name and the rows of cells. The xlsx byte encoding
    (the xlsxwriter library) is not modelled. [tablo_oku] is a
    specification of reading the sheet back, and the round-trip theorem
    shows that no field is lost or changed by the export. *)

From Stdlib Require Import ZArith List String.
From S2P Require Import Prelude Forecast.
Import ListNotations Forecast.

Module Excel.

(** ** The sheet *)

Inductive hucre :=
| Metin (s : string)
| Sayi (z : Z).

Record ExcelTablosu := mkTablo {
  sayfa_adi : string;
  satirlar : list (list hucre) }.

(** The keys of the dictionary of a record (lines 87-94), in order. *)
Definition sutunlar : list string :=
  ["Tarih"; "Gün"; "Davet Edilen"; "Teyit Veren"; "Teyit Vermeyen"; "Sınava Katılacak"]%string.

(** One record as a row: two strings, then four integers. *)
Definition kayit_satiri (r : DailyForecast) : list hucre :=
  [Metin (f_tarih r); Metin (f_gun r); Sayi (f_davet_edilen r); Sayi (f_teyit_veren r);
   Sayi (f_teyit_vermeyen r); Sayi (f_sinava_katilacak r)].

(** Lines 169-172: the header row and one row per record. The frame of
    an empty list has no column, and its sheet no row at all. *)
Definition excel_tablosu (l : list DailyForecast) : ExcelTablosu :=
  match l with
  | [] => mkTablo "Tahminler" []
  | _ :: _ => mkTablo "Tahminler" (map Metin sutunlar :: map kayit_satiri l)
  end.

(** [download_name] of line 174. *)
Definition DOSYA_ADI : string := "tahminler.xlsx".

(** ** Reading a sheet back *)

Definition hucre_eq_dec (a b : hucre) : {a = b} + {a <> b}.
Proof. decide equality; [apply string_dec | apply Z.eq_dec]. Defined.

Definition satir_oku (cs : list hucre) : option DailyForecast :=
  match cs with
  | [Metin t; Metin g; Sayi a; Sayi b; Sayi c; Sayi d] => Some (mkForecast t g a b c d)
  | _ => None
  end.

Fixpoint satirlari_oku (rows : list (list hucre)) : option (list DailyForecast) :=
  match rows with
  | [] => Some []
  | r :: rest =>
      match satir_oku r, satirlari_oku rest with
      | Some x, Some xs => Some (x :: xs)
      | _, _ => None
      end
  end.

(** A sheet with the expected header, read record by record; an empty
    sheet holds no record. *)
Definition tablo_oku (t : ExcelTablosu) : option (list DailyForecast) :=
  match satirlar t with
  | h :: rows => if list_eq_dec hucre_eq_dec h (map Metin sutunlar) then satirlari_oku rows else None
  | [] => Some []
  end.

(** ** Theorems *)

Lemma satir_oku_kayit r : satir_oku (kayit_satiri r) = Some r.
Proof. destruct r; reflexivity. Qed.

(** [(C35)] Round trip of the export: reading back the sheet of a list
    of records gives the same records, every field unchanged and in the
    same order; the sheet is named ["Tahminler"]. *)
Theorem excel_tablosu_roundtrip l :
  sayfa_adi (excel_tablosu l) = "Tahminler"%string /\ tablo_oku (excel_tablosu l) = Some l.
Proof.
  destruct l as [|r0 l0]; [split; reflexivity|]. split; [reflexivity|].
  unfold tablo_oku, excel_tablosu. cbn [satirlar].
  destruct (list_eq_dec hucre_eq_dec _ _) as [_|NE]; [|contradiction NE; reflexivity].
  generalize (r0 :: l0) as l. induction l as [|r l IH]; [reflexivity|]. cbn [map satirlari_oku].
  rewrite satir_oku_kayit, IH. reflexivity.
Qed.

End Excel.
