(* ===== verification/App.v ===== *)
(** * App: the Flask handlers and their global state

    [index] ([src/app.py] lines 142-162) answers a POST by loading the
    CSV, training the four models, running [tahmin_et] and
    [grafik_uret] ([Charts] for the data, [Figures] for the three
    base64 images), and then stores the forecast in the
    global [son_tahminler] (line 159). [indir] (lines 164-174) serves
    that global as the spreadsheet of [Excel], or answers 400 while it
    is empty. An exception in a POST becomes an HTTP 500 and leaves the
    global as it was, because the assignment of line 159 comes last.

    The server is the function [handle] from a state and a request to a
    response and the next state. [reachable] is the set of states of
    any request sequence, and the invariant on [son_tahminler] is proved
    by induction on it. The CSV contents and the fitting function are
    section variables, and the PNG renderer is the class
    [Figures.PngYazici]. HTML rendering and the bytes of the xlsx file
    are not modelled; the page carries the forecast, the selected range
    and the three image texts [render_template] receives. *)

From Stdlib Require Import ZArith QArith List Lia Bool String Sorted.
From S2P Require Import Prelude Calendar Strptime Optimizer Forecast Dataset Charts Base64 Figures Excel.
Import ListNotations PyDate Strptime Optimizer Forecast Dataset Charts Base64 Figures Excel.

Module App.

(** ** The server *)

(** The global [son_tahminler] (line 12). *)
Record AppState := mkState { son_tahminler : list DailyForecast }.

Definition baslangic_durumu : AppState := mkState [].

(** A request: a POST of the form (fields [start_date], [end_date],
    [tolerans], each possibly absent), a GET of the page, or a GET of
    [/indir]. *)
Inductive Request :=
| PostIndex (start_date end_date tolerans : option string)
| GetIndex
| GetIndir.

(** A response carries the data its rendering is built from. *)
Inductive Response :=
| Sayfa (tahminler : list DailyForecast) (secilen_aralik : option string)
    (grafikler : option (string * string * string))
| ExcelDosyasi (dosya_adi : string) (tablo : ExcelTablosu)
| Hata400 (mesaj : string)
| Hata500 (e : exn).

Section Server.
Context `{HolidayProvider} `{PngYazici}.
(** The rows of [denemedata2.csv]. *)
Variable veri : list RawRow.
(** The fitting function of the regressors. *)
Variable fit : list Features -> list Z -> (Features -> Q).

(** Lines 155-158: everything after reading the form. *)
Definition post_hesapla (baslangic bitis : string) (tolerans_aktif : bool)
    : result (list DailyForecast * option (string * string * string)) :=
  M <- egit_modeller_sonuc fit (load_and_prepare_data veri) ;;
  tahminler <- tahmin_et M baslangic bitis tolerans_aktif ;;
  g <- grafik_uret tahminler ;;
  Ok (tahminler, g).

(** [index] (lines 142-162) and [indir] (lines 164-174). A missing form
    field is Flask's [BadRequestKeyError], a 400. *)
Definition handle (st : AppState) (req : Request) : Response * AppState :=
  match req with
  | PostIndex (Some baslangic) (Some bitis) tolerans =>
      let tolerans_aktif :=
        match tolerans with Some t => String.eqb t "yes" | None => false end in
      let secilen_aralik := (baslangic ++ " → " ++ bitis)%string in
      match post_hesapla baslangic bitis tolerans_aktif with
      | Ok (tahminler, g) => (Sayfa tahminler (Some secilen_aralik) g, mkState tahminler)
      | Err e => (Hata500 e, st)
      end
  | PostIndex _ _ _ => (Hata400 "Bad Request", st)
  | GetIndex => (Sayfa [] None None, st)
  | GetIndir =>
      match son_tahminler st with
      | [] => (Hata400 "Henüz tahmin yapılmadı.", st)
      | _ :: _ => (ExcelDosyasi DOSYA_ADI (excel_tablosu (son_tahminler st)), st)
      end
  end.

(** The states reachable from the start by any sequence of requests. *)
Inductive reachable : AppState -> Prop :=
| reachable_init : reachable baslangic_durumu
| reachable_step st req : reachable st -> reachable (snd (handle st req)).

End Server.

Section ServerProofs.
Context `{HolidayProvider} `{PngYazici}.
Variable veri : list RawRow.
Variable fit : list Features -> list Z -> (Features -> Q).

Lemma post_hesapla_Ok s1 s2 tol tahminler g :
  post_hesapla veri fit s1 s2 tol = Ok (tahminler, g) ->
  tahmin_et (egit_modeller fit (load_and_prepare_data veri)) s1 s2 tol = Ok tahminler.
Proof.
  unfold post_hesapla, egit_modeller_sonuc.
  destruct (load_and_prepare_data veri); [discriminate|]. cbn [bind].
  destruct (tahmin_et _ s1 s2 tol) as [t|]; [|discriminate]. cbn [bind].
  destruct (grafik_uret t); [|discriminate]. intros [= -> _]. reflexivity.
Qed.

(** [(C19)] Invariant of the server, by induction on the requests: the
    global [son_tahminler] only ever holds records of days that are not
    weekends or holidays, made by the models trained on the CSV, each
    within the capacity or the fallback day. *)
Theorem app_invariant st :
  reachable veri fit st ->
  forall r, In r (son_tahminler st) ->
    exists d, r = gun_tahmini (egit_modeller fit (load_and_prepare_data veri)) d /\
      resmi_tatil_mi d = false /\
      (((f_sinava_katilacak r <= 45)%Z /\ (20 <= f_davet_edilen r < 150)%Z) \/
       (f_davet_edilen r = 20%Z /\ (45 <= f_sinava_katilacak r)%Z)).
Proof.
  induction 1 as [|st req Hr IH]; [intros r []|].
  destruct req as [[s1|] [s2|] tol| |]; cbn [handle snd]; try exact IH.
  - destruct (post_hesapla veri fit s1 s2 _) as [[t g]|] eqn:E; [|exact IH].
    apply (tahmin_et_kayitlari _ _ _ _ _ (post_hesapla_Ok _ _ _ _ _ E)).
  - destruct (son_tahminler st) eqn:E; cbn [snd]; rewrite E; exact IH.
Qed.

(** [(C20)] A successful POST replaces the global forecast, even by an
    empty one: after a POST with a reversed range, the download is
    refused with 400 whatever was forecast before. *)
Theorem post_reversed_clears st s1 s2 tol b e :
  load_and_prepare_data veri <> [] ->
  strptime fmt_ymd s1 = Ok b -> strptime fmt_ymd s2 = Ok e -> date_leb b e = false ->
  handle veri fit (snd (handle veri fit st (PostIndex (Some s1) (Some s2) tol))) GetIndir =
  (Hata400 "Henüz tahmin yapılmadı.", mkState []).
Proof.
  intros Hne H1 H2 Hlt. cbn [handle]. unfold post_hesapla, egit_modeller_sonuc.
  destruct (load_and_prepare_data veri) as [|h df]; [congruence|]. cbn [bind].
  rewrite (tahmin_et_ters _ s1 s2 _ b e H1 H2 Hlt). reflexivity.
Qed.

(** [(C21)] When no row of the CSV survives the preparation, every
    forecast request fails with a 500 ([fit] on zero rows raises
    [ValueError]) and the global state is left as it was. *)
Theorem post_empty_data st s1 s2 tol :
  load_and_prepare_data veri = [] ->
  handle veri fit st (PostIndex (Some s1) (Some s2) tol) =
  (Hata500 (ValueError "Found array with 0 sample(s) while a minimum of 1 is required"), st).
Proof.
  intros He. cbn [handle]. unfold post_hesapla, egit_modeller_sonuc. rewrite He. reflexivity.
Qed.
(** [(C26)] Dates past the [pandas.Timestamp] range: when the range
    contains a business day after 2262-04-11, [tahmin_et] succeeds but
    [grafik_uret] cannot convert the dates; the POST fails with a 500
    and the global forecast is left as it was. *)
Theorem post_after_timestamp_max st s1 s2 tol b e d :
  load_and_prepare_data veri <> [] ->
  strptime fmt_ymd s1 = Ok b -> strptime fmt_ymd s2 = Ok e -> (toordinal e < MAXORDINAL)%Z ->
  valid d = true -> date_leb b d = true -> date_leb d e = true -> resmi_tatil_mi d = false ->
  date_leb d TS_MAX = false ->
  exists msg, handle veri fit st (PostIndex (Some s1) (Some s2) tol) = (Hata500 (ValueError msg), st).
Proof.
  intros Hne H1 H2 Hmax V Hb He Hg Hd. cbn [handle]. unfold post_hesapla, egit_modeller_sonuc.
  destruct (load_and_prepare_data veri) as [|h df]; [congruence|]. cbn [bind].
  set (M := egit_modeller fit (h :: df)).
  rewrite (tahmin_et_liste M s1 s2 _ b e H1 H2 Hmax). cbn [bind].
  assert (Hin : In (gun_tahmini M d) (map (gun_tahmini M) (filter is_gun (aralik b e)))).
  { apply in_map, filter_In. split; [|unfold is_gun; rewrite Hg; reflexivity].
    apply (aralik_spec b e (strptime_valid _ _ _ H1) (strptime_valid _ _ _ H2)). auto. }
  destruct (tarihleri_cevir_Err (map (gun_tahmini M) (filter is_gun (aralik b e)))) as [msg E].
  { exists (gun_tahmini M d). split; [exact Hin|]. intros d' E'.
    change (f_tarih (gun_tahmini M d)) with (strftime_ymd d) in E'.
    assert (Hy : (1000 <= year d)%Z).
    { apply Bool.not_true_iff_false in Hd. rewrite date_leb_lex in Hd. cbn in Hd. lia. }
    rewrite strptime_strftime in E' by auto. injection E' as <-.
    unfold in_ts_bounds. rewrite Hd, andb_false_r. reflexivity. }
  exists msg. unfold grafik_uret, grafik_verisi.
  destruct (map (gun_tahmini M) (filter is_gun (aralik b e))) as [|r0 rs]; [destruct Hin|].
  rewrite E. reflexivity.
Qed.

(** [(C25)] The download serves the forecast last shown: after a POST
    whose page shows a non-empty forecast, [/indir] answers with exactly
    those records, and the global holds them. *)
Theorem indir_son_tahmin st s1 s2 tol t sec g :
  fst (handle veri fit st (PostIndex (Some s1) (Some s2) tol)) = Sayfa t sec g -> t <> [] ->
  handle veri fit (snd (handle veri fit st (PostIndex (Some s1) (Some s2) tol))) GetIndir =
  (ExcelDosyasi DOSYA_ADI (excel_tablosu t), mkState t).
Proof.
  cbn [handle]. destruct (post_hesapla veri fit s1 s2 _) as [[t' g']|e]; cbn [fst snd];
    intros Hp Hne; [injection Hp as -> _ _ | discriminate].
  destruct t; [contradiction | reflexivity].
Qed.
End ServerProofs.

(** ** Witnesses *)

#[local] Instance app_tatiller : HolidayProvider := {| tr_holidays := fun _ => false |}.
#[local] Instance app_png : PngYazici := {| savefig := baslik_baytlari; savefig_bayt := baslik_baytlari_bayt |}.

(** A fitting function that predicts the mean of its targets. *)
Definition ortalama_fit (X : list Features) (ys : list Z) : Features -> Q :=
  fun _ => (inject_Z (fold_left Z.add ys 0%Z) / inject_Z (Z.of_nat (List.length ys)))%Q.

Definition ornek_veri : list RawRow := [csv_satiri "15032023"; csv_satiri "16032023"].

Definition ornek_istek : Request := PostIndex (Some "2024-04-19"%string) (Some "2024-04-24"%string) None.

Definition ornek_durum : AppState := snd (handle ornek_veri ortalama_fit baslangic_durumu ornek_istek).

Lemma app_invariant_witness :
  reachable ornek_veri ortalama_fit ornek_durum /\ son_tahminler ornek_durum <> [] /\
  forall r, In r (son_tahminler ornek_durum) ->
    exists d, r = gun_tahmini (egit_modeller ortalama_fit (load_and_prepare_data ornek_veri)) d /\
      resmi_tatil_mi d = false /\
      (((f_sinava_katilacak r <= 45)%Z /\ (20 <= f_davet_edilen r < 150)%Z) \/
       (f_davet_edilen r = 20%Z /\ (45 <= f_sinava_katilacak r)%Z)).
Proof.
  assert (R : reachable ornek_veri ortalama_fit ornek_durum)
    by (apply reachable_step, reachable_init).
  split; [exact R|]. split; [vm_compute; discriminate|].
  apply (app_invariant ornek_veri ortalama_fit ornek_durum R).
Defined.

Lemma post_reversed_clears_witness :
  load_and_prepare_data ornek_veri <> [] /\
  handle ornek_veri ortalama_fit
    (snd (handle ornek_veri ortalama_fit ornek_durum (PostIndex (Some "2024-04-24"%string) (Some "2024-04-19"%string) None)))
    GetIndir = (Hata400 "Henüz tahmin yapılmadı.", mkState []).
Proof.
  assert (Hne : load_and_prepare_data ornek_veri <> []) by (vm_compute; discriminate).
  split; [exact Hne|].
  apply (post_reversed_clears ornek_veri ortalama_fit ornek_durum _ _ None
           (mkdate 2024 4 24) (mkdate 2024 4 19) Hne); vm_compute; reflexivity.
Defined.

Definition grafik_uret_sonuc (t : list DailyForecast) : option (string * string * string) :=
  match grafik_uret t with Ok g => g | Err _ => None end.

Definition ornek_sayfa : Response := fst (handle ornek_veri ortalama_fit baslangic_durumu ornek_istek).

Definition sayfa_tahminleri (r : Response) : list DailyForecast :=
  match r with Sayfa t _ _ => t | _ => [] end.

Lemma indir_son_tahmin_witness :
  ornek_sayfa = Sayfa (sayfa_tahminleri ornek_sayfa) (Some "2024-04-19 → 2024-04-24"%string)
                      (grafik_uret_sonuc (sayfa_tahminleri ornek_sayfa)) /\
  sayfa_tahminleri ornek_sayfa <> [] /\
  handle ornek_veri ortalama_fit ornek_durum GetIndir =
  (ExcelDosyasi DOSYA_ADI (excel_tablosu (sayfa_tahminleri ornek_sayfa)),
   mkState (sayfa_tahminleri ornek_sayfa)).
Proof.
  assert (H1 : ornek_sayfa = Sayfa (sayfa_tahminleri ornek_sayfa) (Some "2024-04-19 → 2024-04-24"%string)
                      (grafik_uret_sonuc (sayfa_tahminleri ornek_sayfa))) by (vm_compute; reflexivity).
  assert (H2 : sayfa_tahminleri ornek_sayfa <> []) by (vm_compute; discriminate).
  split; [exact H1|]. split; [exact H2|].
  exact (indir_son_tahmin ornek_veri ortalama_fit baslangic_durumu _ _ None _ _ _ H1 H2).
Defined.

Lemma post_after_timestamp_max_witness :
  load_and_prepare_data ornek_veri <> [] /\
  strptime fmt_ymd "2262-04-10"%string = Ok (mkdate 2262 4 10) /\
  strptime fmt_ymd "2262-04-14"%string = Ok (mkdate 2262 4 14) /\
  exists msg, handle ornek_veri ortalama_fit ornek_durum
    (PostIndex (Some "2262-04-10"%string) (Some "2262-04-14"%string) None) =
    (Hata500 (ValueError msg), ornek_durum).
Proof.
  assert (Hne : load_and_prepare_data ornek_veri <> []) by (vm_compute; discriminate).
  assert (H1 : strptime fmt_ymd "2262-04-10"%string = Ok (mkdate 2262 4 10)) by (vm_compute; reflexivity).
  assert (H2 : strptime fmt_ymd "2262-04-14"%string = Ok (mkdate 2262 4 14)) by (vm_compute; reflexivity).
  split; [exact Hne|]. split; [exact H1|]. split; [exact H2|].
  apply (post_after_timestamp_max ornek_veri ortalama_fit ornek_durum _ _ None _ _ (mkdate 2262 4 14)
           Hne H1 H2); vm_compute; reflexivity.
Defined.

Definition eksik_veri : list RawRow := [csv_satiri "15032023"; mkRaw None 100 90 10 85].

Lemma post_empty_data_witness :
  load_and_prepare_data eksik_veri = [] /\
  handle eksik_veri ortalama_fit ornek_durum ornek_istek =
  (Hata500 (ValueError "Found array with 0 sample(s) while a minimum of 1 is required"), ornek_durum).
Proof.
  assert (He : load_and_prepare_data eksik_veri = []) by (vm_compute; reflexivity).
  split; [exact He|]. apply (post_empty_data eksik_veri ortalama_fit ornek_durum _ _ _ He).
Defined.

End App.
