(* ===== verification/Sunucu.v ===== *)
(** * Sunucu: the handlers under Flask's threaded development server

    [app.run(debug=True)] ([src/app.py] lines 176-177) starts Werkzeug's
    development server, which is threaded by default: each request runs
    in its own thread and the threads share the global [son_tahminler].
    The atomic steps of a thread are its accesses to the global, since
    an assignment or a read of a global name is one bytecode under the
    interpreter lock:

    - a POST of [index] reads the form, trains and forecasts without
      touching the global, then writes it once (line 159): one step,
      the [handle] of [App];
    - [indir] reads the global twice: [if not son_tahminler] (line 166)
      and [pd.DataFrame(son_tahminler)] (line 169), two steps.

    A server state [Sunucu] holds the global, the threads in progress
    ([Is], at their next access) and the responses sent. [adim] is the
    step relation: a request arrives, or any thread takes its next step.

    The theorems: the invariant of [App] holds in every state of every
    interleaving and for every sheet served (rule induction); a request
    run alone answers as [handle] does; and the check and the use of
    [indir] can see different values: a POST between them makes
    [/indir] send the empty sheet that its check was meant to refuse. *)

From Stdlib Require Import ZArith QArith List Lia Bool String.
From S2P Require Import Prelude Calendar Strptime Optimizer Forecast Dataset Charts Base64 Figures Excel App.
Import ListNotations PyDate Optimizer Forecast Dataset Figures Excel App.

Module Sunucu.

(** ** Threads and server states *)

(** A thread at its next access to the global. *)
Inductive Is :=
| PostIs (start_date end_date tolerans : option string)
| GetIs
| IndirKontrol   (* line 166 *)
| IndirOku.      (* line 169 *)

Record Sunucu := mkSunucu {
  global : AppState;
  isler : list Is;
  yanitlar : list Response }.

Definition baslangic : Sunucu := mkSunucu baslangic_durumu [] [].

Definition is_baslat (req : Request) : Is :=
  match req with
  | PostIndex a b c => PostIs a b c
  | GetIndex => GetIs
  | GetIndir => IndirKontrol
  end.

Section Threads.
Context `{HolidayProvider} `{PngYazici}.
Variable veri : list RawRow.
Variable fit : list Features -> list Z -> (Features -> Q).

(** One atomic step of a thread: it goes on ([inl]) or answers
    ([inr]), and the global after the step. *)
Definition is_adimi (st : AppState) (t : Is) : (Is + Response) * AppState :=
  match t with
  | PostIs a b c => let '(r, st') := handle veri fit st (PostIndex a b c) in (inr r, st')
  | GetIs => let '(r, st') := handle veri fit st GetIndex in (inr r, st')
  | IndirKontrol =>
      match son_tahminler st with
      | [] => (inr (Hata400 "Henüz tahmin yapılmadı."), st)
      | _ :: _ => (inl IndirOku, st)
      end
  | IndirOku => (inr (ExcelDosyasi DOSYA_ADI (excel_tablosu (son_tahminler st))), st)
  end.

(** Thread [i] takes its step; a thread that answers leaves the pool. *)
Definition sunucu_adimi (s : Sunucu) (i : nat) : option Sunucu :=
  match nth_error (isler s) i with
  | None => None
  | Some t =>
      let '(x, st') := is_adimi (global s) t in
      Some match x with
           | inl t' => mkSunucu st' (firstn i (isler s) ++ t' :: skipn (S i) (isler s)) (yanitlar s)
           | inr r => mkSunucu st' (firstn i (isler s) ++ skipn (S i) (isler s)) (yanitlar s ++ [r])
           end
  end.

Inductive adim : Sunucu -> Sunucu -> Prop :=
| istek_gelir s req :
    adim s (mkSunucu (global s) (isler s ++ [is_baslat req]) (yanitlar s))
| is_ilerler s i s' : sunucu_adimi s i = Some s' -> adim s s'.

End Threads.

(** ** The invariant of every interleaving *)

Section Proofs.
Context `{HolidayProvider} `{PngYazici}.
Variable veri : list RawRow.
Variable fit : list Features -> list Z -> (Features -> Q).

(** A record the trained models made for a business day, within the
    capacity or the fallback day. *)
Definition kayit_gecerli (r : DailyForecast) : Prop :=
  exists d, r = gun_tahmini (egit_modeller fit (load_and_prepare_data veri)) d /\
    resmi_tatil_mi d = false /\
    (((f_sinava_katilacak r <= 45)%Z /\ (20 <= f_davet_edilen r < 150)%Z) \/
     (f_davet_edilen r = 20%Z /\ (45 <= f_sinava_katilacak r)%Z)).

(** The global and every sheet sent hold such records only. *)
Definition sunucu_inv (s : Sunucu) : Prop :=
  (forall r, In r (son_tahminler (global s)) -> kayit_gecerli r) /\
  (forall n t, In (ExcelDosyasi n t) (yanitlar s) ->
     exists l, t = excel_tablosu l /\ forall r, In r l -> kayit_gecerli r).

Lemma handle_post_inv st a b c :
  (forall r, In r (son_tahminler st) -> kayit_gecerli r) ->
  (forall r, In r (son_tahminler (snd (handle veri fit st (PostIndex a b c)))) -> kayit_gecerli r) /\
  (forall n t, fst (handle veri fit st (PostIndex a b c)) <> ExcelDosyasi n t).
Proof.
  intros Hst. destruct a as [a|], b as [b|]; cbn [handle fst snd]; try (split; [exact Hst | discriminate]).
  destruct (post_hesapla veri fit a b _) as [[t g]|e] eqn:E; cbn [fst snd];
    (split; [|discriminate]); [|exact Hst].
  apply (tahmin_et_kayitlari _ _ _ _ _ (post_hesapla_Ok _ _ _ _ _ _ _ E)).
Qed.

Lemma sunucu_inv_yanit st isl ys r :
  sunucu_inv (mkSunucu st isl ys) ->
  (forall n t, r = ExcelDosyasi n t -> exists l, t = excel_tablosu l /\ forall x, In x l -> kayit_gecerli x) ->
  forall isl', sunucu_inv (mkSunucu st isl' (ys ++ [r])).
Proof.
  intros [Hg Hy] Hr isl'. split; [exact Hg|]. cbn [yanitlar].
  intros n t [Hin | [Er | []]]%in_app_iff; [exact (Hy n t Hin) | exact (Hr n t Er)].
Qed.

Lemma adim_inv s s' : adim veri fit s s' -> sunucu_inv s -> sunucu_inv s'.
Proof.
  destruct 1 as [s req | s i s' E]; [intros [Hg Hy]; split; assumption|].
  destruct s as [st isl ys]. unfold sunucu_adimi in E. cbn [isler global yanitlar] in E.
  destruct (nth_error isl i) as [t|]; [|discriminate].
  intros Hinv. pose proof Hinv as [Hg Hy].
  destruct t as [a b c| | |]; cbn [is_adimi] in E.
  - destruct (handle_post_inv st a b c Hg) as [H1 H2].
    destruct (handle veri fit st (PostIndex a b c)) as [r st'] eqn:Eh. cbn [fst snd] in H1, H2.
    injection E as <-. split; [exact H1|]. cbn [yanitlar].
    intros n t [Hin | [Er | []]]%in_app_iff; [exact (Hy n t Hin) | destruct (H2 n t Er)].
  - cbn [handle] in E. injection E as <-. eapply sunucu_inv_yanit; [exact Hinv | discriminate].
  - destruct (son_tahminler st); injection E as <-; [eapply sunucu_inv_yanit; [exact Hinv | discriminate]|].
    split; assumption.
  - injection E as <-. eapply sunucu_inv_yanit; [exact Hinv|].
    intros n t [= <- <-]. exists (son_tahminler st). split; [reflexivity | exact Hg].
Qed.

Lemma star_inv s s' : star (adim veri fit) s s' -> sunucu_inv s -> sunucu_inv s'.
Proof. induction 1; eauto using adim_inv. Qed.

(** [(C27)] Invariant of the threaded server, by induction on the steps
    of any interleaving of any requests: the global [son_tahminler]
    holds only records the trained models made for business days,
    each within the capacity or the fallback day, and so does every
    sheet [/indir] has sent. *)
Theorem sunucu_degismez s :
  star (adim veri fit) baslangic s ->
  (forall r, In r (son_tahminler (global s)) -> kayit_gecerli r) /\
  (forall n t, In (ExcelDosyasi n t) (yanitlar s) ->
     exists l, t = excel_tablosu l /\ forall r, In r l -> kayit_gecerli r).
Proof.
  intros Hs. apply (star_inv _ _ Hs). split; [intros r [] | intros n t []].
Qed.


(** [(C28)] The check of [indir] and its use race with a POST: run
    alone, [/indir] never sends the empty sheet, but when a POST whose
    forecast is empty (a reversed range) writes the global between the
    check of line 166 and the read of line 169 of another client's
    download, that download is the empty sheet. *)
Theorem indir_yarisi a b t g a' b' g' :
  post_hesapla veri fit a b false = Ok (t, g) -> t <> [] ->
  post_hesapla veri fit a' b' false = Ok ([], g') ->
  (forall st, fst (handle veri fit st GetIndir) <> ExcelDosyasi DOSYA_ADI (excel_tablosu [])) /\
  exists s, star (adim veri fit) baslangic s /\
            In (ExcelDosyasi DOSYA_ADI (excel_tablosu [])) (yanitlar s).
Proof.
  intros H1 Ht H2. split.
  { intros st. cbn [handle]. destruct (son_tahminler st); [discriminate|]. discriminate. }
  destruct t as [|x l]; [contradiction|].
  eexists. split.
  - eapply star_step; [apply (istek_gelir _ _ _ (PostIndex (Some a) (Some b) None))|].
    eapply star_step; [apply (is_ilerler _ _ _ 0); cbn -[post_hesapla]; rewrite H1; reflexivity|].
    eapply star_step; [apply (istek_gelir _ _ _ GetIndir)|].
    eapply star_step; [apply (is_ilerler _ _ _ 0); reflexivity|].
    eapply star_step; [apply (istek_gelir _ _ _ (PostIndex (Some a') (Some b') None))|].
    eapply star_step; [apply (is_ilerler _ _ _ 1); cbn -[post_hesapla]; rewrite H2; reflexivity|].
    eapply star_step; [apply (is_ilerler _ _ _ 0); reflexivity|].
    apply star_refl.
  - cbn -[excel_tablosu]. right. right. left. reflexivity.
Qed.

End Proofs.

(** ** Witnesses *)

#[local] Instance sunucu_tatiller : HolidayProvider := {| tr_holidays := fun _ => false |}.
#[local] Instance sunucu_png : PngYazici :=
  {| savefig := baslik_baytlari; savefig_bayt := baslik_baytlari_bayt |}.

Definition tek_gun : Request :=
  PostIndex (Some "2024-04-19"%string) (Some "2024-04-19"%string) None.

Definition tek_gun_sonrasi : Sunucu :=
  mkSunucu (snd (handle ornek_veri ortalama_fit baslangic_durumu tek_gun)) []
    [fst (handle ornek_veri ortalama_fit baslangic_durumu tek_gun)].

Lemma sunucu_degismez_witness :
  star (adim ornek_veri ortalama_fit) baslangic tek_gun_sonrasi /\
  son_tahminler (global tek_gun_sonrasi) <> [] /\
  (forall r, In r (son_tahminler (global tek_gun_sonrasi)) -> kayit_gecerli ornek_veri ortalama_fit r).
Proof.
  assert (R : star (adim ornek_veri ortalama_fit) baslangic tek_gun_sonrasi).
  { eapply star_step; [apply (istek_gelir _ _ _ tek_gun)|].
    apply star_one, (is_ilerler _ _ _ 0). vm_compute. reflexivity. }
  split; [exact R|]. split; [vm_compute; discriminate|].
  exact (proj1 (sunucu_degismez ornek_veri ortalama_fit _ R)).
Defined.

Lemma indir_yarisi_witness :
  exists t g g',
    post_hesapla ornek_veri ortalama_fit "2024-04-19" "2024-04-19" false = Ok (t, g) /\ t <> [] /\
    post_hesapla ornek_veri ortalama_fit "2024-04-24" "2024-04-19" false = Ok ([], g') /\
    exists s, star (adim ornek_veri ortalama_fit) baslangic s /\
              In (ExcelDosyasi DOSYA_ADI (excel_tablosu [])) (yanitlar s).
Proof.
  destruct (post_hesapla ornek_veri ortalama_fit "2024-04-19" "2024-04-19" false)
    as [[t g]|e] eqn:E1; [|vm_compute in E1; discriminate E1].
  destruct (post_hesapla ornek_veri ortalama_fit "2024-04-24" "2024-04-19" false)
    as [[t' g']|e] eqn:E2; [|vm_compute in E2; discriminate E2].
  assert (Ht : t <> []) by (vm_compute in E1; injection E1 as <- _; discriminate).
  assert (Ht' : t' = []) by (vm_compute in E2; injection E2 as <- _; reflexivity). subst t'.
  exists t, g, g'. split; [reflexivity|]. split; [exact Ht|]. split; [reflexivity|].
  exact (proj2 (indir_yarisi ornek_veri ortalama_fit _ _ _ _ _ _ _ E1 Ht E2)).
Defined.

End Sunucu.
