(* ===== verification/Orman.v ===== *)
(** * Orman: the random forests of [egit_modeller] and their predictions

    [egit_modeller] ([src/app.py] lines 27-41) builds four
    [RandomForestRegressor(n_estimators=100, random_state=42)] and fits
    each on the feature columns [Gün], [Ay], [Hafta], [Tatil];
    [tahmin_et] calls [model.predict(X)[0]] on a one-row frame (lines
    64-73). This file models scikit-learn's prediction code and states
    its training as an interface:

    - a fitted tree ([Agac]) is a leaf holding its value or a split
      node on a feature and a threshold; [agac_tahmini] is
      [Tree.apply] followed by the leaf's value: the sample goes left
      when [X[feature] <= threshold];
    - [orman_tahmini] is [ForestRegressor.predict]: the predictions of
      the estimators, in order, added into a float accumulator
      starting at [0.0], then divided by the number of estimators, each
      addition and the division rounded to binary64 ([Float64.b64]);
    - the class [OrmanEgitimi] is [fit]: it returns the 100 fitted
      trees, and each leaf value is the mean of the targets of the
      training samples in that leaf, counted with their bootstrap
      multiplicity ([sum_total / weighted_n_node_samples] of the
      squared-error criterion: an exact integer sum, one rounded
      division). The split search and the random bootstrap of
      [random_state=42] are not modelled: they only decide which
      samples reach which leaf.

    [orman_fit] instantiates the fitting function [fit] of [Dataset]
    and [App]. The theorems: a forest predicts within the range of its
    targets, and so every page of the application shows counts that
    are not negative when the history's counts are not. *)

From Stdlib Require Import ZArith QArith Qabs Qround Lqa Lia List Bool String.
From S2P Require Import Prelude Calendar Strptime Float64 Optimizer Forecast Dataset Charts Figures Excel App.
Import ListNotations PyDate Float64 Optimizer Forecast Dataset Figures App.

Module Orman.

Local Open Scope Q_scope.

(** ** Trees and forests *)

(** A fitted regression tree: a leaf and its value, or a node that
    sends a sample left when its feature is at most the threshold. *)
Inductive Agac :=
| Yaprak (deger : Q)
| Dugum (ozellik : nat) (esik : Q) (sol sag : Agac).

(** The columns of [X] in the order of [features] (line 28); the
    values are integers, exact in the [float32] the tree reads. *)
Definition ozellik_degeri (X : Features) (i : nat) : Q :=
  inject_Z (nth i [gun X; ay X; hafta X; tatil X] 0%Z).

(** [DecisionTreeRegressor.predict] of one sample. *)
Fixpoint agac_tahmini (t : Agac) (X : Features) : Q :=
  match t with
  | Yaprak v => v
  | Dugum f e sol sag =>
      if Qle_bool (ozellik_degeri X f) e then agac_tahmini sol X else agac_tahmini sag X
  end.

(** The values of the leaves of a tree. *)
Fixpoint yapraklar (t : Agac) : list Q :=
  match t with
  | Yaprak v => [v]
  | Dugum _ _ sol sag => yapraklar sol ++ yapraklar sag
  end.

(** [y_hat += e.predict(X)] over the estimators, in order. *)
Definition biriktir (agaclar : list Agac) (X : Features) : Q :=
  fold_left (fun acc t => b64 (acc + agac_tahmini t X)) agaclar 0.

(** [ForestRegressor.predict]: [y_hat /= len(self.estimators_)]. *)
Definition orman_tahmini (agaclar : list Agac) (X : Features) : Q :=
  b64 (biriktir agaclar X / inject_Z (Z.of_nat (List.length agaclar))).

(** The mean of the targets of the samples in a leaf, rounded once. *)
Definition yaprak_degeri (ornekler : list Z) : Q :=
  b64 (inject_Z (fold_right Z.add 0%Z ornekler) / inject_Z (Z.of_nat (List.length ornekler))).

(** [RandomForestRegressor(n_estimators=100, random_state=42).fit(X, y)]:
    the estimators it fits and what their leaves hold. *)
Class OrmanEgitimi := {
  orman_egit : list Features -> list Z -> list Agac;
  orman_boyu : forall X ys, ys <> [] -> List.length (orman_egit X ys) = 100%nat;
  yaprak_ortalama : forall X ys t v, ys <> [] -> In t (orman_egit X ys) -> In v (yapraklar t) ->
    exists ornekler, ornekler <> [] /\ incl ornekler ys /\ v = yaprak_degeri ornekler }.

(** The fitting function of [egit_modeller]: [fit] then [predict]. *)
Definition orman_fit `{OrmanEgitimi} (X : list Features) (ys : list Z) : Features -> Q :=
  orman_tahmini (orman_egit X ys).

(** ** Range of the prediction *)

(** Integers below [2^53] are binary64 numbers. *)
Lemma b64_int (z : Z) : (Z.abs z < 2 ^ 53)%Z -> b64 (inject_Z z) == inject_Z z.
Proof.
  intros Hz. destruct (Z.eq_dec z 0) as [->|Hn]; [rewrite b64_zero; reflexivity|].
  assert (Hq : ~ inject_Z z == 0)
    by (change (~ inject_Z z == inject_Z 0); rewrite inject_Z_injective; exact Hn).
  rewrite b64_eq by exact Hq. set (e := ulp_exp (inject_Z z)).
  assert (He : (e <= 0)%Z).
  { unfold e, ulp_exp. apply Z.max_lub; [unfold EMIN; lia|].
    assert (Ha : 0 < Qabs (inject_Z z)) by (apply Qabs_pos_neq, Hq).
    destruct (flog2_spec _ Ha) as [Hl _].
    destruct (Z_lt_le_dec (flog2 (Qabs (inject_Z z))) 53) as [L|L]; [lia|].
    exfalso. apply (pow2_le 53) in L.
    assert (Hab : Qabs (inject_Z z) = inject_Z (Z.abs z)) by reflexivity.
    rewrite <- pow2_Z in L by lia. rewrite Hab in Hl, L.
    assert (2 ^ 53 <= Z.abs z)%Z by (rewrite Zle_Qle; eapply Qle_trans; [exact L | exact Hl]). lia. }
  assert (Hm : inject_Z z * 2 ^ (- e) == inject_Z (z * 2 ^ (- e))%Z)
    by (rewrite inject_Z_mult, pow2_Z by lia; reflexivity).
  rewrite Hm, py_round_inject, inject_Z_mult, pow2_Z by lia.
  rewrite <- Qmult_assoc, (Qmult_comm (2 ^ (- e))), pow2_inv. ring.
Qed.

(** The sum of integers in [[lo, hi]]. *)
Lemma toplam_aralik (lo hi : Z) (s : list Z) :
  (forall y, In y s -> lo <= y <= hi)%Z ->
  (Z.of_nat (List.length s) * lo <= fold_right Z.add 0 s <= Z.of_nat (List.length s) * hi)%Z.
Proof.
  induction s as [|y s IH]; intros Hs; [cbn; lia|].
  cbn [List.length fold_right]. rewrite Nat2Z.inj_succ.
  destruct (Hs y (or_introl eq_refl)). destruct IH as [IH1 IH2]; [intros; apply Hs; right; auto|].
  nia.
Qed.

(** [n * lo <= x <= n * hi] gives [lo <= x / n <= hi]. *)
Lemma bolum_aralik (lo hi : Z) (x : Q) (n : Z) :
  (0 < n)%Z -> inject_Z (n * lo) <= x -> x <= inject_Z (n * hi) ->
  inject_Z lo <= x / inject_Z n /\ x / inject_Z n <= inject_Z hi.
Proof.
  intros Hn H1 H2. assert (Hq : 0 < inject_Z n) by (change (inject_Z 0 < inject_Z n); rewrite <- Zlt_Qlt; exact Hn).
  rewrite inject_Z_mult in H1, H2. split.
  - apply Qle_shift_div_l; [exact Hq|]. rewrite Qmult_comm. exact H1.
  - apply Qle_shift_div_r; [exact Hq|]. rewrite Qmult_comm. exact H2.
Qed.

(** Rounding keeps a value within integer bounds below [2^53]. *)
Lemma b64_aralik (lo hi : Z) (x : Q) :
  (Z.abs lo < 2 ^ 53)%Z -> (Z.abs hi < 2 ^ 53)%Z ->
  inject_Z lo <= x <= inject_Z hi -> inject_Z lo <= b64 x <= inject_Z hi.
Proof.
  intros Hl Hh [H1 H2]. rewrite <- (b64_int lo Hl), <- (b64_int hi Hh).
  split; apply b64_mono; assumption.
Qed.

(** A leaf of samples in [[lo, hi]] holds a value in [[lo, hi]]. *)
Lemma yaprak_degeri_aralik (lo hi : Z) (s : list Z) :
  (Z.abs lo < 2 ^ 53)%Z -> (Z.abs hi < 2 ^ 53)%Z -> s <> [] ->
  (forall y, In y s -> lo <= y <= hi)%Z ->
  inject_Z lo <= yaprak_degeri s <= inject_Z hi.
Proof.
  intros Hl Hh Hne Hs. apply b64_aralik; [exact Hl | exact Hh|].
  destruct (toplam_aralik lo hi s Hs) as [H1 H2].
  apply bolum_aralik; [destruct s; [contradiction | cbn [List.length]; lia] | |];
    rewrite <- Zle_Qle; assumption.
Qed.

(** A tree predicts the value of one of its leaves. *)
Lemma agac_tahmini_yaprak (t : Agac) (X : Features) : In (agac_tahmini t X) (yapraklar t).
Proof.
  induction t as [v|f e sol IHs sag IHg]; cbn; [left; reflexivity|].
  apply in_or_app. destruct (Qle_bool _ e); auto.
Qed.

Section Aralik.
(** The bounds of the targets, small enough that a hundred of them add
    up exactly in binary64: [100 * 2^46 < 2^53]. *)
Variables lo hi : Z.
Hypothesis lo_sinir : (Z.abs lo <= 2 ^ 46)%Z.
Hypothesis hi_sinir : (Z.abs hi <= 2 ^ 46)%Z.

Lemma katlar_tam (m : Z) : (0 <= m <= 100)%Z ->
  (Z.abs (m * lo) < 2 ^ 53)%Z /\ (Z.abs (m * hi) < 2 ^ 53)%Z.
Proof.
  intros Hm. assert (E : (2 ^ 53 = 128 * 2 ^ 46)%Z) by reflexivity.
  assert (P : (0 < 2 ^ 46)%Z) by reflexivity.
  rewrite !Z.abs_mul, E. split; nia.
Qed.

(** Tree predictions in [[lo, hi]]. *)
Definition agaclar_aralikta (agaclar : list Agac) (X : Features) : Prop :=
  forall t, In t agaclar -> inject_Z lo <= agac_tahmini t X <= inject_Z hi.

(** After [k] additions of values in [[lo, hi]] the accumulator is in
    [[k * lo, k * hi]], every partial sum being exact. *)
Lemma biriktir_aralik_gen (X : Features) (l : list Agac) (acc : Q) (k : nat) :
  (k + List.length l <= 100)%nat -> agaclar_aralikta l X ->
  inject_Z (Z.of_nat k * lo) <= acc <= inject_Z (Z.of_nat k * hi) ->
  inject_Z (Z.of_nat (k + List.length l) * lo) <= fold_left (fun acc t => b64 (acc + agac_tahmini t X)) l acc
  <= inject_Z (Z.of_nat (k + List.length l) * hi).
Proof.
  revert acc k. induction l as [|t l IH]; intros acc k Hk Hl [H1 H2]; cbn [fold_left List.length].
  { rewrite Nat.add_0_r. split; assumption. }
  replace (k + S (List.length l))%nat with (S k + List.length l)%nat by lia.
  apply IH; [cbn [List.length] in Hk; lia | intros t' Ht'; apply Hl; right; exact Ht'|].
  destruct (Hl t (or_introl eq_refl)) as [P1 P2].
  destruct (katlar_tam (Z.of_nat (S k))) as [K1 K2]; [cbn [List.length] in Hk; lia|].
  apply b64_aralik; [exact K1 | exact K2|].
  rewrite Nat2Z.inj_succ, <- Z.add_1_r, !Z.mul_add_distr_r, !Z.mul_1_l, !inject_Z_plus.
  split; apply Qplus_le_compat; assumption.
Qed.

(** A forest of at most a hundred trees whose predictions are in
    [[lo, hi]] predicts in [[lo, hi]]. *)
Lemma orman_tahmini_aralik (agaclar : list Agac) (X : Features) :
  agaclar <> [] -> (List.length agaclar <= 100)%nat -> agaclar_aralikta agaclar X ->
  inject_Z lo <= orman_tahmini agaclar X <= inject_Z hi.
Proof.
  intros Hne Hn Hl. unfold orman_tahmini, biriktir.
  destruct (biriktir_aralik_gen X agaclar 0 0 Hn Hl) as [B1 B2]; [cbn; split; apply Qle_refl|].
  destruct (katlar_tam 1) as [K1 K2]; [lia|]. rewrite Z.mul_1_l in K1, K2.
  apply b64_aralik; [exact K1 | exact K2|]. apply bolum_aralik; [| exact B1 | exact B2].
  destruct agaclar; [contradiction | cbn [List.length]; lia].
Qed.

(** Trained on targets in [[lo, hi]], every tree of the forest
    predicts in [[lo, hi]]. *)
Lemma egitim_aralikta `{OrmanEgitimi} (Xs : list Features) (ys : list Z) (X : Features) :
  ys <> [] -> (forall y, In y ys -> lo <= y <= hi)%Z -> agaclar_aralikta (orman_egit Xs ys) X.
Proof.
  intros Hne Hys t Ht.
  destruct (yaprak_ortalama Xs ys t _ Hne Ht (agac_tahmini_yaprak t X)) as (s & Hs & Hinc & ->).
  destruct (katlar_tam 1) as [K1 K2]; [lia|]. rewrite Z.mul_1_l in K1, K2.
  apply yaprak_degeri_aralik; [exact K1 | exact K2 | exact Hs | intros y Hy; apply Hys, Hinc, Hy].
Qed.

(** [(C22)] A random forest trained on integer targets in [[lo, hi]]
    ([|lo|, |hi| <= 2^46]) predicts a value in [[lo, hi]] on every
    input: each leaf is a rounded mean of some of the targets, each of
    the hundred partial sums of [predict] is exact, and the final
    division rounds back into the range. *)
Theorem orman_aralik `{OrmanEgitimi} (Xs : list Features) (ys : list Z) (X : Features) :
  ys <> [] -> (forall y, In y ys -> lo <= y <= hi)%Z ->
  inject_Z lo <= orman_fit Xs ys X <= inject_Z hi.
Proof.
  intros Hne Hys. unfold orman_fit. pose proof (orman_boyu Xs ys Hne) as Hn.
  apply orman_tahmini_aralik; [intros E; rewrite E in Hn; discriminate | lia |].
  apply egitim_aralikta; assumption.
Qed.
End Aralik.

(** ** The forests of the application *)

(** A prepared record comes from a row of the file. *)
Lemma load_satir `{HolidayProvider} (rows : list RawRow) (h : HistoricalRecord) :
  In h (load_and_prepare_data rows) -> In (h_satir h) rows.
Proof.
  unfold load_and_prepare_data. intros Hin. apply in_flat_map in Hin.
  destruct Hin as ([r [x|]] & Hp & Hx); [|destruct Hx].
  destruct Hx as [<- | []]. exact (in_combine_l _ _ _ _ Hp).
Qed.

(** The counts of every row between [0] and [2^46]. *)
Definition sayilar_sinirli (rows : list RawRow) : Prop :=
  forall r, In r rows ->
    (0 <= davet_sayisi r <= 2 ^ 46 /\ 0 <= teyit_sayisi r <= 2 ^ 46 /\
     0 <= teyit_yok_sayisi r <= 2 ^ 46 /\ 0 <= katilim_sayisi r <= 2 ^ 46)%Z.

(** A forest trained on one count column of such rows predicts a
    value that is not negative. *)
Lemma sutun_modeli_nonneg `{HolidayProvider} `{OrmanEgitimi} (rows : list RawRow) (sec : RawRow -> Z)
    (X : Features) :
  load_and_prepare_data rows <> [] -> (forall r, In r rows -> 0 <= sec r <= 2 ^ 46)%Z ->
  0 <= orman_fit (map h_ozellik (load_and_prepare_data rows))
         (map (fun h => sec (h_satir h)) (load_and_prepare_data rows)) X.
Proof.
  intros Hne Hs. set (ys := map (fun h => sec (h_satir h)) (load_and_prepare_data rows)).
  assert (Hy : ys <> []) by (unfold ys; destruct (load_and_prepare_data rows); [contradiction | discriminate]).
  unfold orman_fit. pose proof (orman_boyu (map h_ozellik (load_and_prepare_data rows)) ys Hy) as Hn.
  assert (S0 : (Z.abs 0 <= 2 ^ 46)%Z) by (vm_compute; intros E; discriminate E).
  assert (S1 : (Z.abs (2 ^ 46) <= 2 ^ 46)%Z) by (vm_compute; intros E; discriminate E).
  apply (orman_tahmini_aralik 0 (2 ^ 46) S0 S1); [intros E; rewrite E in Hn; discriminate | lia |].
  apply egitim_aralikta; [exact S0 | exact S1 | exact Hy|].
  intros y Hin. unfold ys in Hin. apply in_map_iff in Hin as (h & <- & Hh). apply Hs, (load_satir _ _ Hh).
Qed.

(** A successful POST trained on at least one record. *)
Lemma post_hesapla_dolu `{HolidayProvider} `{PngYazici} rows fit s1 s2 tol sonuc :
  post_hesapla rows fit s1 s2 tol = Ok sonuc -> load_and_prepare_data rows <> [].
Proof. unfold post_hesapla, egit_modeller_sonuc. intros Hp E. rewrite E in Hp. discriminate. Qed.

(** [(C24)] End to end: when every count of the CSV is between [0] and
    [2^46], every forecast that a POST page shows invites between 20
    and 149 candidates and has confirmed, declined and attending counts
    that are not negative. *)
Theorem sayfa_sayilari_nonneg `{HolidayProvider} `{PngYazici} `{OrmanEgitimi} rows st s1 s2 tol t sec g :
  sayilar_sinirli rows ->
  fst (handle rows orman_fit st (PostIndex (Some s1) (Some s2) tol)) = Sayfa t sec g ->
  forall r, In r t ->
    (20 <= f_davet_edilen r < 150)%Z /\ (0 <= f_teyit_veren r)%Z /\
    (0 <= f_teyit_vermeyen r)%Z /\ (0 <= f_sinava_katilacak r)%Z.
Proof.
  intros Hs Hp. cbn [handle] in Hp.
  destruct (post_hesapla rows orman_fit s1 s2 _) as [[t' g']|e] eqn:E; cbn [fst] in Hp;
    [injection Hp as -> _ _ | discriminate].
  intros r Hr. pose proof (post_hesapla_dolu _ _ _ _ _ _ E) as Hne.
  destruct (tahmin_et_kayitlari _ _ _ _ _ (post_hesapla_Ok _ _ _ _ _ _ _ E) r Hr) as (d & -> & _).
  unfold gun_tahmini. cbn [f_davet_edilen f_teyit_veren f_teyit_vermeyen f_sinava_katilacak].
  apply gun_sayilari_nonneg; unfold egit_modeller; cbn [model_davet model_teyit model_teyit_yok model_katilim];
    apply sutun_modeli_nonneg; try exact Hne; intros x Hx; destruct (Hs x Hx) as (? & ? & ? & ?); assumption.
Qed.

(** ** Witnesses *)

(** A non-empty sub-list of the targets, or all of them. *)
Definition ya_da_hepsi (s ys : list Z) : list Z :=
  match s with [] => ys | _ :: _ => s end.

(** The targets of the samples that [p] sends to one side. *)
Definition taraf (p : Features -> bool) (Xs : list Features) (ys : list Z) : list Z :=
  map snd (filter (fun xy => p (fst xy)) (combine Xs ys)).

(** A depth-one tree on the weekday: Monday to Wednesday on the left. *)
Definition hafta_basi_agaci (Xs : list Features) (ys : list Z) : Agac :=
  Dugum 0 2 (Yaprak (yaprak_degeri (ya_da_hepsi (taraf (fun X => gun X <=? 2)%Z Xs ys) ys)))
            (Yaprak (yaprak_degeri (ya_da_hepsi (taraf (fun X => negb (gun X <=? 2)%Z) Xs ys) ys))).

Lemma taraf_incl p Xs ys : incl (taraf p Xs ys) ys.
Proof.
  intros y Hy. unfold taraf in Hy. apply in_map_iff in Hy as ([x y'] & <- & Hin).
  apply filter_In in Hin as [Hin _]. exact (in_combine_r _ _ _ _ Hin).
Qed.

Lemma ya_da_hepsi_ok s ys : ys <> [] -> incl s ys -> ya_da_hepsi s ys <> [] /\ incl (ya_da_hepsi s ys) ys.
Proof. destruct s; cbn; [split; [assumption | apply incl_refl] | split; [discriminate | assumption]]. Qed.

Definition hafta_basi_orman (Xs : list Features) (ys : list Z) : list Agac :=
  repeat (hafta_basi_agaci Xs ys) 100.

Lemma hafta_basi_boyu Xs ys : ys <> [] -> List.length (hafta_basi_orman Xs ys) = 100%nat.
Proof. intros _. apply repeat_length. Qed.

Lemma hafta_basi_yapraklari Xs ys t v : ys <> [] -> In t (hafta_basi_orman Xs ys) -> In v (yapraklar t) ->
  exists ornekler, ornekler <> [] /\ incl ornekler ys /\ v = yaprak_degeri ornekler.
Proof.
  intros Hne Ht Hv. apply repeat_spec in Ht as ->.
  cbn in Hv. destruct Hv as [<- | [<- | []]]; eexists; (split; [|split]; [| | reflexivity]);
    apply ya_da_hepsi_ok; auto using taraf_incl.
Qed.

#[local] Instance hafta_basi_ormani : OrmanEgitimi :=
  {| orman_egit := hafta_basi_orman; orman_boyu := hafta_basi_boyu; yaprak_ortalama := hafta_basi_yapraklari |}.

Lemma orman_aralik_witness :
  (Z.abs 0 <= 2 ^ 46)%Z /\ (Z.abs 10 <= 2 ^ 46)%Z /\ [3; 5; 8]%Z <> [] /\
  (forall y, In y [3; 5; 8]%Z -> 0 <= y <= 10)%Z /\
  inject_Z 0 <= orman_fit [mkFeatures 0 1 1 0; mkFeatures 3 1 1 0; mkFeatures 4 1 1 0] [3; 5; 8]%Z
                  (mkFeatures 1 4 15 0) <= inject_Z 10.
Proof.
  assert (S0 : (Z.abs 0 <= 2 ^ 46)%Z) by (apply Z.leb_le; reflexivity).
  assert (S1 : (Z.abs 10 <= 2 ^ 46)%Z) by (apply Z.leb_le; reflexivity).
  assert (Hne : [3; 5; 8]%Z <> []) by discriminate.
  assert (Hy : forall y, In y [3; 5; 8]%Z -> (0 <= y <= 10)%Z) by (cbn; intros y Hy; intuition lia).
  split; [exact S0|]. split; [exact S1|]. split; [exact Hne|]. split; [exact Hy|].
  exact (orman_aralik 0 10 S0 S1 _ _ _ Hne Hy).
Defined.

#[local] Instance orman_tatiller : HolidayProvider := {| tr_holidays := fun _ => false |}.
#[local] Instance orman_png : PngYazici := {| savefig := baslik_baytlari; savefig_bayt := baslik_baytlari_bayt |}.

Definition orman_sayfasi : Response := fst (handle ornek_veri orman_fit baslangic_durumu ornek_istek).

Lemma sayfa_sayilari_nonneg_witness :
  sayilar_sinirli ornek_veri /\
  orman_sayfasi = Sayfa (sayfa_tahminleri orman_sayfasi) (Some "2024-04-19 → 2024-04-24"%string)
                        (grafik_uret_sonuc (sayfa_tahminleri orman_sayfasi)) /\
  forall r, In r (sayfa_tahminleri orman_sayfasi) ->
    (20 <= f_davet_edilen r < 150)%Z /\ (0 <= f_teyit_veren r)%Z /\
    (0 <= f_teyit_vermeyen r)%Z /\ (0 <= f_sinava_katilacak r)%Z.
Proof.
  assert (Hs : sayilar_sinirli ornek_veri)
    by (intros r Hr; cbn in Hr; destruct Hr as [<- | [<- | []]]; cbn; repeat split; apply Z.leb_le; reflexivity).
  assert (Hp : orman_sayfasi = Sayfa (sayfa_tahminleri orman_sayfasi) (Some "2024-04-19 → 2024-04-24"%string)
                        (grafik_uret_sonuc (sayfa_tahminleri orman_sayfasi))) by (vm_compute; reflexivity).
  split; [exact Hs|]. split; [exact Hp|].
  exact (sayfa_sayilari_nonneg ornek_veri baslangic_durumu _ _ None _ _ _ Hs Hp).
Defined.

End Orman.
